(** * River-Hackathon: a shallow embedding of the RAG demo and its properties

    The development follows the Python sources module by module:

    - [Py]           : the fragment of Python the sources rely on (exceptions,
                       results, a state-and-exception monad, [str] methods,
                       JSON values);
    - [Tenacity]     : the [retry] decorator with [stop_after_attempt] and
                       [wait_exponential];
    - [Process]      : the environment, the outside services and the record
                       of the calls made to them;
    - [LLMHandler]   : [Backend/src/rag/llm_handler.py];
    - [RAGInference] : [Backend/src/rag/rag_inference.py];
    - [TrafficApi]   : [Backend/src/rag/traffic_api_to_rag.py];
    - [IngestPdfs]   : [Backend/src/rag/ingest_pdfs.py];
    - [PdfProcessor] : [pdf_processor.py].

    The [...Notions] modules hold the vocabulary of the statements and the
    sample data of the examples; the [...Facts] and [...Spec] modules hold
    the lemmas and the properties of each source file.

    Remote services (LLM providers, the vector collection, the embedding
    model, PyMuPDF, the HTTP transport) are black boxes of the program: they
    are section variables, and every statement is proved for all of them.
    Logging and printing are left out. *)

From Stdlib Require Import ZArith Lia Ascii String.
From stdpp Require Import gmap strings list fin_maps pretty.

Local Open Scope string_scope.
Local Open Scope list_scope.

(* ===================================================================== *)
(** ** Python basics *)
(* ===================================================================== *)

Module Py.

(** The exception classes that occur in the sources.  All of them derive
    from [Exception]; [RetryError] is tenacity's wrapper around the last
    exception of a call that was given up. *)
Inductive exn : Type :=
| ValueError (msg : string)
| ConnectionError (msg : string)
| KeyError (key : string)
| IndexError
| TypeError (msg : string)
| Exception (msg : string)
| RequestException (msg : string)
| HTTPError (status : Z)
| JSONDecodeError
| IsADirectoryError (path : string)
| FileNotFoundError (path : string)
| FitzError (msg : string)
| AttributeError (msg : string)
| OSError (msg : string)
| RetryError (last : exn).

(** [str(e)], as used by the f-strings that wrap one exception in another. *)
Fixpoint exn_str (e : exn) : string :=
  match e with
  | ValueError m | ConnectionError m | TypeError m | Exception m
  | RequestException m | FitzError m | AttributeError m | OSError m => m
  | KeyError k => "'" +:+ k +:+ "'"
  | IndexError => "list index out of range"
  | HTTPError s => pretty s +:+ " Error"
  | JSONDecodeError => "Expecting value"
  | IsADirectoryError p => "[Errno 21] Is a directory: '" +:+ p +:+ "'"
  | FileNotFoundError p => "[Errno 2] No such file or directory: '" +:+ p +:+ "'"
  | RetryError e' => "RetryError[" +:+ exn_str e' +:+ "]"
  end.

(** [except requests.exceptions.RequestException]: the transport errors,
    the error of [raise_for_status] and that of [response.json()]. *)
Definition is_RequestException (e : exn) : bool :=
  match e with
  | RequestException _ | HTTPError _ | JSONDecodeError => true
  | _ => false
  end.

(** [except OSError]: the classes above that derive from [OSError]
    ([RequestException] derives from [IOError]); the constructor [OSError]
    stands for every other error of the operating system. *)
Definition is_OSError (e : exn) : bool :=
  match e with
  | IsADirectoryError _ | FileNotFoundError _ | ConnectionError _ | OSError _ => true
  | _ => is_RequestException e
  end.

(** The outcome of a call: a value, or a raised exception. *)
Inductive result (A : Type) : Type :=
| Ok (a : A)
| Raise (e : exn).
Arguments Ok {A} a.
Arguments Raise {A} e.

(** *** State and exceptions

    A computation reads and updates a state and either returns or raises.
    The state survives a raise: what a [try] block did before it failed is
    still done when the handler runs. *)
Definition M (St A : Type) : Type := St -> result A * St.

Definition ret {St A} (a : A) : M St A := fun s => (Ok a, s).

Definition raise {St A} (e : exn) : M St A := fun s => (Raise e, s).

Definition bind {St A B} (m : M St A) (k : A -> M St B) : M St B :=
  fun s =>
    match m s with
    | (Ok a, s') => k a s'
    | (Raise e, s') => (Raise e, s')
    end.

(** [try: body except Exception as e: handler e] *)
Definition try_except {St A} (body : M St A) (handler : exn -> M St A) : M St A :=
  fun s =>
    match body s with
    | (Ok a, s') => (Ok a, s')
    | (Raise e, s') => handler e s'
    end.

(** [try: body finally: cleanup].  [cleanup] runs on both exits; if it
    raises, its exception replaces the outcome of [body]. *)
Definition try_finally {St A} (body : M St A) (cleanup : M St unit) : M St A :=
  fun s =>
    match body s with
    | (r, s') =>
        match cleanup s' with
        | (Ok _, s'') => (r, s'')
        | (Raise e, s'') => (Raise e, s'')
        end
    end.

(** [try: body except C as e: handler e] for an exception class [C]. *)
Definition try_except_class {St A} (is_C : exn -> bool) (body : M St A)
    (handler : exn -> M St A) : M St A :=
  fun s =>
    match body s with
    | (Ok a, s') => (Ok a, s')
    | (Raise e, s') => if is_C e then handler e s' else (Raise e, s')
    end.

Definition lift_result {St A} (r : result A) : M St A := fun s => (r, s).

(** Run a computation on a component of a larger state. *)
Definition zoom {St St' A} (proj : St -> St') (upd : St' -> St -> St)
    (m : M St' A) : M St A :=
  fun s => match m (proj s) with (r, s') => (r, upd s' s) end.

Declare Scope py_scope.
Delimit Scope py_scope with py.
Notation "x <- c1 ;; c2" := (bind c1 (fun x => c2))
  (at level 100, c1 at next level, right associativity) : py_scope.
Notation "c1 ;;; c2" := (bind c1 (fun _ => c2))
  (at level 100, right associativity) : py_scope.

(** [for x in xs: acc = f acc x], with [f] effectful. *)
Fixpoint for_fold {St A B} (f : B -> A -> M St B) (xs : list A) (acc : B) : M St B :=
  match xs with
  | [] => ret acc
  | x :: xs' => bind (f acc x) (for_fold f xs')
  end.

(** *** Strings *)

Definition nl : string := String (Ascii.ascii_of_nat 10) EmptyString.

Definition is_upper (c : ascii) : bool :=
  let n := Ascii.nat_of_ascii c in (65 <=? n)%nat && (n <=? 90)%nat.
Definition is_lower (c : ascii) : bool :=
  let n := Ascii.nat_of_ascii c in (97 <=? n)%nat && (n <=? 122)%nat.

Definition lower_char (c : ascii) : ascii :=
  if is_upper c then Ascii.ascii_of_nat (Ascii.nat_of_ascii c + 32) else c.
Definition upper_char (c : ascii) : ascii :=
  if is_lower c then Ascii.ascii_of_nat (Ascii.nat_of_ascii c - 32) else c.

Fixpoint map_string (f : ascii -> ascii) (s : string) : string :=
  match s with
  | EmptyString => EmptyString
  | String c s' => String (f c) (map_string f s')
  end.

(** [s.lower()].  A string is its bytes; bytes outside ASCII are left
    alone.  (No character outside ASCII lower-cases to one of the ASCII
    letters of the strings that lower-cased text is compared with below.) *)
Definition lower (s : string) : string := map_string lower_char s.

(** [s.startswith(p)] *)
Fixpoint startswith (s p : string) : bool :=
  match p, s with
  | EmptyString, _ => true
  | String c p', String d s' => if Ascii.eqb c d then startswith s' p' else false
  | String _ _, EmptyString => false
  end.

(** [s.endswith(p)] *)
Definition endswith (s p : string) : bool :=
  startswith (String.rev s) (String.rev p).

(** [sep.join(parts)] *)
Definition join (sep : string) (parts : list string) : string :=
  String.concat sep parts.

(** [s.split(sep)[0]] for a one-character separator: the text before the
    first occurrence of [sep]. *)
Fixpoint split_head (sep : ascii) (s : string) : string :=
  match s with
  | EmptyString => EmptyString
  | String c s' => if Ascii.eqb c sep then EmptyString else String c (split_head sep s')
  end.

(** [s.replace(a, b)] for single characters. *)
Definition replace_char (a b : ascii) (s : string) : string :=
  map_string (fun c => if Ascii.eqb c a then b else c) s.

(** A [str] is kept as the bytes of its UTF-8 encoding.  A character is a
    byte that is not a continuation byte ([10xxxxxx]) together with the
    continuation bytes that follow it. *)
Definition is_continuation (c : ascii) : bool :=
  let n := Ascii.nat_of_ascii c in (128 <=? n)%nat && (n <? 192)%nat.
Definition is_ascii_char (c : ascii) : bool := (Ascii.nat_of_ascii c <? 128)%nat.
Fixpoint is_ascii (s : string) : bool :=
  match s with
  | EmptyString => true
  | String c s' => is_ascii_char c && is_ascii s'
  end.

(** [len(s)]: the number of characters. *)
Fixpoint str_len (s : string) : nat :=
  match s with
  | EmptyString => 0
  | String c s' => if is_continuation c then str_len s' else S (str_len s')
  end.

(** [s[:n]]: the first [n] characters. *)
Fixpoint str_prefix (n : nat) (s : string) : string :=
  match s with
  | EmptyString => EmptyString
  | String c s' =>
      if is_continuation c then String c (str_prefix n s')
      else match n with
           | O => EmptyString
           | S n' => String c (str_prefix n' s')
           end
  end.

(** Python's case mapping of the characters outside ASCII is not defined
    here: [unicode_title s] is [s.title()] for a string that has such
    characters. *)
Class Unicode : Type := {
  unicode_title : string -> string
}.

(** [s.title()] on ASCII text: the first letter of every run of letters
    is upper-cased, the others lower-cased. *)
Fixpoint title_go (prev_cased : bool) (s : string) : string :=
  match s with
  | EmptyString => EmptyString
  | String c s' =>
      if is_upper c || is_lower c
      then String (if prev_cased then lower_char c else upper_char c) (title_go true s')
      else String c (title_go false s')
  end.

(** [s.title()] *)
Definition title `{Unicode} (s : string) : string :=
  if is_ascii s then title_go false s else unicode_title s.

(** [b[:n]] on bytes. *)
Fixpoint str_take (n : nat) (s : string) : string :=
  match n, s with
  | S n', String c s' => String c (str_take n' s')
  | _, _ => EmptyString
  end.

(** *** Values

    The dynamically typed values the sources pass around.  A float is
    never computed with, only carried and shown, so it is kept as the
    text [str()] gives for it; [VObj] is any other object, carried with
    its [str()] as well. *)
Inductive value : Type :=
| VNone
| VStr (s : string)
| VInt (z : Z)
| VFloat (shown : string)
| VObj (shown : string).

#[export] Instance value_eq_dec : EqDecision value.
Proof. solve_decision. Defined.

(** [str(v)] *)
Definition py_str (v : value) : string :=
  match v with
  | VNone => "None"
  | VStr s => s
  | VInt z => pretty z
  | VFloat s => s
  | VObj s => s
  end.

(** Truthiness of an optional string ([None] and [''] are falsy). *)
Definition truthy (o : option string) : bool :=
  match o with
  | Some s => negb (String.eqb s "")
  | None => false
  end.

(** [a or b] on optional strings, with [b] a string. *)
Definition or_default (a : option string) (b : string) : string :=
  match a with
  | Some s => if String.eqb s "" then b else s
  | None => b
  end.

(** The item of a sequence handed to [str.join]: it must be a [str]. *)
Definition str_item {St} (v : value) : M St string :=
  match v with
  | VStr s => ret s
  | _ => raise (TypeError "sequence item: expected str instance")
  end.

(** [xs[i]] *)
Definition index {St A} (xs : list A) (i : nat) : M St A :=
  match xs !! i with
  | Some x => ret x
  | None => raise IndexError
  end.

(** [d[k]] on a dict with string keys. *)
Definition getitem {St A} (d : gmap string A) (k : string) : M St A :=
  match d !! k with
  | Some x => ret x
  | None => raise (KeyError k)
  end.

(** [sep.join(items)] on a list of values: the items are checked in
    order, then joined. *)
Definition str_join {St} (sep : string) (items : list value) : M St string :=
  bind (for_fold (fun acc v => bind (str_item v) (fun t => ret (acc ++ [t]))) items [])
       (fun parts => ret (join sep parts)).

(** *** JSON

    [JReal] is a non-integral number, kept as the text of its literal. *)
#[local] Set Warnings "-register-all".
Inductive json : Type :=
| JNull
| JBool (b : bool)
| JNum (z : Z)
| JReal (literal : string)
| JStr (s : string)
| JArr (items : list json)
| JObj (fields : list (string * json)).

Fixpoint assoc_get {A} (k : string) (l : list (string * A)) : option A :=
  match l with
  | [] => None
  | (k', v) :: l' => if String.eqb k k' then Some v else assoc_get k l'
  end.

(** [repr] of a decoded JSON value (string escapes apart). *)
Fixpoint json_repr (j : json) : string :=
  match j with
  | JNull => "None"
  | JBool b => if b then "True" else "False"
  | JNum z => pretty z
  | JReal l => l
  | JStr s => "'" +:+ s +:+ "'"
  | JArr items => "[" +:+ join ", " (map json_repr items) +:+ "]"
  | JObj fields =>
      "{" +:+ join ", " (map (fun '(k, v) => "'" +:+ k +:+ "': " +:+ json_repr v) fields) +:+ "}"
  end.

(** A decoded JSON value as the Python object [json()] yields. *)
Definition value_of_json (j : json) : value :=
  match j with
  | JNull => VNone
  | JStr s => VStr s
  | JNum z => VInt z
  | _ => VObj (json_repr j)
  end.

(** [len(x)] on a decoded JSON value; numbers, booleans and [None] have no
    length. *)
Definition json_len (j : json) : result nat :=
  match j with
  | JArr l => Ok (length l)
  | JObj l => Ok (length l)
  | JStr s => Ok (String.length s)
  | _ => Raise (TypeError "object has no len()")
  end.

(** An HTTP response as [requests] presents it: the status code, the body
    decoded as JSON when it is JSON, and the raw text. *)
Record http_response : Type := {
  status_code : Z;
  json_body : option json;
  text : string
}.

(** [response.json()] *)
Definition response_json {St} (r : http_response) : M St json :=
  match json_body r with
  | Some j => ret j
  | None => raise JSONDecodeError
  end.

(** [response.raise_for_status()]: 4xx and 5xx are errors. *)
Definition raise_for_status {St} (r : http_response) : M St unit :=
  if ((400 <=? status_code r) && (status_code r <? 600))%Z
  then raise (HTTPError (status_code r))
  else ret tt.

End Py.

(* ===================================================================== *)
(** ** tenacity: the [retry] decorator *)
(* ===================================================================== *)

Module Tenacity.
Import Py.

(** [stop_after_attempt(max_attempt_number)]: give up once the number of
    the attempt just made (counted from 1) has reached the maximum. *)
Definition stop_after_attempt (max_attempt_number : nat) (attempt_number : nat) : bool :=
  (max_attempt_number <=? attempt_number)%nat.

(** [wait_exponential(multiplier, min, max)] with the default base 2: the
    pause, in seconds, after attempt [attempt_number]. *)
Definition wait_exponential (multiplier min max : Z) (attempt_number : nat) : Z :=
  let exp := (2 ^ (Z.of_nat attempt_number - 1))%Z in
  let result := (multiplier * exp)%Z in
  Z.max (Z.max 0 min) (Z.min result max).

Section Retrying.
Context {St A : Type}.
Variable stop : nat -> bool.
Variable wait : nat -> Z.
Variable sleep : Z -> St -> St.
Variable f : M St A.

(** The loop of [Retrying.__call__].  Every exception is retried (the
    default [retry_if_exception_type()]); [reraise] is left at its
    default [False], so giving up raises [RetryError] around the last
    exception.  [None] means that the fuel ran out before the loop
    ended. *)
Fixpoint retry_loop (fuel : nat) (attempt_number : nat) (s : St)
    : option (result A * St) :=
  match fuel with
  | O => None
  | S fuel' =>
      match f s with
      | (Ok a, s1) => Some (Ok a, s1)
      | (Raise e, s1) =>
          if stop attempt_number
          then Some (Raise (RetryError e), s1)
          else retry_loop fuel' (S attempt_number) (sleep (wait attempt_number) s1)
      end
  end.
End Retrying.

(** [@retry(stop=stop_after_attempt(n), wait=wait)] applied to [f].  The
    loop is run with fuel [S n]; [retry_loop_stop_after_attempt] below
    shows that the fuel never runs out, so the last branch is dead. *)
Definition retry {St A} (n : nat) (wait : nat -> Z) (sleep : Z -> St -> St)
    (f : M St A) : M St A :=
  fun s =>
    match retry_loop (stop_after_attempt n) wait sleep f (S n) 1 s with
    | Some out => out
    | None => (Raise (Exception "retry: out of fuel"), s)
    end.

End Tenacity.

(* ===================================================================== *)
(** ** The process and the outside world *)
(* ===================================================================== *)

Module Process.
Import Py.

(** The request of [chat.completions.create] and of [messages.create]:
    both calls carry the same data (model, system text, one user message,
    the token limit and the temperature literal). *)
Record chat_request : Type := {
  cr_model : string;
  cr_system : string;
  cr_user : string;
  cr_max_tokens : Z;
  cr_temperature : string
}.

(** What the process does to the outside, in order. *)
Inductive event : Type :=
| OpenAIModelsList (api_key : string)
| OpenAIChat (api_key : string) (req : chat_request)
| AnthropicMessages (api_key : string) (req : chat_request)
| HttpGet (url : string)
| HttpPost (url : string) (body : json)
| Sleep (seconds : Z).

(** The state the handler runs in: the environment variables, the number
    of outside calls made so far and the record of them. *)
Record World : Type := {
  environ : gmap string string;
  clock : nat;
  trace : list event
}.

(** The outside services.  Each answer may depend on the moment of the call
    ([clock]), so that a call can fail once and succeed when repeated.
    The two SDK calls answer with the text the handler extracts from the
    reply ([choices[0].message.content], [content[0].text]), or raise. *)
Record services : Type := {
  openai_models_list : nat -> string -> result unit;
  openai_chat_create : nat -> string -> chat_request -> result value;
  anthropic_messages_create : nat -> string -> chat_request -> result value;
  requests_get : nat -> string -> result http_response;
  requests_post : nat -> string -> json -> result http_response
}.

(** One outside call: logged, answered by the service, clock advanced. *)
Definition call {A} (ev : event) (answer : nat -> result A) : M World A :=
  fun w =>
    (answer (clock w),
     {| environ := environ w; clock := S (clock w); trace := trace w ++ [ev] |}).

(** [time.sleep(seconds)] *)
Definition sleep (seconds : Z) (w : World) : World :=
  {| environ := environ w; clock := clock w; trace := trace w ++ [Sleep seconds] |}.

(** [os.getenv(name)] and [os.getenv(name, default)] *)
Definition getenv (name : string) : M World (option string) :=
  fun w => (Ok (environ w !! name), w).
Definition getenv_default (name dflt : string) : M World string :=
  fun w => (Ok (default dflt (environ w !! name)), w).

End Process.

(* ===================================================================== *)
(** ** Backend/src/rag/llm_handler.py *)
(* ===================================================================== *)

Module LLMHandler.
Import Py Process.
Local Open Scope py_scope.

Definition SUPPORTED_MODELS : list (string * list string) :=
  [ ("openai", ["gpt-4-turbo-preview"; "gpt-4"; "gpt-3.5-turbo"]);
    ("anthropic", ["claude-3-opus-20240229"; "claude-3-sonnet-20240229";
                   "claude-3-haiku-20240307"]);
    ("ollama", ["llama3.1"; "deepseek-r1"; "nomic-embed-text"]) ].

(** [key in SUPPORTED_MODELS] *)
Definition in_SUPPORTED_MODELS (key : string) : bool :=
  match assoc_get key SUPPORTED_MODELS with Some _ => true | None => false end.

(** [str] of a list of strings, as an f-string prints it. *)
Definition repr_list (l : list string) : string :=
  "[" +:+ join ", " (map (fun s => "'" +:+ s +:+ "'") l) +:+ "]".

Inductive client_kind : Type :=
| OpenAI (api_key : string)
| Anthropic (api_key : string).

(** The attributes of an [LLMHandler] object.  [api_key] and [client] are
    never set for the local model server. *)
Record handler : Type := {
  provider : string;
  api_key : option string;
  client : option client_kind;
  model : string
}.

Definition SYSTEM_PROMPT : string :=
  "You are a helpful assistant that provides information about traffic incidents.".
Definition TEMPERATURE : string := "0.7".
Definition OLLAMA_TAGS_URL : string := "http://localhost:11434/api/tags".
Definition OLLAMA_GENERATE_URL : string := "http://localhost:11434/api/generate".

Section WithServices.
Variable svc : services.

Definition _init_openai (p : string) (model_name : option string) : M World handler :=
  key <- getenv "OPENAI_API_KEY" ;;
  if negb (truthy key)
  then raise (ValueError "OPENAI_API_KEY environment variable is not set")
  else
    let k := default "" key in
    env_model <- getenv_default "OPENAI_MODEL" "gpt-4-turbo-preview" ;;
    let m := or_default model_name env_model in
    try_except
      (call (OpenAIModelsList k) (fun t => openai_models_list svc t k))
      (fun e => raise (ConnectionError ("Failed to connect to OpenAI API: " +:+ exn_str e))) ;;;
    ret {| provider := p; api_key := Some k; client := Some (OpenAI k); model := m |}.

Definition _init_anthropic (p : string) (model_name : option string) : M World handler :=
  key <- getenv "ANTHROPIC_API_KEY" ;;
  if negb (truthy key)
  then raise (ValueError "ANTHROPIC_API_KEY environment variable is not set")
  else
    let k := default "" key in
    env_model <- getenv_default "ANTHROPIC_MODEL" "claude-3-opus-20240229" ;;
    let m := or_default model_name env_model in
    ret {| provider := p; api_key := Some k; client := Some (Anthropic k); model := m |}.

(** [model["name"].split(":")[0]] for one entry of the tag list. *)
Definition tag_name (entry : json) : M World string :=
  match entry with
  | JObj fields =>
      match assoc_get "name" fields with
      | Some (JStr s) => ret (split_head ":" s)
      | Some _ => raise (AttributeError "object has no attribute 'split'")
      | None => raise (KeyError "name")
      end
  | _ => raise (TypeError "indices must be integers")
  end.

(** [[... for model in response.json().get("models", [])]] *)
Definition available_models (r : http_response) : M World (list string) :=
  j <- response_json r ;;
  match j with
  | JObj fields =>
      match default (JArr []) (assoc_get "models" fields) with
      | JArr entries =>
          for_fold (fun acc entry => n <- tag_name entry ;; ret (acc ++ [n])) entries []
      | _ => raise (TypeError "object is not iterable")
      end
  | _ => raise (AttributeError "object has no attribute 'get'")
  end.

Definition _init_ollama (p : string) (model_name : option string) : M World handler :=
  env_model <- getenv_default "OLLAMA_MODEL" "llama3.1" ;;
  let m := or_default model_name env_model in
  try_except
    (response <- call (HttpGet OLLAMA_TAGS_URL) (fun t => requests_get svc t OLLAMA_TAGS_URL) ;;
     if negb (status_code response =? 200)%Z
     then raise (ConnectionError "Ollama service not available")
     else
       available <- available_models response ;;
       if negb (existsb (String.eqb m) available)
       then raise (ValueError ("Model " +:+ m +:+ " not available in Ollama. Available models: "
                               +:+ repr_list available))
       else ret tt)
    (fun e => raise (ConnectionError ("Failed to connect to Ollama service: " +:+ exn_str e))) ;;;
  ret {| provider := p; api_key := None; client := None; model := m |}.

(** A handler whose constructor fell through every branch of
    [_initialize_client]: only [provider] is set. *)
Definition bare_handler (p : string) : handler :=
  {| provider := p; api_key := None; client := None; model := "" |}.

Definition _initialize_client (p : string) (model_name : option string) : M World handler :=
  if String.eqb p "openai" then _init_openai p model_name
  else if String.eqb p "anthropic" then _init_anthropic p model_name
  else if String.eqb p "ollama" then _init_ollama p model_name
  else ret (bare_handler p).

(** [LLMHandler.__init__]; the handler only logs and re-raises. *)
Definition __init__ (provider_arg : string) (model_name : option string) : M World handler :=
  try_except
    (let p := lower provider_arg in
     if negb (in_SUPPORTED_MODELS p)
     then raise (ValueError ("Unsupported provider: " +:+ p +:+ ". Supported providers: "
                             +:+ repr_list (map fst SUPPORTED_MODELS)))
     else _initialize_client p model_name)
    (fun e => raise e).

(** [_generate_openai]: the client and the model are read off the
    object; a handler without an OpenAI client has no such attribute. *)
Definition _generate_openai (h : handler) (prompt : string) (max_tokens : Z) : M World value :=
  match client h with
  | Some (OpenAI k) =>
      let req := {| cr_model := model h; cr_system := SYSTEM_PROMPT; cr_user := prompt;
                    cr_max_tokens := max_tokens; cr_temperature := TEMPERATURE |} in
      call (OpenAIChat k req) (fun t => openai_chat_create svc t k req)
  | _ => raise (AttributeError "object has no attribute 'chat'")
  end.

Definition _generate_anthropic (h : handler) (prompt : string) (max_tokens : Z) : M World value :=
  match client h with
  | Some (Anthropic k) =>
      let req := {| cr_model := model h; cr_system := SYSTEM_PROMPT; cr_user := prompt;
                    cr_max_tokens := max_tokens; cr_temperature := TEMPERATURE |} in
      call (AnthropicMessages k req) (fun t => anthropic_messages_create svc t k req)
  | _ => raise (AttributeError "object has no attribute 'messages'")
  end.

Definition ollama_body (h : handler) (prompt : string) (max_tokens : Z) : json :=
  JObj [ ("model", JStr (model h));
         ("prompt", JStr prompt);
         ("system", JStr SYSTEM_PROMPT);
         ("options", JObj [ ("temperature", JReal TEMPERATURE);
                            ("num_predict", JNum max_tokens) ]) ].

Definition _generate_ollama (h : handler) (prompt : string) (max_tokens : Z) : M World value :=
  let body := ollama_body h prompt max_tokens in
  response <- call (HttpPost OLLAMA_GENERATE_URL body)
                   (fun t => requests_post svc t OLLAMA_GENERATE_URL body) ;;
  if (status_code response =? 200)%Z
  then
    j <- response_json response ;;
    match j with
    | JObj fields => ret (default (VStr "") (value_of_json <$> assoc_get "response" fields))
    | _ => raise (AttributeError "object has no attribute 'get'")
    end
  else raise (Exception ("Ollama API error: " +:+ text response)).

(** [[doc['text'] for doc in context_docs]] *)
Definition doc_texts (context_docs : list (gmap string value)) : M World (list value) :=
  for_fold (fun acc doc => v <- getitem doc "text" ;; ret (acc ++ [v])) context_docs [].

(** The f-string of [generate_response]. *)
Definition build_prompt (context_text query : string) : string :=
  "Based on the following traffic incident information, please answer the query." +:+ nl +:+
  nl +:+
  "Context information:" +:+ nl +:+
  context_text +:+ nl +:+
  nl +:+
  "Query: " +:+ query +:+ nl +:+
  nl +:+
  "Please provide a clear and concise response based only on the information provided in the context.".

(** The body of [generate_response], without its decorator.  When no
    branch matches the function falls off its end and returns [None]. *)
Definition generate_response_body (h : handler) (query : string)
    (context_docs : list (gmap string value)) (max_tokens : Z) : M World value :=
  try_except
    (texts <- doc_texts context_docs ;;
     context_text <- str_join nl texts ;;
     let prompt := build_prompt context_text query in
     if String.eqb (provider h) "openai" then _generate_openai h prompt max_tokens
     else if String.eqb (provider h) "anthropic" then _generate_anthropic h prompt max_tokens
     else if String.eqb (provider h) "ollama" then _generate_ollama h prompt max_tokens
     else ret VNone)
    (fun e => raise e).

(** [@retry(stop=stop_after_attempt(3),
           wait=wait_exponential(multiplier=1, min=4, max=10))] *)
Definition generate_response (h : handler) (query : string)
    (context_docs : list (gmap string value)) (max_tokens : Z) : M World value :=
  Tenacity.retry 3 (Tenacity.wait_exponential 1 4 10) sleep
    (generate_response_body h query context_docs max_tokens).

Definition DEFAULT_MAX_TOKENS : Z := 500.

Definition is_configured (h : handler) : M World bool :=
  try_except
    (if String.eqb (provider h) "openai" then
       match client h with
       | Some (OpenAI k) =>
           call (OpenAIModelsList k) (fun t => openai_models_list svc t k) ;;;
           ret true
       | _ => raise (AttributeError "object has no attribute 'client'")
       end
     else if String.eqb (provider h) "anthropic" then
       ret (truthy (api_key h))
     else if String.eqb (provider h) "ollama" then
       response <- call (HttpGet OLLAMA_TAGS_URL) (fun t => requests_get svc t OLLAMA_TAGS_URL) ;;
       ret (status_code response =? 200)%Z
     else ret false)
    (fun e => ret false).
End WithServices.

End LLMHandler.

(* ===================================================================== *)
(** ** Backend/src/rag/rag_inference.py *)
(* ===================================================================== *)

Module RAGInference.
Import Py.
Local Open Scope py_scope.

(** The dict [collection.query] returns: under each key one list per
    query embedding. *)
Record query_result : Type := {
  r_ids : list (list value);
  r_documents : list (list value);
  r_distances : list (list value)
}.

(** The dict [query] returns. *)
Record query_response : Type := {
  documents : list (gmap string value);
  llm_response : value
}.

(** The attribute of a pipeline object that [query] tests; the encoder and
    the collection are the section variables and the state below. *)
Record pipeline : Type := {
  llm_handler : option LLMHandler.handler
}.

Definition LLM_FALLBACK : string := "Error: Unable to generate LLM response".
Definition COLLECTION_NAME : string := "traffic_incidents".
Definition COLLECTION_DESCRIPTION : string := "Traffic incidents from Austin".
Definition ENCODER_NAME : string := "all-MiniLM-L6-v2".

Section WithServices.
(** The embedding model and the vector collection are libraries:
    [store] is whatever the collection holds, [embedding] what the
    encoder yields. *)
Context {store embedding : Type}.
Variable encode : string -> result embedding.
Variable encode_batch : list string -> result (list embedding).
Variable collection_query : store -> list embedding -> Z -> result query_result.
Variable collection_add :
  store -> list string -> list embedding -> list string -> result store.
(** Building the pipeline: [chromadb.Client()], the client's
    [get_or_create_collection(name, metadata)], which yields the collection
    of that name from what the database holds, and
    [SentenceTransformer(name)], which loads the encoder.  Each can raise. *)
Variable chromadb_client : result unit.
Variable get_or_create_collection : store -> string -> string -> result store.
Variable sentence_transformer : string -> result unit.
Variable svc : Process.services.

(** The calls made on the collection, with their arguments. *)
Inductive collection_call : Type :=
| CollectionQuery (query_embeddings : list embedding) (n_results : Z)
| CollectionAdd (documents : list string) (embeddings : list embedding) (ids : list string).

Record State : Type := {
  world : Process.World;
  collection : store;
  collection_calls : list collection_call
}.

(** Run a handler computation inside the pipeline's state. *)
Definition in_world {A} (m : M Process.World A) : M State A :=
  zoom world
    (fun w s => {| world := w; collection := collection s;
                   collection_calls := collection_calls s |})
    m.

(** [self.collection.query(query_embeddings=..., n_results=...)] *)
Definition do_collection_query (query_embeddings : list embedding) (n_results : Z)
    : M State query_result :=
  fun s =>
    (collection_query (collection s) query_embeddings n_results,
     {| world := world s; collection := collection s;
        collection_calls :=
          collection_calls s ++ [CollectionQuery query_embeddings n_results] |}).

(** [self.collection.add(documents=..., embeddings=..., ids=...)]: on
    success the collection is replaced by the one the library returns. *)
Definition do_collection_add (docs : list string) (embeddings : list embedding)
    (ids : list string) : M State unit :=
  fun s =>
    let calls := collection_calls s ++ [CollectionAdd docs embeddings ids] in
    match collection_add (collection s) docs embeddings ids with
    | Ok c => (Ok tt, {| world := world s; collection := c; collection_calls := calls |})
    | Raise e =>
        (Raise e, {| world := world s; collection := collection s;
                     collection_calls := calls |})
    end.

(** [self.client.get_or_create_collection(name=..., metadata=...)]: the
    pipeline's collection is the one the client hands out. *)
Definition do_get_or_create_collection (name description : string) : M State unit :=
  fun s =>
    match get_or_create_collection (collection s) name description with
    | Ok c =>
        (Ok tt, {| world := world s; collection := c;
                   collection_calls := collection_calls s |})
    | Raise e => (Raise e, s)
    end.

(** [_initialize_pipeline]: the client, the collection, the encoder and
    the LLM handler, in this order, inside one [try]. *)
Definition _initialize_pipeline (llm_provider : string) (model_name : option string)
    : M State pipeline :=
  try_except
    (lift_result chromadb_client ;;;
     do_get_or_create_collection COLLECTION_NAME COLLECTION_DESCRIPTION ;;;
     lift_result (sentence_transformer ENCODER_NAME) ;;;
     h <- in_world (LLMHandler.__init__ svc llm_provider model_name) ;;
     ret {| llm_handler := Some h |})
    (fun e => raise e).

(** One turn of the formatting loop: the record for position [i]. *)
Definition format_result (results : query_result) (i : nat) : M State (gmap string value) :=
  docs0 <- index (r_documents results) 0 ;;
  t <- index docs0 i ;;
  dists0 <- index (r_distances results) 0 ;;
  d <- index dists0 i ;;
  ids0 <- index (r_ids results) 0 ;;
  id <- index ids0 i ;;
  ret (<["text" := t]> (<["score" := d]> (<["id" := id]> ∅))).

Definition format_results (results : query_result) : M State (list (gmap string value)) :=
  docs0 <- index (r_documents results) 0 ;;
  for_fold (fun acc i => r <- format_result results i ;; ret (acc ++ [r]))
           (seq 0 (length docs0)) [].

Definition query (self : pipeline) (query_text : string) (top_k : Z)
    : M State query_response :=
  try_except
    (query_embedding <- lift_result (encode query_text) ;;
     results <- do_collection_query [query_embedding] top_k ;;
     formatted_results <- format_results results ;;
     llm <-
       match llm_handler self with
       | Some h =>
           configured <- in_world (LLMHandler.is_configured svc h) ;;
           if (configured : bool)
           then
             try_except
               (in_world (LLMHandler.generate_response svc h query_text formatted_results
                            LLMHandler.DEFAULT_MAX_TOKENS))
               (fun llm_error => ret (VStr LLM_FALLBACK))
           else ret VNone
       | None => ret VNone
       end ;;
     ret {| documents := formatted_results; llm_response := llm |})
    (fun e => raise e).

Definition DEFAULT_TOP_K : Z := 5.

(** [[f"doc_{i}" for i in range(n)]] *)
Definition auto_ids (n : nat) : list string :=
  map (fun i : nat => "doc_" +:+ pretty i) (seq 0 n).

Definition add_documents (self : pipeline) (docs : list string)
    (ids : option (list string)) : M State unit :=
  try_except
    (embeddings <- lift_result (encode_batch docs) ;;
     let ids' := match ids with
                 | None => auto_ids (length docs)
                 | Some given => given
                 end in
     do_collection_add docs embeddings ids')
    (fun e => raise e).
End WithServices.

End RAGInference.

(* ===================================================================== *)
(** ** Backend/src/rag/traffic_api_to_rag.py *)
(* ===================================================================== *)

Module TrafficApi.
Import Py Process.
Local Open Scope py_scope.

Definition API_URL : string := "https://data.austintexas.gov/resource/dx9v-zd7x.json".
Definition API_LIMIT : Z := 50.
Definition PDF_OUTPUT_DIR : string := "traffic_pdfs".

(** The URL of the f-string in [fetch_traffic_data]. *)
Definition fetch_url (limit : Z) : string :=
  API_URL +:+ "?$limit=" +:+ pretty limit +:+ "&$order=published_date DESC".

Section Fetch.
Variable requests_get : nat -> string -> result http_response.

(** [fetch_traffic_data]; [len(data)] is evaluated for the log line
    before the data is returned. *)
Definition fetch_traffic_data (limit : Z) : M World json :=
  let url := fetch_url limit in
  try_except_class is_RequestException
    (response <- call (HttpGet url) (fun t => requests_get t url) ;;
     raise_for_status response ;;;
     data <- response_json response ;;
     lift_result (json_len data) ;;;
     ret data)
    (fun e => raise e).
End Fetch.

(** One [cell(200, 10, txt=..., ln=True)] of a page, centred or not. *)
Record cell : Type := {
  txt : string;
  centred : bool
}.

(** An [FPDF] document: the cells written so far. *)
Definition pdf : Type := list cell.

Definition left_cell (s : string) : cell := {| txt := s; centred := false |}.
Definition centre_cell (s : string) : cell := {| txt := s; centred := true |}.

(** A row of the frame ([pandas.Series]): its columns in order. *)
Definition series : Type := list (string * value).

(** [incident.get(key, default)] *)
Definition series_get (incident : series) (key : string) (dflt : value) : value :=
  default dflt (assoc_get key incident).

(** [key in incident] *)
Definition series_has (incident : series) (key : string) : bool :=
  match assoc_get key incident with Some _ => true | None => false end.

(** A frame as [df.iterrows()] walks it: index label and row. *)
Definition dataframe : Type := list (value * series).

(** The line written for one column of an incident, [None] for the two
    geometry columns. *)
Definition field_cell `{Unicode} (key : string) (v : value) : option cell :=
  if String.eqb key "shape" || String.eqb key "location" then None
  else
    let value_str := py_str v in
    let value_str :=
      if (200 <? str_len value_str)%nat
      then str_prefix 197 value_str +:+ "..."
      else value_str in
    Some (left_cell (title (replace_char "_" " " key) +:+ ": " +:+ value_str)).

Definition summary_cells (incident : series) : list cell :=
  [ left_cell ("Incident: " +:+ py_str (series_get incident "issue_reported" (VStr "N/A")));
    left_cell ("Location: " +:+ py_str (series_get incident "address" (VStr "N/A")));
    left_cell ("Status: " +:+ py_str (series_get incident "status" (VStr "N/A"))) ]
  ++ (if series_has incident "published_date"
      then [ left_cell ("Time: " +:+ py_str (series_get incident "published_date" VNone)) ]
      else [])
  ++ [ left_cell "-------------------------" ].

Definition incident_id_of (idx : value) (incident : series) : value :=
  series_get incident "traffic_report_id" (VStr ("unknown_" +:+ py_str idx)).

Definition incident_pdf `{Unicode} (timestamp : string) (idx : value) (incident : series)
    : pdf :=
  [ centre_cell ("Traffic Incident: " +:+ py_str (incident_id_of idx incident));
    centre_cell ("Generated: " +:+ timestamp);
    left_cell "" ]
  ++ omap (fun kv => field_cell kv.1 kv.2) incident
  ++ (if series_has incident "latitude" && series_has incident "longitude"
      then [ left_cell ("Coordinates: "
                        +:+ py_str (series_get incident "latitude" (VStr "N/A")) +:+ ", "
                        +:+ py_str (series_get incident "longitude" (VStr "N/A"))) ]
      else []).

Definition individual_pdf_path (output_dir : string) (idx : value) (incident : series) : string :=
  output_dir +:+ "/incident_" +:+ py_str (incident_id_of idx incident) +:+ ".pdf".

Definition summary_pdf_path (output_dir : string) : string :=
  output_dir +:+ "/all_incidents_summary.pdf".

(** The writes the function makes. *)
Inductive io_op : Type :=
| Makedirs (path : string)
| Output (path : string).

(** The variables the loop of [create_incident_pdfs] updates. *)
Record pdf_state : Type := {
  summary_pdf : pdf;
  pdf_files : list string
}.

Section Render.
(** The disk holds the documents written, by path.  A write can fail (a
    missing directory, a full disk, a character the PDF library cannot
    encode): [io_fault] tells which writes do, and with what. *)
Context `{Unicode}.
Variable io_fault : io_op -> option exn.

(** [os.makedirs(path, exist_ok=True)] *)
Definition makedirs (path : string) : M (gmap string pdf) unit :=
  fun fs =>
    match io_fault (Makedirs path) with
    | Some e => (Raise e, fs)
    | None => (Ok tt, fs)
    end.

(** [doc.output(name)] *)
Definition fpdf_output (doc : pdf) (name : string) : M (gmap string pdf) unit :=
  fun fs =>
    match io_fault (Output name) with
    | Some e => (Raise e, fs)
    | None => (Ok tt, <[name := doc]> fs)
    end.

(** One turn of [for idx, incident in df.iterrows()]. *)
Definition incident_step (timestamp output_dir : string) (st : pdf_state)
    (row : value * series) : M (gmap string pdf) pdf_state :=
  let '(idx, incident) := row in
  let summary := summary_pdf st ++ summary_cells incident in
  let path := individual_pdf_path output_dir idx incident in
  fpdf_output (incident_pdf timestamp idx incident) path ;;;
  ret {| summary_pdf := summary; pdf_files := pdf_files st ++ [path] |}.

(** [create_incident_pdfs]; [timestamp] is the text of [datetime.now()]
    taken at the start.  Nothing catches a failed write. *)
Definition create_incident_pdfs (timestamp : string) (df : dataframe) (output_dir : string)
    : M (gmap string pdf) (list string) :=
  makedirs output_dir ;;;
  let st0 := {| summary_pdf := [ centre_cell "Traffic Incident Summary";
                                 centre_cell ("Generated: " +:+ timestamp);
                                 left_cell "" ];
                pdf_files := [] |} in
  st <- for_fold (incident_step timestamp output_dir) df st0 ;;
  let path := summary_pdf_path output_dir in
  fpdf_output (summary_pdf st) path ;;;
  ret (pdf_files st ++ [path]).
End Render.

End TrafficApi.

(* ===================================================================== *)
(** ** Backend/src/rag/ingest_pdfs.py *)
(* ===================================================================== *)

Module IngestPdfs.
Import Py.
Local Open Scope py_scope.

Section WithFitz.
(** PyMuPDF: opening a path yields the pages of the document or raises;
    so does reading the text of a page. *)
Context {page : Type}.
Variable fitz_open : string -> result (list page).
Variable get_text : page -> result string.

(** [extract_text_from_pdf]: [Some text], or [None] for Python's [None]. *)
Definition extract_text_from_pdf {St} (pdf_path : string) : M St (option string) :=
  try_except
    (doc <- lift_result (fitz_open pdf_path) ;;
     text <- for_fold (fun text p => t <- lift_result (get_text p) ;; ret (text +:+ t)) doc "" ;;
     ret (Some text))
    (fun e => ret None).
End WithFitz.

End IngestPdfs.

(* ===================================================================== *)
(** ** pdf_processor.py *)
(* ===================================================================== *)

Module PdfProcessor.
Import Py.
Local Open Scope py_scope.

Definition UPLOAD_FOLDER : string := "/tmp/pdf_uploads".

(** What a path names. *)
Inductive node : Type :=
| File (content : string)
| Dir.

(** An uploaded part ([werkzeug.FileStorage]). *)
Record file_storage : Type := {
  filename : string;
  stream : string
}.

(** [request.files], in the order of the parts. *)
Record request : Type := {
  files : list (string * file_storage)
}.

(** [jsonify({key: message}), status] *)
Record response : Type := {
  body : json;
  status : Z
}.

Definition error_response (msg : string) (code : Z) : response :=
  {| body := JObj [("error", JStr msg)]; status := code |}.
Definition message_response (msg : string) (code : Z) : response :=
  {| body := JObj [("message", JStr msg)]; status := code |}.

(** [os.path.join(a, b)] on POSIX. *)
Definition path_join (a b : string) : string :=
  if startswith b "/" then b
  else if String.eqb a "" || endswith a "/" then a +:+ b
  else a +:+ "/" +:+ b.

(** [os.path.exists(path)] *)
Definition path_exists (path : string) : M (gmap string node) bool :=
  fun fs => (Ok (bool_decide (is_Some (fs !! path))), fs).

(** How a write can go wrong: before anything is written, or after part
    of the content (the given prefix length) reached the disk. *)
Inductive save_fault : Type :=
| FailsBefore (e : exn)
| FailsAfter (written : nat) (e : exn).

Section WithServices.
(** PyMuPDF, reading the content of a file, and the faults of the disk
    when a file is written and when it is removed. *)
Context {page : Type}.
Variable fitz_parse : string -> result (list page).
Variable get_text : page -> result string.
Variable disk_fault : string -> option save_fault.
Variable remove_fault : string -> option string.
Variable WEB_AI_INDEX_PATH : option string.

(** [os.remove(path)].  Removing a file can fail too (a read-only
    directory, a file in use): [remove_fault] tells for which paths, and
    with what message of the [OSError]. *)
Definition os_remove (path : string) : M (gmap string node) unit :=
  fun fs =>
    match fs !! path with
    | Some (File _) =>
        match remove_fault path with
        | Some msg => (Raise (OSError msg), fs)
        | None => (Ok tt, delete path fs)
        end
    | Some Dir => (Raise (IsADirectoryError path), fs)
    | None => (Raise (FileNotFoundError path), fs)
    end.

(** [file.save(filepath)] *)
Definition file_save (file : file_storage) (filepath : string) : M (gmap string node) unit :=
  fun fs =>
    match fs !! filepath with
    | Some Dir => (Raise (IsADirectoryError filepath), fs)
    | _ =>
        match disk_fault filepath with
        | Some (FailsBefore e) => (Raise e, fs)
        | Some (FailsAfter n e) => (Raise e, <[filepath := File (str_take n (stream file))]> fs)
        | None => (Ok tt, <[filepath := File (stream file)]> fs)
        end
    end.

(** [fitz.open(filepath)] *)
Definition fitz_open (filepath : string) : M (gmap string node) (list page) :=
  fun fs =>
    match fs !! filepath with
    | Some (File content) => (fitz_parse content, fs)
    | Some Dir => (Raise (IsADirectoryError filepath), fs)
    | None => (Raise (FileNotFoundError filepath), fs)
    end.

(** The [finally] block. *)
Definition cleanup (filepath : string) : M (gmap string node) unit :=
  there <- path_exists filepath ;;
  if (there : bool)
  then try_except_class is_OSError (os_remove filepath) (fun e => ret tt)
  else ret tt.

(** The [try] block of the handler with its [except] clause. *)
Definition process_upload (file : file_storage) (filepath : string)
    : M (gmap string node) response :=
  try_except
    (file_save file filepath ;;;
     doc <- fitz_open filepath ;;
     full_text <- for_fold (fun acc p => t <- lift_result (get_text p) ;; ret (acc +:+ t))
                           doc "" ;;
     if truthy WEB_AI_INDEX_PATH
     then ret (message_response
                 "PDF processed and text extracted. WebAI index update attempted." 200)
     else ret (error_response "WebAI index path not configured on the server." 500))
    (fun e => ret (error_response ("Error processing PDF: " +:+ exn_str e) 500)).

Definition upload_and_index_pdf (req : request) : M (gmap string node) response :=
  match assoc_get "file" (files req) with
  | None => ret (error_response "No file part in the request" 400)
  | Some file =>
      if String.eqb (filename file) ""
      then ret (error_response "No selected file" 400)
      else if negb (String.eqb (filename file) "") && endswith (lower (filename file)) ".pdf"
      then
        let filepath := path_join UPLOAD_FOLDER (filename file) in
        try_finally (process_upload file filepath) (cleanup filepath)
      else ret (error_response "Invalid file type. Only PDF files are allowed." 400)
  end.
End WithServices.

End PdfProcessor.

(* ===================================================================== *)
(** ** os.path *)
(* ===================================================================== *)

Module OsPath.

(** [os.path.basename(p)] on POSIX: what follows the last slash, all of
    [p] when it has none.  [tail] is what follows the last slash met so
    far. *)
Fixpoint basename_from (p tail : string) : string :=
  match p with
  | EmptyString => tail
  | String c rest =>
      if Ascii.eqb c "/" then basename_from rest rest else basename_from rest tail
  end.
Definition basename (p : string) : string := basename_from p p.

End OsPath.

(* ===================================================================== *)
(** ** Backend/src/rag/ingest_pdfs.py, [main] *)
(* ===================================================================== *)

Module IngestPdfsMain.
Import Py IngestPdfs RAGInference.
Local Open Scope py_scope.

Definition PDF_DIR : string := "traffic_pdfs".
Definition TEST_QUERY : string := "What are the recent traffic incidents in Austin?".

Section WithServices.
(** PyMuPDF, [glob.glob], and the services of the pipeline. *)
Context {page store embedding : Type}.
Variable fitz_open : string -> result (list page).
Variable get_text : page -> result string.
Variable glob : string -> list string.
Variable encode : string -> result embedding.
Variable encode_batch : list string -> result (list embedding).
Variable collection_query : store -> list embedding -> Z -> result query_result.
Variable collection_add :
  store -> list string -> list embedding -> list string -> result store.
Variable chromadb_client : result unit.
Variable get_or_create_collection : store -> string -> string -> result store.
Variable sentence_transformer : string -> result unit.
Variable svc : Process.services.

(** The loop over the files: [documents] and [ids] as it leaves them. *)
Definition gather {St} (pdf_files : list string) : M St (list string * list string) :=
  for_fold
    (fun (acc : list string * list string) pdf_file =>
       text <- extract_text_from_pdf fitz_open get_text pdf_file ;;
       match text with
       | Some t =>
           if String.eqb t "" then ret acc
           else ret (acc.1 ++ [t], acc.2 ++ [OsPath.basename pdf_file])
       | None => ret acc
       end)
    pdf_files ([], []).

(** [main], up to the test query; what follows prints its answer. *)
Definition main : M (@State store embedding) unit :=
  rag_pipeline <- _initialize_pipeline chromadb_client get_or_create_collection
                    sentence_transformer svc "openai" None ;;
  let pdf_files := glob (PdfProcessor.path_join PDF_DIR "*.pdf") in
  acc <- gather pdf_files ;;
  match acc.1 with
  | [] => ret tt
  | _ :: _ =>
      add_documents encode_batch collection_add rag_pipeline acc.1 (Some acc.2) ;;;
      results <- query encode collection_query svc rag_pipeline TEST_QUERY DEFAULT_TOP_K ;;
      ret tt
  end.
End WithServices.

End IngestPdfsMain.

(* ===================================================================== *)
(** ** Backend/src/rag/upload_pdfs.py *)
(* ===================================================================== *)

Module UploadPdfs.
Import Py PdfProcessor.
Local Open Scope py_scope.

Definition URL : string := "http://localhost:5001/upload_and_index_pdf".
Definition PDF_DIR : string := "traffic_pdfs".

Section WithServices.
(** Reading a local file, the multipart POST of [requests], and
    [glob.glob].  [St] is the state of whatever answers the request. *)
Context {St : Type}.
Variable open_rb : string -> result string.
Variable requests_post : string -> request -> M St http_response.
Variable glob : string -> list string.

Definition upload_pdf (file_path : string) : M St unit :=
  f <- lift_result (open_rb file_path) ;;
  let files := [("file", {| filename := OsPath.basename file_path; stream := f |})] in
  response <- requests_post URL {| files := files |} ;;
  if negb (status_code response =? 200)%Z
  then err <- response_json response ;; ret tt
  else ret tt.

Definition main : M St unit :=
  let pdf_files := glob (path_join PDF_DIR "*.pdf") in
  for_fold (fun (_ : unit) pdf_file => upload_pdf pdf_file) pdf_files tt.
End WithServices.

End UploadPdfs.

(* ===================================================================== *)
(** * Notions of the statements, and sample data *)
(* ===================================================================== *)

(** ** llm_handler.py *)

Module LLMHandlerNotions.
Import Py Process LLMHandler.

(** The world after one more outside call [ev]. *)
Definition after (ev : event) (w : World) : World :=
  {| environ := environ w; clock := S (clock w); trace := trace w ++ [ev] |}.

(** Two strings are equal up to the case of their letters. *)
Definition eq_nocase (a b : string) : Prop := lower a = lower b.

(** The ['text'] entry of a context document, when it is a string. *)
Definition has_text (doc : gmap string value) : Prop :=
  exists s, doc !! "text" = Some (VStr s).
Definition text_of (doc : gmap string value) : string :=
  match doc !! "text" with Some (VStr s) => s | _ => "" end.

Definition chat_request_of (h : handler) (prompt : string) (max_tokens : Z) : chat_request :=
  {| cr_model := model h; cr_system := SYSTEM_PROMPT; cr_user := prompt;
     cr_max_tokens := max_tokens; cr_temperature := TEMPERATURE |}.

(** What a constructor that returned leaves in the object. *)
Inductive initialised (h : handler) : Prop :=
| init_is_openai k :
    provider h = "openai" -> client h = Some (OpenAI k) -> initialised h
| init_is_anthropic k :
    provider h = "anthropic" -> client h = Some (Anthropic k) -> initialised h
| init_is_ollama :
    provider h = "ollama" -> initialised h.

(** The single request a prompt turns into, by provider. *)
Inductive dispatched (h : handler) (prompt : string) (max_tokens : Z) : event -> Prop :=
| to_openai k :
    provider h = "openai" -> client h = Some (OpenAI k) ->
    dispatched h prompt max_tokens (OpenAIChat k (chat_request_of h prompt max_tokens))
| to_anthropic k :
    provider h = "anthropic" -> client h = Some (Anthropic k) ->
    dispatched h prompt max_tokens (AnthropicMessages k (chat_request_of h prompt max_tokens))
| to_ollama :
    provider h = "ollama" ->
    dispatched h prompt max_tokens (HttpPost OLLAMA_GENERATE_URL (ollama_body h prompt max_tokens)).

(** The prompt as the claim describes it: the texts joined by newlines,
    and the joined text and the query inside the fixed template.  Written
    out character by character, line breaks included. *)
Fixpoint joined_by_newlines (texts : list string) : string :=
  match texts with
  | [] => ""
  | [t] => t
  | t :: rest => t +:+ "
" +:+ joined_by_newlines rest
  end.
Definition prompt_for (texts : list string) (query : string) : string :=
  "Based on the following traffic incident information, please answer the query.

Context information:
" +:+ joined_by_newlines texts +:+ "

Query: " +:+ query +:+ "

Please provide a clear and concise response based only on the information provided in the context.".

(** The prompt a request carries to its backend: the user message of a
    chat request, the ['prompt'] entry of the JSON body of a POST. *)
Definition prompt_sent (ev : event) : option string :=
  match ev with
  | OpenAIChat _ r | AnthropicMessages _ r => Some (cr_user r)
  | HttpPost _ (JObj fields) =>
      match assoc_get "prompt" fields with
      | Some (JStr p) => Some p
      | _ => None
      end
  | _ => None
  end.

(** The backend a request goes to. *)
Definition backend_of (ev : event) : option string :=
  match ev with
  | OpenAIChat _ _ => Some "openai"
  | AnthropicMessages _ _ => Some "anthropic"
  | HttpPost url _ =>
      if String.eqb url "http://localhost:11434/api/generate" then Some "ollama" else None
  | _ => None
  end.

(** Concrete services and objects for the examples. *)
Definition boom : exn := Exception "boom".

Definition down_services : services :=
  {| openai_models_list := fun _ _ => Ok tt;
     openai_chat_create := fun _ _ _ => Raise boom;
     anthropic_messages_create := fun _ _ _ => Raise boom;
     requests_get := fun _ _ => Raise (RequestException "connection refused");
     requests_post := fun _ _ _ => Raise (RequestException "connection refused") |}.

(** The chat endpoint fails until the clock reaches 3 and answers afterwards. *)
Definition flaky_services : services :=
  {| openai_models_list := fun _ _ => Ok tt;
     openai_chat_create :=
       fun t _ _ => if (t <? 3)%nat then Raise boom else Ok (VStr "Two crashes on I-35.");
     anthropic_messages_create := fun _ _ _ => Raise boom;
     requests_get := fun _ _ => Raise (RequestException "connection refused");
     requests_post := fun _ _ _ => Raise (RequestException "connection refused") |}.

Definition openai_world : World :=
  {| environ := {[ "OPENAI_API_KEY" := "sk-test" ]}; clock := 0; trace := [] |}.

Definition openai_handler : handler :=
  {| provider := "openai"; api_key := Some "sk-test"; client := Some (OpenAI "sk-test");
     model := "gpt-4" |}.

Definition sample_docs : list (gmap string value) :=
  [ {[ "text" := VStr "Crash on I-35" ]}; {[ "text" := VStr "Stalled vehicle on Lamar" ]} ].

(** The requests in a trace that went to an LLM backend. *)
Definition is_backend_request (ev : event) : bool :=
  match ev with
  | OpenAIChat _ _ | AnthropicMessages _ _ | HttpPost _ _ => true
  | _ => false
  end.
Definition backend_requests (t : list event) : nat :=
  length (List.filter is_backend_request t).

End LLMHandlerNotions.

(** ** rag_inference.py *)

Module RAGInferenceNotions.
Import Py Process RAGInference.

(** The record [query] builds for one retrieved document. *)
Definition record_of (t d id : value) : gmap string value :=
  <["text" := t]> (<["score" := d]> (<["id" := id]> ∅)).

Definition record_at (docs0 dists0 ids0 : list value) (i : nat) : gmap string value :=
  match docs0 !! i, dists0 !! i, ids0 !! i with
  | Some t, Some d, Some id => record_of t d id
  | _, _, _ => ∅
  end.

(** One record per retrieved document, in the order of the collection. *)
Definition formatted (docs0 dists0 ids0 : list value) : list (gmap string value) :=
  map (record_at docs0 dists0 ids0) (seq 0 (length docs0)).

(** The answer of the collection to one query embedding: one inner list
    under each key, all of the same length. *)
Definition answer_for_one_query (results : query_result) (docs0 dists0 ids0 : list value)
    : Prop :=
  r_documents results !! 0%nat = Some docs0
  /\ r_distances results !! 0%nat = Some dists0
  /\ r_ids results !! 0%nat = Some ids0
  /\ length dists0 = length docs0
  /\ length ids0 = length docs0.

(** A toy vector collection for the examples: pairs of id and document,
    returned oldest first, every distance the same float. *)
Definition toy_store : Type := list (string * string).
Definition toy_encode (s : string) : result nat := Ok (String.length s).
Definition toy_encode_batch (l : list string) : result (list nat) :=
  Ok (map String.length l).
Definition toy_query (st : toy_store) (embs : list nat) (n_results : Z) : result query_result :=
  let hits := take (Z.to_nat n_results) st in
  Ok {| r_ids := [map (fun h => VStr h.1) hits];
        r_documents := [map (fun h => VStr h.2) hits];
        r_distances := [map (fun _ => VFloat "0.0") hits] |}.
Definition toy_add (st : toy_store) (docs : list string) (embs : list nat)
    (ids : list string) : result toy_store :=
  Ok (st ++ zip ids docs).

Definition toy_state : @State toy_store nat :=
  {| world := LLMHandlerNotions.openai_world;
     collection := [("doc_0", "Crash on I-35"); ("doc_1", "Stalled vehicle on Lamar");
                    ("doc_2", "Road closed at 6th")];
     collection_calls := [] |}.

Definition toy_pipeline : pipeline :=
  {| llm_handler := Some LLMHandlerNotions.openai_handler |}.

(** The state once the collection has been queried. *)
Definition queried {store embedding : Type} (emb : embedding) (top_k : Z)
    (s : @State store embedding) : @State store embedding :=
  {| world := world s; collection := collection s;
     collection_calls := collection_calls s ++ [CollectionQuery [emb] top_k] |}.

Definition with_world {store embedding : Type} (w : World)
    (s : @State store embedding) : @State store embedding :=
  {| world := w; collection := collection s; collection_calls := collection_calls s |}.

End RAGInferenceNotions.

(** ** traffic_api_to_rag.py *)

Module TrafficApiNotions.
Import Py Process TrafficApi.

(** Transports for the examples: one that answers with two incidents, one
    that answers 404, one that cannot connect. *)
Definition two_incidents : json :=
  JArr [ JObj [("traffic_report_id", JStr "A1"); ("issue_reported", JStr "Crash Urgent")];
         JObj [("traffic_report_id", JStr "B2"); ("issue_reported", JStr "Stalled Vehicle")] ].
Definition serving (t : nat) (url : string) : result http_response :=
  Ok {| status_code := 200; json_body := Some two_incidents; text := "[...]" |}.
Definition not_found (t : nat) (url : string) : result http_response :=
  Ok {| status_code := 404; json_body := None; text := "Not Found" |}.
Definition unreachable (t : nat) (url : string) : result http_response :=
  Raise (RequestException "connection refused").
Definition fresh_world : World := {| environ := ∅; clock := 0; trace := [] |}.

(** The path and the document written for one row of the frame. *)
Definition path_of (output_dir : string) (row : value * series) : string :=
  individual_pdf_path output_dir row.1 row.2.
Definition pdf_of `{Unicode} (timestamp : string) (row : value * series) : pdf :=
  incident_pdf timestamp row.1 row.2.

(** The disk after the individual documents were written, in order. *)
Definition write_all `{Unicode} (timestamp output_dir : string) (df : dataframe)
    (d : gmap string pdf) : gmap string pdf :=
  fold_left (fun d row => <[path_of output_dir row := pdf_of timestamp row]> d) df d.

Definition summary_header (timestamp : string) : pdf :=
  [ centre_cell "Traffic Incident Summary";
    centre_cell ("Generated: " +:+ timestamp);
    left_cell "" ].

Definition sample_frame : dataframe :=
  [ (VInt 0, [("traffic_report_id", VStr "A1"); ("issue_reported", VStr "Crash Urgent");
              ("address", VStr "I-35 & 6th"); ("status", VStr "ACTIVE")]);
    (VInt 1, [("issue_reported", VStr "Stalled Vehicle"); ("address", VStr "Lamar Blvd")]) ].

(** A disk on which every write succeeds. *)
Definition no_io_fault (op : io_op) : option exn := None.

(** The examples are ASCII text; their runtime is never asked about other
    characters. *)
Definition ascii_examples : Unicode := {| unicode_title := fun s => s |}.

(** A disk whose only directory is [traffic_pdfs]: a document can be
    written right under it and nowhere else. *)
Fixpoint has_slash (s : string) : bool :=
  match s with
  | EmptyString => false
  | String c s' => Ascii.eqb c "/" || has_slash s'
  end.
Fixpoint str_drop (n : nat) (s : string) : string :=
  match n, s with
  | S n', String _ s' => str_drop n' s'
  | _, _ => s
  end.
Definition only_traffic_pdfs (op : io_op) : option exn :=
  match op with
  | Makedirs _ => None
  | Output name =>
      if startswith name "traffic_pdfs/" && negb (has_slash (str_drop 13 name))
      then None
      else Some (FileNotFoundError name)
  end.

(** A record without an id, as the preprocessing step fills it in. *)
Definition frame_without_id : dataframe :=
  [ (VInt 0, [("traffic_report_id", VStr "N/A"); ("issue_reported", VStr "Crash Urgent")]) ].

(** Two reports that carry the same id. *)
Definition frame_with_duplicate : dataframe :=
  [ (VInt 0, [("traffic_report_id", VStr "A1"); ("issue_reported", VStr "Crash Urgent")]);
    (VInt 1, [("traffic_report_id", VStr "A1"); ("issue_reported", VStr "Traffic Hazard")]) ].

(** The first line of the summary for an incident. *)
Definition incident_line (row : value * series) : cell :=
  left_cell ("Incident: " +:+ py_str (series_get row.2 "issue_reported" (VStr "N/A"))).

(** What a run has to give for one document per incident: the list of
    [n + 1] paths, and at the [i]-th path the document of the [i]-th
    incident. *)
Definition one_document_per_incident `{Unicode} (timestamp : string) (df : dataframe)
    (out : result (list string) * gmap string pdf) : Prop :=
  exists paths fs',
    out = (Ok paths, fs')
    /\ length paths = S (length df)
    /\ forall i row, df !! i = Some row ->
         exists p, paths !! i = Some p /\ fs' !! p = Some (pdf_of timestamp row).

End TrafficApiNotions.

(** ** ingest_pdfs.py *)

Module IngestPdfsNotions.
Import Py IngestPdfs.

(** The texts of the pages, one after the other. *)
Definition concat_texts (texts : list string) : string :=
  foldr String.append "" texts.

(** A toy PyMuPDF for the examples: a page is its text, [None] when the
    page cannot be read; only one path opens. *)
Definition toy_open (path : string) : result (list (option string)) :=
  if String.eqb path "traffic_pdfs/incident_A1.pdf"
  then Ok [Some "Traffic Incident: A1"; Some " Status: ACTIVE"]
  else if String.eqb path "traffic_pdfs/damaged.pdf"
  then Ok [Some "Traffic Incident: C3"; None]
  else Raise (FileNotFoundError path).
Definition toy_get_text (p : option string) : result string :=
  match p with
  | Some t => Ok t
  | None => Raise (FitzError "cannot read page")
  end.

(** The loop [for page in doc: text += page.get_text()]. *)
Definition read_pages {page St : Type} (get_text : page -> result string)
    (pages : list page) (acc : string) : M St string :=
  for_fold (fun text p => bind (lift_result (get_text p)) (fun t => ret (text +:+ t)))
           pages acc.

End IngestPdfsNotions.

(** ** pdf_processor.py *)

Module PdfProcessorNotions.
Import Py PdfProcessor.

(** A toy PyMuPDF for the examples: a file is a PDF when it starts with
    the magic bytes, and then has one page, its content. *)
Definition toy_parse (content : string) : result (list string) :=
  if startswith content "%PDF" then Ok [content] else Raise (FitzError "cannot open broken document").
Definition toy_get_text (p : string) : result string := Ok p.
Definition no_fault (path : string) : option save_fault := None.
Definition removable (path : string) : option string := None.
Definition remove_denied (path : string) : option string :=
  Some ("[Errno 13] Permission denied: '" +:+ path +:+ "'").
Definition disk_full (path : string) : option save_fault :=
  Some (FailsAfter 4 (Exception "No space left on device")).

Definition upload_of (name content : string) : request :=
  {| files := [("file", {| filename := name; stream := content |})] |}.

End PdfProcessorNotions.

(** ** llm_handler.py, further sample data *)

Module LLMHandlerMoreNotions.
Import Py Process LLMHandler LLMHandlerNotions.

(** [c in s] for a character. *)
Fixpoint contains_char (c : ascii) (s : string) : bool :=
  match s with
  | EmptyString => false
  | String d s' => Ascii.eqb d c || contains_char c s'
  end.

Definition anthropic_world : World :=
  {| environ := {[ "ANTHROPIC_API_KEY" := "sk-ant-test" ]}; clock := 0; trace := [] |}.

Definition empty_world : World := {| environ := ∅; clock := 0; trace := [] |}.

(** A local model server with two models pulled; generation is refused. *)
Definition local_tags : json :=
  JObj [("models", JArr [ JObj [("name", JStr "llama3.1:latest")];
                          JObj [("name", JStr "deepseek-r1:7b")] ])].
Definition local_services : services :=
  {| openai_models_list := fun _ _ => Raise (Exception "401 Unauthorized");
     openai_chat_create := fun _ _ _ => Raise boom;
     anthropic_messages_create := fun _ _ _ => Raise boom;
     requests_get := fun _ _ =>
       Ok {| status_code := 200; json_body := Some local_tags; text := "{...}" |};
     requests_post := fun _ _ _ =>
       Ok {| status_code := 500; json_body := None; text := "model runner crashed" |} |}.

(** A local model server that answers a generation request with an object
    that has no ['response'] entry. *)
Definition silent_services : services :=
  {| openai_models_list := fun _ _ => Ok tt;
     openai_chat_create := fun _ _ _ => Raise boom;
     anthropic_messages_create := fun _ _ _ => Raise boom;
     requests_get := fun _ _ =>
       Ok {| status_code := 200; json_body := Some local_tags; text := "{...}" |};
     requests_post := fun _ _ _ =>
       Ok {| status_code := 200; json_body := Some (JObj [("done", JBool true)]);
             text := "{...}" |} |}.

Definition ollama_handler : handler :=
  {| provider := "ollama"; api_key := None; client := None; model := "llama3.1" |}.

Definition anthropic_handler : handler :=
  {| provider := "anthropic"; api_key := Some "sk-ant-test";
     client := Some (Anthropic "sk-ant-test"); model := "claude-3-opus-20240229" |}.

End LLMHandlerMoreNotions.

(** ** rag_inference.py, further sample data *)

Module RAGInferenceMoreNotions.
Import Py Process RAGInference RAGInferenceNotions.

(** An encoder whose model failed to load, and a collection that is gone. *)
Definition encoder_down (s : string) : result nat := Raise (Exception "model not loaded").
Definition encoder_batch_down (l : list string) : result (list nat) :=
  Raise (Exception "model not loaded").
Definition collection_down (st : toy_store) (embs : list nat) (n_results : Z)
    : result query_result :=
  Raise (Exception "collection does not exist").
Definition add_rejected (st : toy_store) (docs : list string) (embs : list nat)
    (ids : list string) : result toy_store :=
  Raise (ValueError "Expected IDs to be unique").

(** A collection whose answer has fewer distances than documents. *)
Definition collection_misaligned (st : toy_store) (embs : list nat) (n_results : Z)
    : result query_result :=
  Ok {| r_ids := [[VStr "doc_0"; VStr "doc_1"]];
        r_documents := [[VStr "Crash on I-35"; VStr "Stalled vehicle on Lamar"]];
        r_distances := [[VFloat "0.0"]] |}.

Definition no_handler_pipeline : pipeline := {| llm_handler := None |}.

(** The state once the pipeline holds the collection [c]. *)
Definition with_collection {store embedding : Type} (c : store)
    (s : @State store embedding) : @State store embedding :=
  {| world := world s; collection := c; collection_calls := collection_calls s |}.

(** Libraries for the examples: a client whose database keeps what it
    has, and one that hands out an empty collection; an encoder that
    loads, and one whose model cannot be fetched. *)
Definition toy_client : result unit := Ok tt.
Definition toy_get_or_create (st : toy_store) (name description : string) : result toy_store :=
  Ok st.
Definition toy_transformer (name : string) : result unit := Ok tt.
Definition transformer_offline (name : string) : result unit :=
  Raise (Exception ("Cannot load model " +:+ name)).

End RAGInferenceMoreNotions.

(** ** traffic_api_to_rag.py, further sample data *)

Module TrafficApiMoreNotions.
Import Py Process TrafficApi TrafficApiNotions.

(** A disk that is full once the first document has been written. *)
Definition full_after_first (op : io_op) : option exn :=
  match op with
  | Output name =>
      if String.eqb name "traffic_pdfs/incident_A1.pdf" then None
      else Some (Exception "No space left on device")
  | Makedirs _ => None
  end.

(** A transport that answers 200 with a number, and one that answers 200
    with a page that is not JSON. *)
Definition serving_number (t : nat) (url : string) : result http_response :=
  Ok {| status_code := 200; json_body := Some (JNum 7); text := "7" |}.
Definition serving_html (t : nat) (url : string) : result http_response :=
  Ok {| status_code := 200; json_body := None; text := "<html>maintenance</html>" |}.

End TrafficApiMoreNotions.

(** ** ingest_pdfs.py, [main] *)

Module IngestPdfsMainNotions.
Import Py IngestPdfs.

(** What [extract_text_from_pdf] returns for a path, and whether the loop
    of [main] keeps it. *)
Definition extracted {page : Type} (fitz_open : string -> result (list page))
    (get_text : page -> result string) (pdf_file : string) : option string :=
  match fst (extract_text_from_pdf fitz_open get_text pdf_file tt) with
  | Ok r => r
  | Raise _ => None
  end.
Definition has_text {page : Type} (fitz_open : string -> result (list page))
    (get_text : page -> result string) (pdf_file : string) : bool :=
  match extracted fitz_open get_text pdf_file with
  | Some t => negb (String.eqb t "")
  | None => false
  end.
Definition text_of {page : Type} (fitz_open : string -> result (list page))
    (get_text : page -> result string) (pdf_file : string) : string :=
  match extracted fitz_open get_text pdf_file with
  | Some t => t
  | None => ""
  end.

(** A directory with one good document, one damaged and one missing. *)
Definition toy_glob (pattern : string) : list string :=
  if String.eqb pattern "traffic_pdfs/*.pdf"
  then [ "traffic_pdfs/damaged.pdf"; "traffic_pdfs/incident_A1.pdf";
         "traffic_pdfs/missing.pdf" ]
  else [].
Definition no_pdfs (pattern : string) : list string := [].

End IngestPdfsMainNotions.

(** ** upload_pdfs.py *)

Module UploadPdfsNotions.
Import Py PdfProcessor UploadPdfs.
Local Open Scope py_scope.

(** The Flask application behind the URL: the handler's answer as the
    client sees it.  The client reads the status and the decoded body. *)
Definition served {St : Type} (handler : request -> M St response)
    (url : string) (req : request) : M St http_response :=
  if String.eqb url URL
  then resp <- handler req ;;
       ret {| status_code := status resp; json_body := Some (body resp); text := "" |}
  else raise (ConnectionError "Connection refused").

(** The files of the client. *)
Definition toy_files (path : string) : result string :=
  if String.eqb path "traffic_pdfs/incident_A1.pdf" then Ok "%PDF-1.4 incident A1"
  else if String.eqb path "traffic_pdfs/notes.PDF" then Ok "plain notes"
  else Raise (FileNotFoundError path).
Definition two_uploads (pattern : string) : list string :=
  [ "traffic_pdfs/incident_A1.pdf"; "traffic_pdfs/notes.PDF" ].

End UploadPdfsNotions.

(* ===================================================================== *)
(** * Properties *)
(* ===================================================================== *)

(** ** The monad *)

Module PyFacts.
Import Py.

Lemma bind_ok {St A B} (m : M St A) (k : A -> M St B) s a s' :
  m s = (Ok a, s') -> bind m k s = k a s'.
Proof. intros H. unfold bind. now rewrite H. Qed.

(** Re-raising in the handler is the same as not catching. *)
Lemma try_except_reraise {St A} (body : M St A) s :
  try_except body (fun e => raise e) s = body s.
Proof. unfold try_except, raise. now destruct (body s) as [[a|e] s']. Qed.

Lemma try_except_class_reraise {St A} (is_C : exn -> bool) (body : M St A) s :
  try_except_class is_C body (fun e => raise e) s = body s.
Proof.
  unfold try_except_class, raise.
  destruct (body s) as [[a|e] s']; [reflexivity|]. now destruct (is_C e).
Qed.

(** A loop that appends one computed item per element, when computing
    the item neither fails nor changes the state. *)
Lemma for_fold_collect {St A B} (g : A -> M St B) (h : A -> B) (xs : list A) :
  forall (acc : list B) (s : St),
    (forall x, x ∈ xs -> g x s = (Ok (h x), s)) ->
    for_fold (fun acc x => bind (g x) (fun r => ret (acc ++ [r]))) xs acc s
    = (Ok (acc ++ map h xs), s).
Proof.
  induction xs as [|x xs IH]; intros acc s Hg; simpl.
  - now rewrite app_nil_r.
  - unfold bind at 1. unfold bind at 1.
    rewrite (Hg x) by constructor. unfold ret at 1.
    rewrite IH by (intros y Hy; apply Hg; now constructor).
    now rewrite <- app_assoc.
Qed.

End PyFacts.

(** ** tenacity *)

Module TenacityFacts.
Import Py Tenacity.

Section Loop.
Context {St A : Type}.
Variable n : nat.
Variable wait : nat -> Z.
Variable sleep : Z -> St -> St.
Variable f : M St A.

(** With [stop_after_attempt n] the loop ends as soon as the fuel covers
    the attempts that are left. *)
Lemma retry_loop_terminates fuel :
  forall attempt s,
    (0 < fuel)%nat -> (n < attempt + fuel)%nat ->
    is_Some (retry_loop (stop_after_attempt n) wait sleep f fuel attempt s).
Proof.
  induction fuel as [|fuel IH]; intros attempt s Hpos Hlt; [lia|].
  simpl. destruct (f s) as [[a|e] s1]; [eauto|].
  unfold stop_after_attempt at 1.
  destruct (Nat.leb_spec n attempt) as [Hle|Hgt]; [eauto|].
  apply IH; lia.
Qed.

(** More fuel does not change a finished run. *)
Lemma retry_loop_fuel_mono fuel :
  forall attempt s out,
    retry_loop (stop_after_attempt n) wait sleep f fuel attempt s = Some out ->
    retry_loop (stop_after_attempt n) wait sleep f (S fuel) attempt s = Some out.
Proof.
  induction fuel as [|fuel IH]; intros attempt s out H; [discriminate|].
  simpl in H. cbn [retry_loop].
  destruct (f s) as [[a|e] s1]; [assumption|].
  destruct (stop_after_attempt n attempt); [assumption|].
  now apply IH.
Qed.

(** The decorated function never takes its out-of-fuel branch. *)
Lemma retry_loop_stop_after_attempt s :
  exists out,
    retry_loop (stop_after_attempt n) wait sleep f (S n) 1 s = Some out
    /\ retry n wait sleep f s = out.
Proof.
  destruct (retry_loop_terminates (S n) 1 s) as [out Hout]; [lia|lia|].
  exists out. split; [assumption|]. unfold retry. now rewrite Hout.
Qed.
End Loop.

(** The pauses of [wait_exponential(multiplier=1, min=4, max=10)]. *)
Lemma wait_exponential_1_4_10 attempt :
  wait_exponential 1 4 10 attempt =
    match attempt with
    | 0 | 1 | 2 | 3 => 4%Z
    | 4 => 8%Z
    | _ => 10%Z
    end.
Proof.
  do 5 (destruct attempt as [|attempt]; [reflexivity|]).
  unfold wait_exponential.
  assert (16 <= 2 ^ (Z.of_nat (S (S (S (S (S attempt))))) - 1))%Z.
  { replace (Z.of_nat (S (S (S (S (S attempt))))) - 1)%Z with (4 + Z.of_nat attempt)%Z by lia.
    rewrite Z.pow_add_r by lia.
    assert (1 <= 2 ^ Z.of_nat attempt)%Z by (apply Z.pow_le_mono_r with (b := 0%Z) (c := Z.of_nat attempt); lia).
    change (2 ^ 4)%Z with 16%Z. lia. }
  lia.
Qed.

(** Three attempts at most: the loop of [stop_after_attempt(3)], unrolled. *)
Lemma retry_3_unrolled {St A} (wait : nat -> Z) (sleep : Z -> St -> St) (f : M St A) s :
  retry 3 wait sleep f s =
    match f s with
    | (Ok a, s1) => (Ok a, s1)
    | (Raise _, s1) =>
        match f (sleep (wait 1%nat) s1) with
        | (Ok a, s2) => (Ok a, s2)
        | (Raise _, s2) =>
            match f (sleep (wait 2%nat) s2) with
            | (Ok a, s3) => (Ok a, s3)
            | (Raise e, s3) => (Raise (RetryError e), s3)
            end
        end
    end.
Proof.
  unfold retry. cbn [retry_loop].
  destruct (f s) as [[a|e1] s1]; [reflexivity|].
  change (stop_after_attempt 3 1) with false. cbv iota.
  destruct (f (sleep (wait 1%nat) s1)) as [[a|e2] s2]; [reflexivity|].
  change (stop_after_attempt 3 2) with false. cbv iota.
  destruct (f (sleep (wait 2%nat) s2)) as [[a|e3] s3]; reflexivity.
Qed.

End TenacityFacts.

(** ** llm_handler.py *)

Module LLMHandlerFacts.
Import Py Process LLMHandler LLMHandlerNotions PyFacts TenacityFacts.

Section WithServices.
Variable svc : services.

Lemma doc_texts_ok docs w :
  Forall has_text docs -> doc_texts docs w = (Ok (map (fun d => VStr (text_of d)) docs), w).
Proof.
  intros Hdocs. unfold doc_texts.
  apply (for_fold_collect (fun doc => getitem doc "text") (fun d => VStr (text_of d)) docs [] w).
  intros doc Hin. rewrite Forall_forall in Hdocs.
  destruct (Hdocs doc Hin) as [s Hs].
  unfold getitem, text_of, ret. now rewrite Hs.
Qed.

Lemma str_join_ok sep (texts : list string) (w : World) :
  str_join sep (map VStr texts) w = (Ok (join sep texts), w).
Proof.
  unfold str_join.
  rewrite (bind_ok _ _ w texts w); [reflexivity|].
  rewrite (for_fold_collect str_item
             (fun v => match v with VStr s => s | _ => "" end) (map VStr texts) [] w).
  - rewrite map_map. cbn. now rewrite map_id.
  - intros v Hv. apply list_elem_of_fmap in Hv as (t & -> & _). reflexivity.
Qed.

Lemma _generate_ollama_effect h prompt max_tokens w :
  snd (_generate_ollama svc h prompt max_tokens w)
  = after (HttpPost OLLAMA_GENERATE_URL (ollama_body h prompt max_tokens)) w.
Proof.
  unfold _generate_ollama, bind, call, after.
  destruct (requests_post svc (clock w) _ _) as [resp|e]; [|reflexivity].
  destruct (status_code resp =? 200)%Z; [|reflexivity].
  unfold response_json. destruct (json_body resp) as [j|]; [|reflexivity].
  now destruct j.
Qed.

(** One run of the body sends one request, whatever comes back. *)
Lemma generate_response_body_effect h query docs max_tokens :
  initialised h -> Forall has_text docs ->
  exists ev,
    dispatched h (build_prompt (join nl (map text_of docs)) query) max_tokens ev
    /\ forall w, snd (generate_response_body svc h query docs max_tokens w) = after ev w.
Proof.
  intros Hh Hdocs.
  destruct Hh as [k Hp Hc | k Hp Hc | Hp]; eexists; (split; [econstructor; eassumption|]);
    intros w; unfold generate_response_body;
    rewrite try_except_reraise;
    rewrite (bind_ok _ _ w _ w (doc_texts_ok docs w Hdocs));
    rewrite <- (map_map text_of VStr docs);
    rewrite (bind_ok _ _ w _ w (str_join_ok nl (map text_of docs) w));
    rewrite Hp.
  - change (String.eqb "openai" "openai") with true. cbv iota.
    unfold _generate_openai. rewrite Hc. reflexivity.
  - change (String.eqb "anthropic" "openai") with false.
    change (String.eqb "anthropic" "anthropic") with true. cbv iota.
    unfold _generate_anthropic. rewrite Hc. reflexivity.
  - change (String.eqb "ollama" "openai") with false.
    change (String.eqb "ollama" "anthropic") with false.
    change (String.eqb "ollama" "ollama") with true. cbv iota.
    apply _generate_ollama_effect.
Qed.

Lemma _init_openai_ok p model_name w h w' :
  _init_openai svc p model_name w = (Ok h, w') ->
  provider h = p
  /\ exists k, environ w !! "OPENAI_API_KEY" = Some k /\ client h = Some (OpenAI k).
Proof.
  unfold _init_openai, bind, getenv, getenv_default, try_except, call, raise, ret.
  destruct (environ w !! "OPENAI_API_KEY") as [k|] eqn:Hk; cbn [truthy negb];
    [|discriminate].
  destruct (String.eqb k ""); cbn [negb]; [discriminate|].
  change (default "" (Some k)) with k.
  destruct (openai_models_list svc (clock w) k); cbv beta iota; [|discriminate].
  intros [= <- <-]. cbn. eauto.
Qed.

Lemma _init_anthropic_ok p model_name w h w' :
  _init_anthropic p model_name w = (Ok h, w') ->
  provider h = p
  /\ exists k, environ w !! "ANTHROPIC_API_KEY" = Some k /\ client h = Some (Anthropic k).
Proof.
  unfold _init_anthropic, bind, getenv, getenv_default, raise, ret.
  destruct (environ w !! "ANTHROPIC_API_KEY") as [k|] eqn:Hk; cbn [truthy negb];
    [|discriminate].
  destruct (String.eqb k ""); cbn [negb]; [discriminate|].
  intros [= <- <-]. cbn. eauto.
Qed.

Lemma _init_ollama_ok p model_name w h w' :
  _init_ollama svc p model_name w = (Ok h, w') -> provider h = p /\ client h = None.
Proof.
  unfold _init_ollama, bind at 1, getenv_default. unfold bind at 1.
  match goal with |- context [try_except ?b ?k ?s] => destruct (try_except b k s) as [[u|e] s1] end;
    [|discriminate].
  unfold ret. intros [= <- <-]. now cbn.
Qed.

(** The provider passed the membership test only if it is one of the
    three keys. *)
Lemma in_SUPPORTED_MODELS_spec key :
  in_SUPPORTED_MODELS key = true <->
  key = "openai" \/ key = "anthropic" \/ key = "ollama".
Proof.
  unfold in_SUPPORTED_MODELS, SUPPORTED_MODELS. cbn [assoc_get].
  destruct (String.eqb_spec key "openai") as [->|H1]; [tauto|].
  destruct (String.eqb_spec key "anthropic") as [->|H2]; [tauto|].
  destruct (String.eqb_spec key "ollama") as [->|H3]; [tauto|].
  split; [discriminate|]. tauto.
Qed.

Lemma __init___initialised provider_arg model_name w h w' :
  __init__ svc provider_arg model_name w = (Ok h, w') -> initialised h.
Proof.
  unfold __init__. rewrite try_except_reraise.
  destruct (in_SUPPORTED_MODELS (lower provider_arg)) eqn:Hin; cbn [negb]; [|discriminate].
  apply in_SUPPORTED_MODELS_spec in Hin. unfold _initialize_client.
  destruct Hin as [-> | [-> | ->]].
  - change (String.eqb "openai" "openai") with true. cbv iota. intros H.
    apply _init_openai_ok in H as [Hp (k & _ & Hc)]. now apply (init_is_openai h k).
  - change (String.eqb "anthropic" "openai") with false.
    change (String.eqb "anthropic" "anthropic") with true. cbv iota. intros H.
    apply _init_anthropic_ok in H as [Hp (k & _ & Hc)]. now apply (init_is_anthropic h k).
  - change (String.eqb "ollama" "openai") with false.
    change (String.eqb "ollama" "anthropic") with false.
    change (String.eqb "ollama" "ollama") with true. cbv iota. intros H.
    apply _init_ollama_ok in H as [Hp _]. now apply init_is_ollama.
Qed.

(** The trace of the decorated function: the same request once, twice
    or three times, four seconds apart. *)
Lemma generate_response_trace h query docs max_tokens ev :
  (forall w, snd (generate_response_body svc h query docs max_tokens w) = after ev w) ->
  forall w, exists n : nat,
    (n <= 2)%nat
    /\ trace (snd (generate_response svc h query docs max_tokens w))
       = trace w ++ ev :: concat (replicate n [Sleep 4; ev]).
Proof.
  intros Hbody w. unfold generate_response. rewrite retry_3_unrolled.
  rewrite !wait_exponential_1_4_10.
  set (body := generate_response_body svc h query docs max_tokens) in *.
  pose proof (Hbody w) as H1.
  destruct (body w) as [[v|e1] w1]; cbn [snd] in H1; subst w1.
  { exists 0%nat. split; [lia|reflexivity]. }
  pose proof (Hbody (sleep 4 (after ev w))) as H2.
  destruct (body (sleep 4 (after ev w))) as [[v|e2] w2]; cbn [snd] in H2; subst w2.
  { exists 1%nat. split; [lia|]. cbn. now rewrite <- !app_assoc. }
  pose proof (Hbody (sleep 4 (after ev (sleep 4 (after ev w))))) as H3.
  destruct (body (sleep 4 (after ev (sleep 4 (after ev w))))) as [[v|e3] w3];
    cbn [snd] in H3; subst w3;
    (exists 2%nat; split; [lia|]; cbn; now rewrite <- !app_assoc).
Qed.
End WithServices.

End LLMHandlerFacts.

Module LLMHandlerSpec.
Import Py Process LLMHandler LLMHandlerNotions PyFacts TenacityFacts LLMHandlerFacts.

(** C1, as amended.  [generate_response] runs its body at most three times
    in all (the first call and two retries), pausing 4 seconds (the
    exponential wait clamped to its minimum) after each of the first two
    failures.  The value of the first attempt that succeeds is returned;
    when the third attempt fails too, tenacity's [RetryError] around the
    last exception is raised. *)
Theorem generate_response_three_attempts
    (svc : services) (h : handler) (query : string)
    (docs : list (gmap string value)) (max_tokens : Z) (w : World) :
  let body := generate_response_body svc h query docs max_tokens in
  generate_response svc h query docs max_tokens w =
    match body w with
    | (Ok v, w1) => (Ok v, w1)
    | (Raise _, w1) =>
        match body (sleep 4 w1) with
        | (Ok v, w2) => (Ok v, w2)
        | (Raise _, w2) =>
            match body (sleep 4 w2) with
            | (Ok v, w3) => (Ok v, w3)
            | (Raise e, w3) => (Raise (RetryError e), w3)
            end
        end
    end.
Proof.
  intros body. unfold generate_response. rewrite retry_3_unrolled.
  now rewrite !wait_exponential_1_4_10.
Qed.

(** A provider that is down: three requests are made, two pauses of four
    seconds lie between them, and the caller sees a [RetryError]. *)
Example generate_response_provider_down :
  generate_response down_services openai_handler "What happened?" sample_docs 500 openai_world
  = (Raise (RetryError boom),
     let prompt := build_prompt (join nl ["Crash on I-35"; "Stalled vehicle on Lamar"])
                                "What happened?" in
     let ev := OpenAIChat "sk-test" (chat_request_of openai_handler prompt 500) in
     {| environ := environ openai_world; clock := 3;
        trace := [ev; Sleep 4; ev; Sleep 4; ev] |}).
Proof. vm_compute. reflexivity. Qed.

(** C1 as the claim words it fails on that provider: the call is retried
    twice, not three times, and the exception of the provider is not the
    one that reaches the caller. *)
Lemma generate_response_retried_three_times_counterexample :
  let out := generate_response down_services openai_handler "What happened?"
                               sample_docs 500 openai_world in
  backend_requests (trace (snd out)) = 3%nat
  /\ fst out = Raise (RetryError boom)
  /\ ~ (backend_requests (trace (snd out)) = (1 + 3)%nat /\ fst out = Raise boom).
Proof.
  rewrite generate_response_provider_down. cbn [fst snd trace].
  split; [reflexivity|]. split; [reflexivity|].
  intros [_ H]. discriminate H.
Qed.

(** A provider that recovers: the third attempt returns its answer. *)
Example generate_response_recovers :
  let w := {| environ := environ openai_world; clock := 1; trace := [] |} in
  fst (generate_response flaky_services openai_handler "What happened?" sample_docs 500 w)
  = Ok (VStr "Two crashes on I-35.").
Proof. vm_compute. reflexivity. Qed.

(** The f-string of the source is the template of the claim. *)
Lemma joined_by_newlines_join (texts : list string) :
  join nl texts = joined_by_newlines texts.
Proof.
  induction texts as [|t [|t' rest] IH]; [reflexivity|reflexivity|].
  change (join nl (t :: t' :: rest)) with (t +:+ nl +:+ join nl (t' :: rest)).
  rewrite IH. reflexivity.
Qed.

Lemma build_prompt_spelled (texts : list string) (query : string) :
  build_prompt (join nl texts) query = prompt_for texts query.
Proof. rewrite joined_by_newlines_join. reflexivity. Qed.

Lemma dispatched_carries h prompt max_tokens ev :
  dispatched h prompt max_tokens ev ->
  prompt_sent ev = Some prompt /\ backend_of ev = Some (provider h).
Proof. intros [k Hp Hc|k Hp Hc|Hp]; rewrite Hp; split; reflexivity. Qed.

(** C4.  For a handler that its constructor returned and context documents
    with a ['text'] string each, one run of the body of
    [generate_response] joins the texts with newlines, fills the fixed
    template with the joined text and the query, and sends that prompt in
    one request to the backend of the configured provider; the decorated
    function repeats this same request and nothing else, at most three
    times. *)
Theorem generate_response_prompt_dispatch
    (svc : services) (provider_arg : string) (model_name : option string)
    (w0 : World) (h : handler) (w1 : World)
    (query : string) (docs : list (gmap string value)) (max_tokens : Z) :
  __init__ svc provider_arg model_name w0 = (Ok h, w1) ->
  Forall has_text docs ->
  let prompt := prompt_for (map text_of docs) query in
  exists ev,
    dispatched h prompt max_tokens ev
    /\ prompt_sent ev = Some prompt
    /\ backend_of ev = Some (provider h)
    /\ (forall w, snd (generate_response_body svc h query docs max_tokens w) = after ev w)
    /\ (forall w, exists n : nat,
          (n <= 2)%nat
          /\ trace (snd (generate_response svc h query docs max_tokens w))
             = trace w ++ ev :: concat (replicate n [Sleep 4; ev])).
Proof.
  intros Hinit Hdocs prompt.
  apply __init___initialised in Hinit.
  destruct (generate_response_body_effect svc h query docs max_tokens Hinit Hdocs)
    as (ev & Hev & Hbody).
  rewrite build_prompt_spelled in Hev. fold prompt in Hev.
  destruct (dispatched_carries h prompt max_tokens ev Hev) as [Hsent Hto].
  exists ev. split; [exact Hev|]. split; [exact Hsent|]. split; [exact Hto|].
  split; [exact Hbody|].
  now apply generate_response_trace.
Qed.

Lemma generate_response_prompt_dispatch_witness :
  exists ev,
    prompt_sent ev
    = Some "Based on the following traffic incident information, please answer the query.

Context information:
Crash on I-35
Stalled vehicle on Lamar

Query: What happened?

Please provide a clear and concise response based only on the information provided in the context."
    /\ backend_of ev = Some "openai"
    /\ (forall w, snd (generate_response_body flaky_services openai_handler "What happened?"
                                              sample_docs 500 w) = after ev w)
    /\ (forall w, exists n : nat,
          (n <= 2)%nat
          /\ trace (snd (generate_response flaky_services openai_handler "What happened?"
                                           sample_docs 500 w))
             = trace w ++ ev :: concat (replicate n [Sleep 4; ev])).
Proof.
  destruct (generate_response_prompt_dispatch flaky_services "OpenAI" (Some "gpt-4")
              openai_world openai_handler
              {| environ := environ openai_world; clock := 1;
                 trace := [OpenAIModelsList "sk-test"] |}
              "What happened?" sample_docs 500)
    as (ev & _ & Hsent & Hto & Hbody & Htrace).
  - vm_compute. reflexivity.
  - repeat constructor; eexists; apply lookup_singleton_eq.
  - exists ev. split; [exact Hsent|]. split; [exact Hto|]. split; assumption.
Defined.

(** C6.  A provider that is not, up to case, one of ["openai"],
    ["anthropic"], ["ollama"] makes the constructor raise [ValueError]
    before anything is initialised; for each of the three, the constructor
    is the initialiser of that backend, and the object it returns has that
    provider and that backend's client. *)
Theorem __init___provider_check
    (svc : services) (provider_arg : string) (model_name : option string) (w : World) :
  (~ eq_nocase provider_arg "openai" ->
   ~ eq_nocase provider_arg "anthropic" ->
   ~ eq_nocase provider_arg "ollama" ->
   __init__ svc provider_arg model_name w
   = (Raise (ValueError ("Unsupported provider: " +:+ lower provider_arg +:+
                         ". Supported providers: ['openai', 'anthropic', 'ollama']")), w))
  /\ (eq_nocase provider_arg "openai" ->
      __init__ svc provider_arg model_name w = _init_openai svc "openai" model_name w)
  /\ (eq_nocase provider_arg "anthropic" ->
      __init__ svc provider_arg model_name w = _init_anthropic "anthropic" model_name w)
  /\ (eq_nocase provider_arg "ollama" ->
      __init__ svc provider_arg model_name w = _init_ollama svc "ollama" model_name w)
  /\ (forall h w',
        __init__ svc provider_arg model_name w = (Ok h, w') ->
        provider h = lower provider_arg /\ initialised h).
Proof.
  unfold eq_nocase.
  change (lower "openai") with "openai". change (lower "anthropic") with "anthropic".
  change (lower "ollama") with "ollama".
  repeat split.
  - intros H1 H2 H3. unfold __init__. rewrite try_except_reraise.
    destruct (in_SUPPORTED_MODELS (lower provider_arg)) eqn:Hin.
    + apply in_SUPPORTED_MODELS_spec in Hin. tauto.
    + reflexivity.
  - intros H. unfold __init__. rewrite try_except_reraise, H. reflexivity.
  - intros H. unfold __init__. rewrite try_except_reraise, H. reflexivity.
  - intros H. unfold __init__. rewrite try_except_reraise, H. reflexivity.
  - revert H. unfold __init__. rewrite try_except_reraise.
    destruct (in_SUPPORTED_MODELS (lower provider_arg)) eqn:Hin; cbn [negb]; [|discriminate].
    apply in_SUPPORTED_MODELS_spec in Hin. unfold _initialize_client.
    destruct Hin as [-> | [-> | ->]]; intros H.
    + now apply _init_openai_ok in H as [Hp _].
    + now apply _init_anthropic_ok in H as [Hp _].
    + now apply _init_ollama_ok in H as [Hp _].
  - now apply (__init___initialised svc provider_arg model_name w h w').
Qed.

Lemma __init___provider_check_witness :
  __init__ flaky_services "Mistral" None openai_world
  = (Raise (ValueError
       "Unsupported provider: mistral. Supported providers: ['openai', 'anthropic', 'ollama']"),
     openai_world)
  /\ __init__ flaky_services "OpenAI" None openai_world
     = _init_openai flaky_services "openai" None openai_world
  /\ __init__ flaky_services "Anthropic" None openai_world
     = _init_anthropic "anthropic" None openai_world
  /\ __init__ flaky_services "OLLAMA" None openai_world
     = _init_ollama flaky_services "ollama" None openai_world
  /\ provider openai_handler = "openai" /\ initialised openai_handler.
Proof.
  split; [|split; [|split; [|split]]].
  - apply (__init___provider_check flaky_services "Mistral" None openai_world);
      intros H; vm_compute in H; discriminate H.
  - apply (__init___provider_check flaky_services "OpenAI" None openai_world). reflexivity.
  - apply (__init___provider_check flaky_services "Anthropic" None openai_world). reflexivity.
  - apply (__init___provider_check flaky_services "OLLAMA" None openai_world). reflexivity.
  - destruct (__init___provider_check flaky_services "OpenAI" (Some "gpt-4") openai_world)
      as (_ & _ & _ & _ & H).
    apply (H openai_handler
             {| environ := environ openai_world; clock := 1;
                trace := [OpenAIModelsList "sk-test"] |}).
    vm_compute. reflexivity.
Defined.

End LLMHandlerSpec.


(** ** rag_inference.py *)

Module RAGInferenceFacts.
Import Py Process RAGInference RAGInferenceNotions PyFacts.

Lemma record_of_lookup t d id :
  record_of t d id !! "text" = Some t
  /\ record_of t d id !! "score" = Some d
  /\ record_of t d id !! "id" = Some id.
Proof.
  unfold record_of. split; [|split].
  - apply lookup_insert_eq.
  - rewrite lookup_insert_ne by discriminate. apply lookup_insert_eq.
  - rewrite !lookup_insert_ne by discriminate. apply lookup_insert_eq.
Qed.

Lemma formatted_length docs0 dists0 ids0 :
  length (formatted docs0 dists0 ids0) = length docs0.
Proof. unfold formatted. now rewrite length_map, length_seq. Qed.

Lemma formatted_lookup docs0 dists0 ids0 i t d id :
  docs0 !! i = Some t -> dists0 !! i = Some d -> ids0 !! i = Some id ->
  formatted docs0 dists0 ids0 !! i = Some (record_of t d id).
Proof.
  intros Ht Hd Hid. unfold formatted.
  rewrite list_lookup_fmap, lookup_seq_lt by (eapply lookup_lt_Some; eassumption).
  cbn. unfold record_at. now rewrite Ht, Hd, Hid.
Qed.

Section WithServices.
Context {store embedding : Type}.
Variable encode : string -> result embedding.
Variable encode_batch : list string -> result (list embedding).
Variable collection_query : store -> list embedding -> Z -> result query_result.
Variable collection_add :
  store -> list string -> list embedding -> list string -> result store.
Variable svc : services.

Local Abbreviation State := (@RAGInference.State store embedding).

Lemma format_result_ok results docs0 dists0 ids0 i (s : State) :
  answer_for_one_query results docs0 dists0 ids0 ->
  (i < length docs0)%nat ->
  format_result results i s = (Ok (record_at docs0 dists0 ids0 i), s).
Proof.
  intros (Hdocs & Hdists & Hids & Hl1 & Hl2) Hi.
  destruct (lookup_lt_is_Some_2 docs0 i Hi) as [t Ht].
  destruct (lookup_lt_is_Some_2 dists0 i ltac:(lia)) as [d Hd].
  destruct (lookup_lt_is_Some_2 ids0 i ltac:(lia)) as [id Hid].
  unfold format_result, bind, index, ret, record_at.
  rewrite Hdocs, Ht, Hdists, Hd, Hids, Hid. reflexivity.
Qed.

Lemma format_results_ok results docs0 dists0 ids0 (s : State) :
  answer_for_one_query results docs0 dists0 ids0 ->
  format_results results s = (Ok (formatted docs0 dists0 ids0), s).
Proof.
  intros Hans. unfold format_results.
  rewrite (bind_ok _ _ s docs0 s).
  2:{ destruct Hans as (Hdocs & _). unfold index. now rewrite Hdocs. }
  apply (for_fold_collect (format_result results) (record_at docs0 dists0 ids0)
           (seq 0 (length docs0)) [] s).
  intros i Hi. apply list_elem_of_In, in_seq in Hi.
  apply (format_result_ok results docs0 dists0 ids0); [assumption|lia].
Qed.

(** The configuration check never raises. *)
Lemma is_configured_total h w :
  exists b w', LLMHandler.is_configured svc h w = (Ok b, w').
Proof.
  unfold LLMHandler.is_configured, try_except.
  match goal with |- context [match ?m w with _ => _ end] => destruct (m w) as [[b|e] w'] end;
    unfold ret; eauto.
Qed.

End WithServices.

End RAGInferenceFacts.


Module RAGInferenceSpec.
Import Py Process RAGInference RAGInferenceNotions PyFacts RAGInferenceFacts.

Section WithServices.
Context {store embedding : Type}.
Variable encode : string -> result embedding.
Variable encode_batch : list string -> result (list embedding).
Variable collection_query : store -> list embedding -> Z -> result query_result.
Variable collection_add :
  store -> list string -> list embedding -> list string -> result store.
Variable svc : services.

Local Abbreviation State := (@RAGInference.State store embedding).

(** [query] after a retrieval that succeeded: what is left is the LLM
    stage, and none of its branches raises. *)
Lemma query_after_retrieval self query_text top_k (s : State) emb results docs0 dists0 ids0 :
  encode query_text = Ok emb ->
  collection_query (collection s) [emb] top_k = Ok results ->
  answer_for_one_query results docs0 dists0 ids0 ->
  let docs := formatted docs0 dists0 ids0 in
  let s1 := queried emb top_k s in
  query encode collection_query svc self query_text top_k s =
    match llm_handler self with
    | None => (Ok {| documents := docs; llm_response := VNone |}, s1)
    | Some h =>
        match LLMHandler.is_configured svc h (world s) with
        | (Ok true, w1) =>
            match LLMHandler.generate_response svc h query_text docs
                    LLMHandler.DEFAULT_MAX_TOKENS w1 with
            | (Ok v, w2) => (Ok {| documents := docs; llm_response := v |}, with_world w2 s1)
            | (Raise _, w2) =>
                (Ok {| documents := docs; llm_response := VStr LLM_FALLBACK |}, with_world w2 s1)
            end
        | (Ok false, w1) =>
            (Ok {| documents := docs; llm_response := VNone |}, with_world w1 s1)
        | (Raise e, w1) => (Raise e, with_world w1 s1)
        end
    end.
Proof.
  intros Henc Hquery Hans docs s1.
  unfold query. rewrite try_except_reraise.
  unfold bind at 1, lift_result. rewrite Henc.
  unfold bind at 1, do_collection_query. rewrite Hquery. fold (queried emb top_k s). fold s1.
  rewrite (bind_ok _ _ s1 docs s1) by (now apply (format_results_ok results docs0 dists0 ids0)).
  destruct (llm_handler self) as [h|]; [|reflexivity].
  unfold bind at 1. unfold bind at 1, in_world at 1, zoom at 1.
  change (world s1) with (world s).
  destruct (LLMHandler.is_configured svc h (world s)) as [[[|]|e] w1]; try reflexivity.
  fold (with_world w1 s1).
  unfold try_except, in_world, zoom, ret. change (world (with_world w1 s1)) with w1.
  destruct (LLMHandler.generate_response svc h query_text docs LLMHandler.DEFAULT_MAX_TOKENS w1)
    as [[v|e] w2]; reflexivity.
Qed.

(** C2.  When the retrieval succeeds and the LLM stage is entered (a
    handler is set and reports itself configured) but [generate_response]
    raises, [query] does not raise: it returns the records of the retrieved
    documents and the fallback message as ['llm_response']. *)
Theorem query_llm_failure_fallback
    self query_text top_k (s : State) emb results docs0 dists0 ids0 h w1 e :
  encode query_text = Ok emb ->
  collection_query (collection s) [emb] top_k = Ok results ->
  answer_for_one_query results docs0 dists0 ids0 ->
  llm_handler self = Some h ->
  LLMHandler.is_configured svc h (world s) = (Ok true, w1) ->
  fst (LLMHandler.generate_response svc h query_text (formatted docs0 dists0 ids0)
         LLMHandler.DEFAULT_MAX_TOKENS w1) = Raise e ->
  exists s',
    query encode collection_query svc self query_text top_k s
    = (Ok {| documents := formatted docs0 dists0 ids0;
             llm_response := VStr "Error: Unable to generate LLM response" |}, s').
Proof.
  intros Henc Hquery Hans Hh Hconf Hgen.
  rewrite (query_after_retrieval self query_text top_k s emb results docs0 dists0 ids0)
    by assumption.
  rewrite Hh, Hconf.
  destruct (LLMHandler.generate_response svc h query_text (formatted docs0 dists0 ids0)
              LLMHandler.DEFAULT_MAX_TOKENS w1) as [[v|e'] w2]; cbn [fst] in Hgen.
  - discriminate Hgen.
  - eexists. reflexivity.
Qed.

(** C3.  When the retrieval succeeds, [query] returns, whatever the LLM
    stage does; ['documents'] holds one record per document the collection
    returned (at most [top_k] when the collection kept to [n_results]), and
    the record at position [i] has the [i]-th document, distance and id
    under ['text'], ['score'] and ['id']. *)
Theorem query_documents
    self query_text top_k (s : State) emb results docs0 dists0 ids0 :
  encode query_text = Ok emb ->
  collection_query (collection s) [emb] top_k = Ok results ->
  answer_for_one_query results docs0 dists0 ids0 ->
  (Z.of_nat (length docs0) <= top_k)%Z ->
  exists resp s',
    query encode collection_query svc self query_text top_k s = (Ok resp, s')
    /\ length (documents resp) = length docs0
    /\ (Z.of_nat (length (documents resp)) <= top_k)%Z
    /\ forall i t d id,
         docs0 !! i = Some t -> dists0 !! i = Some d -> ids0 !! i = Some id ->
         exists record,
           documents resp !! i = Some record
           /\ record !! "text" = Some t
           /\ record !! "score" = Some d
           /\ record !! "id" = Some id.
Proof.
  intros Henc Hquery Hans Hk.
  assert (Hshape : forall llm,
    length (documents {| documents := formatted docs0 dists0 ids0; llm_response := llm |})
      = length docs0
    /\ (Z.of_nat (length (documents {| documents := formatted docs0 dists0 ids0;
                                       llm_response := llm |})) <= top_k)%Z
    /\ forall i t d id,
         docs0 !! i = Some t -> dists0 !! i = Some d -> ids0 !! i = Some id ->
         exists record,
           documents {| documents := formatted docs0 dists0 ids0; llm_response := llm |} !! i
             = Some record
           /\ record !! "text" = Some t
           /\ record !! "score" = Some d
           /\ record !! "id" = Some id).
  { intros llm. cbn [documents]. rewrite formatted_length.
    split; [reflexivity|]. split; [assumption|].
    intros i t d id Ht Hd Hid. exists (record_of t d id).
    split; [now apply formatted_lookup|]. apply record_of_lookup. }
  rewrite (query_after_retrieval self query_text top_k s emb results docs0 dists0 ids0)
    by assumption.
  destruct (llm_handler self) as [h|]; [|eauto].
  destruct (RAGInferenceFacts.is_configured_total svc h (world s)) as (b & w1 & Hconf).
  rewrite Hconf. destruct b; [|eauto].
  destruct (LLMHandler.generate_response svc h query_text (formatted docs0 dists0 ids0)
              LLMHandler.DEFAULT_MAX_TOKENS w1) as [[v|e] w2]; eauto.
Qed.

Lemma auto_ids_lookup n i :
  (i < n)%nat -> auto_ids n !! i = Some ("doc_" +:+ pretty i).
Proof.
  intros Hi. unfold auto_ids. now rewrite list_lookup_fmap, lookup_seq_lt.
Qed.

Lemma add_documents_auto self docs embs (s : State) :
  encode_batch docs = Ok embs ->
  collection_calls (snd (add_documents encode_batch collection_add self docs None s))
  = collection_calls s ++ [CollectionAdd docs embs (auto_ids (length docs))].
Proof.
  intros Henc. unfold add_documents. rewrite try_except_reraise.
  unfold bind, lift_result. rewrite Henc. unfold do_collection_add.
  now destruct (collection_add (collection s) docs embs (auto_ids (length docs))).
Qed.

(** C9.  With [ids=None] the ids handed to the collection are
    ["doc_0"], ..., ["doc_{n-1}"], whatever the collection holds; two such
    calls in a row therefore hand over the same ids at every position both
    lists have, ["doc_0"] among them. *)
Theorem add_documents_auto_ids_overlap
    self docs1 docs2 embs1 embs2 (s : State) :
  encode_batch docs1 = Ok embs1 ->
  encode_batch docs2 = Ok embs2 ->
  docs1 <> [] -> docs2 <> [] ->
  let s1 := snd (add_documents encode_batch collection_add self docs1 None s) in
  let s2 := snd (add_documents encode_batch collection_add self docs2 None s1) in
  exists ids1 ids2,
    collection_calls s2
    = collection_calls s ++ [CollectionAdd docs1 embs1 ids1; CollectionAdd docs2 embs2 ids2]
    /\ length ids1 = length docs1
    /\ length ids2 = length docs2
    /\ (forall i, (i < length docs1)%nat -> ids1 !! i = Some ("doc_" +:+ pretty i))
    /\ (forall i, (i < length docs2)%nat -> ids2 !! i = Some ("doc_" +:+ pretty i))
    /\ "doc_0" ∈ ids1 /\ "doc_0" ∈ ids2.
Proof.
  intros Henc1 Henc2 Hne1 Hne2 s1 s2.
  exists (auto_ids (length docs1)), (auto_ids (length docs2)).
  assert (Hzero : forall docs : list string, docs <> [] -> "doc_0" ∈ auto_ids (length docs)).
  { intros docs Hne. apply list_elem_of_lookup. exists 0%nat.
    rewrite auto_ids_lookup; [reflexivity|].
    destruct docs; [congruence|cbn; lia]. }
  repeat split.
  - subst s2. rewrite (add_documents_auto self docs2 embs2 s1 Henc2).
    subst s1. rewrite (add_documents_auto self docs1 embs1 s Henc1).
    now rewrite <- app_assoc.
  - unfold auto_ids. now rewrite length_map, length_seq.
  - unfold auto_ids. now rewrite length_map, length_seq.
  - intros i Hi. now apply auto_ids_lookup.
  - intros i Hi. now apply auto_ids_lookup.
  - now apply Hzero.
  - now apply Hzero.
Qed.

End WithServices.

(** The toy collection, queried for two documents while the provider is
    down. *)
Lemma query_llm_failure_fallback_witness :
  exists s',
    query toy_encode toy_query LLMHandlerNotions.down_services toy_pipeline
          "Any crashes?" 2 toy_state
    = (Ok {| documents :=
               formatted [VStr "Crash on I-35"; VStr "Stalled vehicle on Lamar"]
                         [VFloat "0.0"; VFloat "0.0"] [VStr "doc_0"; VStr "doc_1"];
             llm_response := VStr "Error: Unable to generate LLM response" |}, s').
Proof.
  apply (query_llm_failure_fallback toy_encode toy_query LLMHandlerNotions.down_services
           toy_pipeline "Any crashes?" 2 toy_state 12%nat
           {| r_ids := [[VStr "doc_0"; VStr "doc_1"]];
              r_documents := [[VStr "Crash on I-35"; VStr "Stalled vehicle on Lamar"]];
              r_distances := [[VFloat "0.0"; VFloat "0.0"]] |}
           [VStr "Crash on I-35"; VStr "Stalled vehicle on Lamar"]
           [VFloat "0.0"; VFloat "0.0"] [VStr "doc_0"; VStr "doc_1"]
           LLMHandlerNotions.openai_handler
           {| environ := environ LLMHandlerNotions.openai_world; clock := 1;
              trace := [OpenAIModelsList "sk-test"] |}
           (RetryError LLMHandlerNotions.boom)).
  - reflexivity.
  - reflexivity.
  - repeat split.
  - reflexivity.
  - vm_compute. reflexivity.
  - vm_compute. reflexivity.
Defined.

Lemma query_documents_witness :
  exists resp s',
    query toy_encode toy_query LLMHandlerNotions.flaky_services toy_pipeline
          "Any crashes?" 2 toy_state = (Ok resp, s')
    /\ length (documents resp) = 2%nat
    /\ (Z.of_nat (length (documents resp)) <= 2)%Z
    /\ forall i t d id,
         [VStr "Crash on I-35"; VStr "Stalled vehicle on Lamar"] !! i = Some t ->
         [VFloat "0.0"; VFloat "0.0"] !! i = Some d ->
         [VStr "doc_0"; VStr "doc_1"] !! i = Some id ->
         exists record,
           documents resp !! i = Some record
           /\ record !! "text" = Some t
           /\ record !! "score" = Some d
           /\ record !! "id" = Some id.
Proof.
  apply (query_documents toy_encode toy_query LLMHandlerNotions.flaky_services
           toy_pipeline "Any crashes?" 2 toy_state 12%nat
           {| r_ids := [[VStr "doc_0"; VStr "doc_1"]];
              r_documents := [[VStr "Crash on I-35"; VStr "Stalled vehicle on Lamar"]];
              r_distances := [[VFloat "0.0"; VFloat "0.0"]] |}
           [VStr "Crash on I-35"; VStr "Stalled vehicle on Lamar"]
           [VFloat "0.0"; VFloat "0.0"] [VStr "doc_0"; VStr "doc_1"]).
  - reflexivity.
  - reflexivity.
  - repeat split.
  - cbn. lia.
Defined.

Lemma add_documents_auto_ids_overlap_witness :
  let s1 := snd (add_documents toy_encode_batch toy_add toy_pipeline
                   ["Crash on I-35"; "Stalled vehicle on Lamar"] None toy_state) in
  let s2 := snd (add_documents toy_encode_batch toy_add toy_pipeline
                   ["Road closed at 6th"] None s1) in
  exists ids1 ids2,
    collection_calls s2
    = collection_calls toy_state
      ++ [CollectionAdd ["Crash on I-35"; "Stalled vehicle on Lamar"] [13%nat; 24%nat] ids1;
          CollectionAdd ["Road closed at 6th"] [18%nat] ids2]
    /\ length ids1 = 2%nat
    /\ length ids2 = 1%nat
    /\ (forall i, (i < 2)%nat -> ids1 !! i = Some ("doc_" +:+ pretty i))
    /\ (forall i, (i < 1)%nat -> ids2 !! i = Some ("doc_" +:+ pretty i))
    /\ "doc_0" ∈ ids1 /\ "doc_0" ∈ ids2.
Proof.
  apply (add_documents_auto_ids_overlap toy_encode_batch toy_add toy_pipeline
           ["Crash on I-35"; "Stalled vehicle on Lamar"] ["Road closed at 6th"]
           [13%nat; 24%nat] [18%nat] toy_state).
  - reflexivity.
  - reflexivity.
  - discriminate.
  - discriminate.
Defined.

(** The two calls of the witness, evaluated: the second one reuses
    ["doc_0"]. *)
Example add_documents_twice :
  let s1 := snd (add_documents toy_encode_batch toy_add toy_pipeline
                   ["Crash on I-35"; "Stalled vehicle on Lamar"] None toy_state) in
  let s2 := snd (add_documents toy_encode_batch toy_add toy_pipeline
                   ["Road closed at 6th"] None s1) in
  collection_calls s2
  = [CollectionAdd ["Crash on I-35"; "Stalled vehicle on Lamar"] [13%nat; 24%nat]
       ["doc_0"; "doc_1"];
     CollectionAdd ["Road closed at 6th"] [18%nat] ["doc_0"]].
Proof. vm_compute. reflexivity. Qed.

End RAGInferenceSpec.


(** ** traffic_api_to_rag.py *)

Module TrafficApiSpec.
Import Py Process TrafficApi TrafficApiNotions PyFacts.

(** [fetch_traffic_data] with its plumbing unfolded. *)
Lemma fetch_traffic_data_unfold
    (requests_get : nat -> string -> result http_response) (limit : Z) (w : World) :
  fetch_traffic_data requests_get limit w =
    (match requests_get (clock w) (fetch_url limit) with
     | Raise e => Raise e
     | Ok r =>
         if ((400 <=? status_code r) && (status_code r <? 600))%Z
         then Raise (HTTPError (status_code r))
         else match json_body r with
              | None => Raise JSONDecodeError
              | Some data =>
                  match json_len data with
                  | Ok _ => Ok data
                  | Raise e => Raise e
                  end
              end
     end,
     {| environ := environ w; clock := S (clock w);
        trace := trace w ++ [HttpGet (fetch_url limit)] |}).
Proof.
  unfold fetch_traffic_data. rewrite try_except_class_reraise.
  unfold bind, call, raise_for_status, response_json, lift_result, raise, ret.
  destruct (requests_get (clock w) (fetch_url limit)) as [r|e]; [|reflexivity].
  destruct ((400 <=? status_code r) && (status_code r <? 600))%Z; [reflexivity|].
  destruct (json_body r) as [j|]; [|reflexivity].
  now destruct (json_len j).
Qed.

(** C7.  [fetch_traffic_data] makes one GET request, to the API URL with
    [$limit] set to the limit and [$order] to [published_date DESC].  If
    the request raises, or the status is 4xx or 5xx, the call raises and
    returns nothing; otherwise a body that is a JSON list is returned as
    it was decoded. *)
Theorem fetch_traffic_data_spec
    (requests_get : nat -> string -> result http_response) (limit : Z) (w : World) :
  let url := "https://data.austintexas.gov/resource/dx9v-zd7x.json?$limit=" +:+ pretty limit
             +:+ "&$order=published_date DESC" in
  let out := fetch_traffic_data requests_get limit w in
  trace (snd out) = trace w ++ [HttpGet url]
  /\ (forall e, requests_get (clock w) url = Raise e -> fst out = Raise e)
  /\ (forall r, requests_get (clock w) url = Ok r ->
                (400 <= status_code r < 600)%Z ->
                fst out = Raise (HTTPError (status_code r)))
  /\ (forall r records,
        requests_get (clock w) url = Ok r ->
        ~ (400 <= status_code r < 600)%Z ->
        json_body r = Some (JArr records) ->
        fst out = Ok (JArr records)).
Proof.
  intros url out. subst out. rewrite fetch_traffic_data_unfold.
  change (fetch_url limit) with url. cbn [fst snd trace].
  split; [reflexivity|]. split; [|split].
  - intros e ->. reflexivity.
  - intros r -> Hbad.
    replace ((400 <=? status_code r) && (status_code r <? 600))%Z with true; [reflexivity|].
    symmetry. apply andb_true_iff. split; [apply Z.leb_le|apply Z.ltb_lt]; lia.
  - intros r records -> Hgood ->.
    replace ((400 <=? status_code r) && (status_code r <? 600))%Z with false; [reflexivity|].
    symmetry. apply andb_false_iff.
    destruct (Z.leb_spec 400 (status_code r)); [right; apply Z.ltb_ge; lia|now left].
Qed.

Lemma fetch_traffic_data_spec_witness :
  fst (fetch_traffic_data unreachable 50 fresh_world)
    = Raise (RequestException "connection refused")
  /\ fst (fetch_traffic_data not_found 50 fresh_world) = Raise (HTTPError 404)
  /\ fst (fetch_traffic_data serving 2 fresh_world) = Ok two_incidents.
Proof.
  split; [|split].
  - pose proof (fetch_traffic_data_spec unreachable 50 fresh_world) as H.
    cbv zeta in H. destruct H as (_ & H & _). apply H. reflexivity.
  - pose proof (fetch_traffic_data_spec not_found 50 fresh_world) as H.
    cbv zeta in H. destruct H as (_ & _ & H & _).
    apply (H {| status_code := 404; json_body := None; text := "Not Found" |}).
    + reflexivity.
    + cbn. lia.
  - pose proof (fetch_traffic_data_spec serving 2 fresh_world) as H.
    cbv zeta in H. destruct H as (_ & _ & _ & H).
    apply (H {| status_code := 200; json_body := Some two_incidents; text := "[...]" |}).
    + reflexivity.
    + cbn. lia.
    + reflexivity.
Defined.

(** The request of the default limit, spelled out. *)
Example fetch_traffic_data_request :
  trace (snd (fetch_traffic_data serving API_LIMIT fresh_world))
  = [HttpGet "https://data.austintexas.gov/resource/dx9v-zd7x.json?$limit=50&$order=published_date DESC"].
Proof. vm_compute. reflexivity. Qed.

Section Render.
Context `{Unicode}.
Variable io_fault : io_op -> option exn.

(** The loop, when none of its writes fails. *)
Lemma fold_incident_step timestamp output_dir df :
  forall st0 fs,
    (forall row, row ∈ df -> io_fault (Output (path_of output_dir row)) = None) ->
    for_fold (incident_step io_fault timestamp output_dir) df st0 fs =
    (Ok {| summary_pdf := summary_pdf st0 ++ concat (map (fun row => summary_cells row.2) df);
           pdf_files := pdf_files st0 ++ map (path_of output_dir) df |},
     write_all timestamp output_dir df fs).
Proof.
  induction df as [|[idx incident] df IH]; intros st0 fs Hok.
  - cbn. rewrite !app_nil_r. now destruct st0.
  - cbn [for_fold]. unfold bind at 1, incident_step at 1. unfold bind at 1, fpdf_output at 1.
    pose proof (Hok (idx, incident) ltac:(constructor)) as Hhead.
    unfold path_of in Hhead. cbn [fst snd] in Hhead. rewrite Hhead. unfold ret at 1.
    rewrite IH by (intros row Hrow; apply Hok; now constructor).
    cbn [summary_pdf pdf_files map concat]. rewrite <- !app_assoc. reflexivity.
Qed.

(** The loop stops at the first write that fails. *)
Lemma fold_incident_step_fails timestamp output_dir before row after e :
  forall st0 fs,
    (forall r, r ∈ before -> io_fault (Output (path_of output_dir r)) = None) ->
    io_fault (Output (path_of output_dir row)) = Some e ->
    for_fold (incident_step io_fault timestamp output_dir) (before ++ row :: after) st0 fs
    = (Raise e, write_all timestamp output_dir before fs).
Proof.
  induction before as [|[idx incident] before IH]; intros st0 fs Hok Hbad.
  - destruct row as [idx incident]. cbn [app for_fold].
    unfold bind at 1, incident_step at 1. unfold bind at 1, fpdf_output at 1.
    unfold path_of in Hbad. cbn [fst snd] in Hbad. now rewrite Hbad.
  - cbn [app for_fold]. unfold bind at 1, incident_step at 1. unfold bind at 1, fpdf_output at 1.
    pose proof (Hok (idx, incident) ltac:(constructor)) as Hhead.
    unfold path_of in Hhead. cbn [fst snd] in Hhead. rewrite Hhead. unfold ret at 1.
    rewrite IH; [reflexivity| |assumption].
    intros r Hr. apply Hok. now constructor.
Qed.
End Render.

Lemma write_all_snoc `{Unicode} timestamp output_dir df row d :
  write_all timestamp output_dir (df ++ [row]) d
  = <[path_of output_dir row := pdf_of timestamp row]> (write_all timestamp output_dir df d).
Proof. unfold write_all. now rewrite fold_left_app. Qed.

(** Each path holds the document of a row with that path (the last one
    written there). *)
Lemma write_all_lookup_in `{Unicode} timestamp output_dir df d row :
  row ∈ df ->
  exists row',
    row' ∈ df
    /\ path_of output_dir row' = path_of output_dir row
    /\ write_all timestamp output_dir df d !! path_of output_dir row
       = Some (pdf_of timestamp row').
Proof.
  induction df as [|x df IH] using rev_ind; intros Hin.
  - now apply elem_of_nil in Hin.
  - rewrite write_all_snoc.
    destruct (decide (path_of output_dir x = path_of output_dir row)) as [Heq|Hne].
    + exists x. split; [apply elem_of_app; right; constructor|].
      split; [assumption|]. rewrite <- Heq. apply lookup_insert_eq.
    + apply elem_of_app in Hin as [Hin|Hin].
      * destruct (IH Hin) as (row' & Hin' & Hpath & Hlook).
        exists row'. split; [apply elem_of_app; now left|].
        split; [assumption|]. now rewrite lookup_insert_ne.
      * apply list_elem_of_singleton in Hin. congruence.
Qed.

Lemma write_all_lookup_notin `{Unicode} timestamp output_dir df d p :
  (forall row, row ∈ df -> path_of output_dir row <> p) ->
  write_all timestamp output_dir df d !! p = d !! p.
Proof.
  induction df as [|x df IH] using rev_ind; intros Hfresh; [reflexivity|].
  rewrite write_all_snoc, lookup_insert_ne.
  - apply IH. intros row Hin. apply Hfresh, elem_of_app. now left.
  - apply Hfresh, elem_of_app. right. constructor.
Qed.

Lemma append_inv_head (a x y : string) : a +:+ x = a +:+ y -> x = y.
Proof. induction a as [|c a IH]; cbn; [trivial|]. intros [= H]. now apply IH. Qed.

(** No incident document can take the place of the summary. *)
Lemma path_of_not_summary output_dir row :
  path_of output_dir row <> summary_pdf_path output_dir.
Proof.
  unfold path_of, individual_pdf_path, summary_pdf_path. intros H.
  apply append_inv_head in H. discriminate H.
Qed.

Lemma NoDup_fmap_elem_inj {A B : Type} (f : A -> B) (l : list A) x y :
  NoDup (map f l) -> x ∈ l -> y ∈ l -> f x = f y -> x = y.
Proof.
  induction l as [|a l IH]; intros Hnd Hx Hy Hf.
  - now apply elem_of_nil in Hx.
  - cbn in Hnd. apply NoDup_cons in Hnd as [Hnotin Hnd].
    apply elem_of_cons in Hx as [->|Hx]; apply elem_of_cons in Hy as [->|Hy].
    + reflexivity.
    + exfalso. apply Hnotin. rewrite Hf. now apply list_elem_of_fmap_2.
    + exfalso. apply Hnotin. rewrite <- Hf. now apply list_elem_of_fmap_2.
    + now apply IH.
Qed.

Section Render.
Context `{Unicode}.
Variable io_fault : io_op -> option exn.

(** [create_incident_pdfs] on a disk that takes every write. *)
Lemma create_incident_pdfs_run timestamp df output_dir fs :
  io_fault (Makedirs output_dir) = None ->
  (forall row, row ∈ df -> io_fault (Output (path_of output_dir row)) = None) ->
  io_fault (Output (summary_pdf_path output_dir)) = None ->
  create_incident_pdfs io_fault timestamp df output_dir fs =
    (Ok (map (path_of output_dir) df ++ [summary_pdf_path output_dir]),
     <[summary_pdf_path output_dir :=
         summary_header timestamp ++ concat (map (fun row => summary_cells row.2) df)]>
       (write_all timestamp output_dir df fs)).
Proof.
  intros Hdir Hrows Hsummary. unfold create_incident_pdfs.
  unfold bind at 1, makedirs. rewrite Hdir.
  unfold bind at 1. rewrite fold_incident_step by assumption.
  unfold bind, fpdf_output. cbn [summary_pdf pdf_files]. rewrite Hsummary. reflexivity.
Qed.

(** A write that fails ends the call: nothing is returned. *)
Lemma create_incident_pdfs_write_fails timestamp before row after output_dir fs e :
  io_fault (Makedirs output_dir) = None ->
  (forall r, r ∈ before -> io_fault (Output (path_of output_dir r)) = None) ->
  io_fault (Output (path_of output_dir row)) = Some e ->
  fst (create_incident_pdfs io_fault timestamp (before ++ row :: after) output_dir fs) = Raise e.
Proof.
  intros Hdir Hok Hbad. unfold create_incident_pdfs.
  unfold bind at 1, makedirs. rewrite Hdir.
  unfold bind at 1. now rewrite (fold_incident_step_fails io_fault) with (e := e).
Qed.

(** The summary has the first line of every incident, in order. *)
Lemma incident_lines_sublist (df : dataframe) :
  sublist (map incident_line df) (concat (map (fun row => summary_cells row.2) df)).
Proof.
  induction df as [|[idx incident] df IH]; [constructor|].
  cbn [map concat]. unfold summary_cells at 1. cbn [snd]. rewrite <- !app_assoc. cbn [app].
  apply sublist_skip. do 2 apply sublist_cons.
  apply sublist_inserts_l. apply sublist_cons. exact IH.
Qed.

(** The head of an incident document and its line for a column. *)
Lemma incident_pdf_content timestamp idx incident :
  head (incident_pdf timestamp idx incident)
  = Some (centre_cell ("Traffic Incident: " +:+
            py_str (series_get incident "traffic_report_id"
                      (VStr ("unknown_" +:+ py_str idx)))))
  /\ forall key v,
       (key, v) ∈ incident ->
       key <> "shape" -> key <> "location" ->
       (str_len (py_str v) <= 200)%nat ->
       left_cell (title (replace_char "_" " " key) +:+ ": " +:+ py_str v)
       ∈ incident_pdf timestamp idx incident.
Proof.
  split; [reflexivity|].
  intros key v Hin Hshape Hlocation Hshort.
  unfold incident_pdf. apply elem_of_app. right. apply elem_of_app. left.
  apply list_elem_of_omap. exists (key, v). split; [exact Hin|].
  cbn [fst snd]. unfold field_cell.
  apply String.eqb_neq in Hshape, Hlocation. rewrite Hshape, Hlocation. cbn [orb].
  replace (200 <? str_len (py_str v))%nat with false; [reflexivity|].
  symmetry. apply Nat.ltb_ge. exact Hshort.
Qed.

(** C5, as amended.  For a frame of [n] incidents, when the directory and
    the files can be written, [create_incident_pdfs] returns [n + 1]
    paths: the [i]-th is [<dir>/incident_<id>.pdf] for the id of the
    [i]-th incident, the last is [<dir>/all_incidents_summary.pdf].
    Afterwards the summary path holds the summary, which has the lines of
    all incidents in order, and every incident path holds the document of
    an incident with that path.  When the incident paths are pairwise
    different these are [n + 1] different files, and each incident has its
    own document: it starts with [Traffic Incident: <id>] and has the line
    of every column but the two geometry columns. *)
Theorem create_incident_pdfs_spec
    (timestamp : string) (df : dataframe) (output_dir : string) (fs : gmap string pdf) :
  io_fault (Makedirs output_dir) = None ->
  (forall row, row ∈ df -> io_fault (Output (path_of output_dir row)) = None) ->
  io_fault (Output (summary_pdf_path output_dir)) = None ->
  exists paths fs',
    create_incident_pdfs io_fault timestamp df output_dir fs = (Ok paths, fs')
    /\ length paths = S (length df)
    /\ (forall i idx incident,
          df !! i = Some (idx, incident) ->
          paths !! i
          = Some (output_dir +:+ "/incident_" +:+
                  py_str (series_get incident "traffic_report_id"
                            (VStr ("unknown_" +:+ py_str idx))) +:+ ".pdf"))
    /\ paths !! length df = Some (output_dir +:+ "/all_incidents_summary.pdf")
    /\ (forall i idx incident,
          df !! i = Some (idx, incident) ->
          exists idx' incident',
            (idx', incident') ∈ df
            /\ individual_pdf_path output_dir idx' incident'
               = individual_pdf_path output_dir idx incident
            /\ fs' !! individual_pdf_path output_dir idx incident
               = Some (incident_pdf timestamp idx' incident'))
    /\ (NoDup (map (path_of output_dir) df) ->
        NoDup paths
        /\ forall i idx incident,
             df !! i = Some (idx, incident) ->
             exists doc,
               fs' !! individual_pdf_path output_dir idx incident = Some doc
               /\ doc = incident_pdf timestamp idx incident
               /\ head doc
                  = Some (centre_cell ("Traffic Incident: " +:+
                            py_str (series_get incident "traffic_report_id"
                                      (VStr ("unknown_" +:+ py_str idx)))))
               /\ forall key v,
                    (key, v) ∈ incident ->
                    key <> "shape" -> key <> "location" ->
                    (str_len (py_str v) <= 200)%nat ->
                    left_cell (title (replace_char "_" " " key) +:+ ": " +:+ py_str v) ∈ doc)
    /\ (exists summary,
          fs' !! (output_dir +:+ "/all_incidents_summary.pdf") = Some summary
          /\ summary
             = summary_header timestamp ++ concat (map (fun row => summary_cells row.2) df)
          /\ head summary = Some (centre_cell "Traffic Incident Summary")
          /\ sublist (map incident_line df) summary).
Proof.
  intros Hdir Hrows Hsummary.
  eexists _, _. split; [now apply create_incident_pdfs_run|].
  assert (Hon_disk : forall i idx incident,
            df !! i = Some (idx, incident) ->
            exists idx' incident',
              (idx', incident') ∈ df
              /\ individual_pdf_path output_dir idx' incident'
                 = individual_pdf_path output_dir idx incident
              /\ <[summary_pdf_path output_dir :=
                     summary_header timestamp
                     ++ concat (map (fun row => summary_cells row.2) df)]>
                   (write_all timestamp output_dir df fs)
                   !! individual_pdf_path output_dir idx incident
                 = Some (incident_pdf timestamp idx' incident')).
  { intros i idx incident Hi.
    assert (Hin : (idx, incident) ∈ df) by (apply list_elem_of_lookup; eauto).
    destruct (write_all_lookup_in timestamp output_dir df fs (idx, incident) Hin)
      as ([idx' incident'] & Hin' & Hpath & Hlook).
    exists idx', incident'. split; [assumption|]. split; [exact Hpath|].
    rewrite lookup_insert_ne.
    - exact Hlook.
    - intros Heq. now apply (path_of_not_summary output_dir (idx, incident)). }
  split; [|split; [|split; [|split; [|split]]]].
  - rewrite length_app, length_map. cbn. lia.
  - intros i idx incident Hi.
    rewrite lookup_app_l by (rewrite length_map; eapply lookup_lt_Some; eassumption).
    rewrite list_lookup_fmap. unfold dataframe in *.
    rewrite Hi. reflexivity.
  - rewrite lookup_app_r by (rewrite length_map; lia).
    rewrite length_map, Nat.sub_diag. reflexivity.
  - exact Hon_disk.
  - intros Hnd. split.
    + apply NoDup_app. split; [exact Hnd|]. split; [|apply NoDup_singleton].
      intros p Hp Hlast. apply list_elem_of_singleton in Hlast. subst p.
      apply list_elem_of_fmap in Hp as (row & Hrow & _).
      now apply (path_of_not_summary output_dir row).
    + intros i idx incident Hi.
      destruct (Hon_disk i idx incident Hi) as (idx' & incident' & Hin' & Hpath & Hlook).
      assert (Hin : (idx, incident) ∈ df) by (apply list_elem_of_lookup; eauto).
      assert (Heq : (idx', incident') = (idx, incident))
        by (apply (NoDup_fmap_elem_inj (path_of output_dir) df); assumption).
      injection Heq as -> ->.
      exists (incident_pdf timestamp idx incident).
      split; [exact Hlook|]. split; [reflexivity|].
      apply incident_pdf_content.
  - eexists. split; [apply lookup_insert_eq|]. split; [reflexivity|].
    split; [reflexivity|].
    unfold summary_header. cbn [app]. do 3 apply sublist_cons.
    apply incident_lines_sublist.
Qed.
End Render.

#[local] Existing Instance ascii_examples.

Lemma create_incident_pdfs_spec_witness :
  exists paths fs',
    create_incident_pdfs only_traffic_pdfs "2025-01-01 00:00:00" sample_frame "traffic_pdfs" ∅
    = (Ok paths, fs')
    /\ paths !! 0%nat = Some "traffic_pdfs/incident_A1.pdf"
    /\ paths !! 1%nat = Some "traffic_pdfs/incident_unknown_1.pdf"
    /\ paths !! 2%nat = Some "traffic_pdfs/all_incidents_summary.pdf"
    /\ (exists doc,
          fs' !! "traffic_pdfs/incident_A1.pdf" = Some doc
          /\ head doc = Some (centre_cell "Traffic Incident: A1")
          /\ left_cell "Issue Reported: Crash Urgent" ∈ doc)
    /\ (exists summary,
          fs' !! "traffic_pdfs/all_incidents_summary.pdf" = Some summary
          /\ sublist [left_cell "Incident: Crash Urgent"; left_cell "Incident: Stalled Vehicle"]
                     summary).
Proof.
  destruct (create_incident_pdfs_spec only_traffic_pdfs "2025-01-01 00:00:00" sample_frame
              "traffic_pdfs" ∅)
    as (paths & fs' & Hrun & _ & Hpath & Hlast & _ & Hown & Hsum).
  - reflexivity.
  - intros row Hrow. apply list_elem_of_In in Hrow.
    destruct Hrow as [<-|[<-|[]]]; reflexivity.
  - reflexivity.
  - exists paths, fs'. split; [exact Hrun|]. split; [|split; [|split; [|split]]].
    + apply (Hpath 0%nat (VInt 0)
               [("traffic_report_id", VStr "A1"); ("issue_reported", VStr "Crash Urgent");
                ("address", VStr "I-35 & 6th"); ("status", VStr "ACTIVE")]).
      reflexivity.
    + apply (Hpath 1%nat (VInt 1)
               [("issue_reported", VStr "Stalled Vehicle"); ("address", VStr "Lamar Blvd")]).
      reflexivity.
    + exact Hlast.
    + destruct Hown as [_ Hown].
      { repeat constructor; rewrite ?elem_of_cons, ?elem_of_nil; intros Hin;
          repeat destruct Hin as [Hin|Hin]; try discriminate Hin; exact Hin. }
      destruct (Hown 0%nat (VInt 0)
                  [("traffic_report_id", VStr "A1"); ("issue_reported", VStr "Crash Urgent");
                   ("address", VStr "I-35 & 6th"); ("status", VStr "ACTIVE")] eq_refl)
        as (doc & Hdoc & _ & Hhead & Hlines).
      exists doc. split; [exact Hdoc|]. split; [exact Hhead|].
      apply (Hlines "issue_reported" (VStr "Crash Urgent")).
      * apply list_elem_of_In. right. now left.
      * discriminate.
      * discriminate.
      * vm_compute. lia.
    + destruct Hsum as (summary & Hlook & _ & _ & Hsub).
      exists summary. split; [exact Hlook|exact Hsub].
Defined.

(** C5 as the claim words it fails in two ways.  Two incidents with one
    id share a path, so the first path of the list holds the document of
    the second incident; and an id with a slash in it names a file in a
    directory that is not there, so the call raises and returns nothing. *)
Lemma create_incident_pdfs_one_per_incident_counterexample :
  ~ one_document_per_incident "2025-01-01 00:00:00" frame_with_duplicate
      (create_incident_pdfs no_io_fault "2025-01-01 00:00:00" frame_with_duplicate
         "traffic_pdfs" ∅)
  /\ ~ one_document_per_incident "2025-01-01 00:00:00" frame_without_id
        (create_incident_pdfs only_traffic_pdfs "2025-01-01 00:00:00" frame_without_id
           "traffic_pdfs" ∅).
Proof.
  split.
  - intros (paths & fs' & Hrun & _ & Hdocs).
    rewrite (create_incident_pdfs_run no_io_fault "2025-01-01 00:00:00" frame_with_duplicate
               "traffic_pdfs" ∅ eq_refl (fun _ _ => eq_refl) eq_refl) in Hrun.
    injection Hrun as <- <-.
    destruct (Hdocs 0%nat _ eq_refl) as (p & Hp & Hdoc).
    injection Hp as <-.
    rewrite lookup_insert_ne in Hdoc by discriminate.
    change (write_all "2025-01-01 00:00:00" "traffic_pdfs" frame_with_duplicate ∅)
      with (<["traffic_pdfs/incident_A1.pdf" :=
               pdf_of "2025-01-01 00:00:00"
                 (VInt 1, [("traffic_report_id", VStr "A1");
                           ("issue_reported", VStr "Traffic Hazard")])]>
              (<["traffic_pdfs/incident_A1.pdf" :=
                  pdf_of "2025-01-01 00:00:00"
                    (VInt 0, [("traffic_report_id", VStr "A1");
                              ("issue_reported", VStr "Crash Urgent")])]>
                 (∅ : gmap string pdf))) in Hdoc.
    change (path_of "traffic_pdfs"
              (VInt 0, [("traffic_report_id", VStr "A1");
                        ("issue_reported", VStr "Crash Urgent")]))
      with "traffic_pdfs/incident_A1.pdf" in Hdoc.
    rewrite lookup_insert_eq in Hdoc. discriminate Hdoc.
  - intros (paths & fs' & Hrun & _).
    assert (Hraise :
      fst (create_incident_pdfs only_traffic_pdfs "2025-01-01 00:00:00" frame_without_id
             "traffic_pdfs" ∅)
      = Raise (FileNotFoundError "traffic_pdfs/incident_N/A.pdf")).
    { apply (create_incident_pdfs_write_fails only_traffic_pdfs "2025-01-01 00:00:00" []
               (VInt 0, [("traffic_report_id", VStr "N/A");
                         ("issue_reported", VStr "Crash Urgent")]) [] "traffic_pdfs" ∅).
      - reflexivity.
      - intros r Hr. now apply elem_of_nil in Hr.
      - reflexivity. }
    rewrite Hrun in Hraise. discriminate Hraise.
Qed.

(** The list returned for the sample frame. *)
Example create_incident_pdfs_sample :
  fst (create_incident_pdfs only_traffic_pdfs "2025-01-01 00:00:00" sample_frame
         "traffic_pdfs" ∅)
  = Ok [ "traffic_pdfs/incident_A1.pdf"; "traffic_pdfs/incident_unknown_1.pdf";
         "traffic_pdfs/all_incidents_summary.pdf" ].
Proof. vm_compute. reflexivity. Qed.

(** An id with a slash in it points into a directory that is not there:
    the write fails and the call raises. *)
Example create_incident_pdfs_slash_in_id :
  create_incident_pdfs only_traffic_pdfs "2025-01-01 00:00:00" frame_without_id
    "traffic_pdfs" ∅
  = (Raise (FileNotFoundError "traffic_pdfs/incident_N/A.pdf"), ∅).
Proof. vm_compute. reflexivity. Qed.

End TrafficApiSpec.


(** ** ingest_pdfs.py *)

Module IngestPdfsSpec.
Import Py IngestPdfs IngestPdfsNotions PyFacts.

Lemma append_assoc (a b c : string) : (a +:+ b) +:+ c = a +:+ (b +:+ c).
Proof.
  induction a as [|x a IH]; [reflexivity|].
  change (String x ((a +:+ b) +:+ c) = String x (a +:+ (b +:+ c))). now rewrite IH.
Qed.

Lemma append_empty_r (a : string) : a +:+ "" = a.
Proof.
  induction a as [|x a IH]; [reflexivity|].
  change (String x (a +:+ "") = String x a). now rewrite IH.
Qed.

Section WithFitz.
Context {page St : Type}.
Variable fitz_open : string -> result (list page).
Variable get_text : page -> result string.

Lemma read_pages_ok pages texts :
  Forall2 (fun p t => get_text p = Ok t) pages texts ->
  forall acc (s : St), read_pages get_text pages acc s = (Ok (acc +:+ concat_texts texts), s).
Proof.
  induction 1 as [|p t pages texts Hp _ IH]; intros acc s.
  - cbn. now rewrite append_empty_r.
  - unfold read_pages. cbn [for_fold]. unfold bind at 1. unfold bind at 1, lift_result at 1.
    rewrite Hp. unfold ret at 1. fold (@read_pages page St get_text pages (acc +:+ t)).
    rewrite IH. cbn [concat_texts foldr].
    now rewrite append_assoc.
Qed.

Lemma read_pages_raise pages :
  Exists (fun p => exists e, get_text p = Raise e) pages ->
  forall acc (s : St), exists e, read_pages get_text pages acc s = (Raise e, s).
Proof.
  induction pages as [|p pages IH]; intros Hex acc s.
  - now apply Exists_nil in Hex.
  - unfold read_pages. cbn [for_fold]. unfold bind at 1. unfold bind at 1, lift_result at 1.
    destruct (get_text p) as [t|e] eqn:Hp.
    + unfold ret at 1. fold (@read_pages page St get_text pages (acc +:+ t)). apply IH.
      apply Exists_cons in Hex as [[e He]|Hex]; [congruence|assumption].
    + eauto.
Qed.

(** C8.  [extract_text_from_pdf] never raises.  When the document opens
    and every page yields its text, the result is the texts of the pages
    concatenated in page order; when opening fails, or any page fails, the
    result is [None]. *)
Theorem extract_text_from_pdf_spec (pdf_path : string) (s : St) :
  (exists r, extract_text_from_pdf fitz_open get_text pdf_path s = (Ok r, s))
  /\ (forall pages texts,
        fitz_open pdf_path = Ok pages ->
        Forall2 (fun p t => get_text p = Ok t) pages texts ->
        extract_text_from_pdf fitz_open get_text pdf_path s
        = (Ok (Some (concat_texts texts)), s))
  /\ (forall e,
        fitz_open pdf_path = Raise e ->
        extract_text_from_pdf fitz_open get_text pdf_path s = (Ok None, s))
  /\ (forall pages,
        fitz_open pdf_path = Ok pages ->
        Exists (fun p => exists e, get_text p = Raise e) pages ->
        extract_text_from_pdf fitz_open get_text pdf_path s = (Ok None, s)).
Proof.
  assert (Hopen_fail : forall e,
            fitz_open pdf_path = Raise e ->
            extract_text_from_pdf fitz_open get_text pdf_path s = (Ok None, s)).
  { intros e He. unfold extract_text_from_pdf, try_except, bind, lift_result.
    rewrite He. reflexivity. }
  assert (Hpage_fail : forall pages,
            fitz_open pdf_path = Ok pages ->
            Exists (fun p => exists e, get_text p = Raise e) pages ->
            extract_text_from_pdf fitz_open get_text pdf_path s = (Ok None, s)).
  { intros pages Hopen Hex.
    unfold extract_text_from_pdf, try_except. unfold bind at 1, lift_result at 1.
    rewrite Hopen. unfold bind at 1. fold (@read_pages page St get_text pages "").
    destruct (read_pages_raise pages Hex "" s) as [e ->]. reflexivity. }
  assert (Hok : forall pages texts,
            fitz_open pdf_path = Ok pages ->
            Forall2 (fun p t => get_text p = Ok t) pages texts ->
            extract_text_from_pdf fitz_open get_text pdf_path s
            = (Ok (Some (concat_texts texts)), s)).
  { intros pages texts Hopen Hall.
    unfold extract_text_from_pdf, try_except. unfold bind at 1, lift_result at 1.
    rewrite Hopen. unfold bind at 1. fold (@read_pages page St get_text pages "").
    rewrite (read_pages_ok pages texts Hall "" s). reflexivity. }
  split; [|split; [exact Hok|split; [exact Hopen_fail|exact Hpage_fail]]].
  destruct (fitz_open pdf_path) as [pages|e] eqn:Hopen; [|eauto].
  assert (Hcases : (exists texts, Forall2 (fun p t => get_text p = Ok t) pages texts)
                   \/ Exists (fun p => exists e, get_text p = Raise e) pages).
  { clear. induction pages as [|p pages [[texts IH]|IH]].
    - left. exists []. constructor.
    - destruct (get_text p) as [t|e] eqn:Hp.
      + left. exists (t :: texts). now constructor.
      + right. apply Exists_cons_hd. eauto.
    - right. now apply Exists_cons_tl. }
  destruct Hcases as [[texts Hall]|Hex]; eauto.
Qed.

End WithFitz.

Lemma extract_text_from_pdf_spec_witness :
  extract_text_from_pdf toy_open toy_get_text "traffic_pdfs/incident_A1.pdf" tt
    = (Ok (Some "Traffic Incident: A1 Status: ACTIVE"), tt)
  /\ extract_text_from_pdf toy_open toy_get_text "traffic_pdfs/missing.pdf" tt = (Ok None, tt)
  /\ extract_text_from_pdf toy_open toy_get_text "traffic_pdfs/damaged.pdf" tt = (Ok None, tt).
Proof.
  split; [|split].
  - destruct (extract_text_from_pdf_spec toy_open toy_get_text
                "traffic_pdfs/incident_A1.pdf" tt) as (_ & H & _).
    apply (H [Some "Traffic Incident: A1"; Some " Status: ACTIVE"]
             ["Traffic Incident: A1"; " Status: ACTIVE"]).
    + reflexivity.
    + repeat constructor.
  - destruct (extract_text_from_pdf_spec toy_open toy_get_text
                "traffic_pdfs/missing.pdf" tt) as (_ & _ & H & _).
    apply (H (FileNotFoundError "traffic_pdfs/missing.pdf")). reflexivity.
  - destruct (extract_text_from_pdf_spec toy_open toy_get_text
                "traffic_pdfs/damaged.pdf" tt) as (_ & _ & _ & H).
    apply (H [Some "Traffic Incident: C3"; None]).
    + reflexivity.
    + apply Exists_cons_tl, Exists_cons_hd. exists (FitzError "cannot read page"). reflexivity.
Defined.

End IngestPdfsSpec.


(** ** pdf_processor.py *)

Module PdfProcessorSpec.
Import Py PdfProcessor PdfProcessorNotions PyFacts.

Section WithServices.
Context {page : Type}.
Variable fitz_parse : string -> result (list page).
Variable get_text : page -> result string.
Variable disk_fault : string -> option save_fault.
Variable remove_fault : string -> option string.
Variable WEB_AI_INDEX_PATH : option string.

(** Reading the pages leaves the disk alone. *)
Lemma read_pages_state (doc : list page) :
  forall acc (fs : gmap string node),
    snd (for_fold (fun acc p => bind (lift_result (get_text p)) (fun t => ret (acc +:+ t)))
                  doc acc fs) = fs.
Proof.
  induction doc as [|p doc IH]; intros acc fs; [reflexivity|].
  cbn [for_fold]. unfold bind at 1. unfold bind at 1, lift_result at 1.
  destruct (get_text p) as [t|e]; [|reflexivity].
  unfold ret at 1. apply IH.
Qed.

(** What [file.save] leaves on the disk. *)
Lemma file_save_state file filepath (fs : gmap string node) :
  let s1 := snd (file_save disk_fault file filepath fs) in
  (fs !! filepath = Some Dir -> s1 = fs)
  /\ (s1 = fs \/ exists content, s1 = <[filepath := File content]> fs).
Proof.
  unfold file_save.
  destruct (fs !! filepath) as [[c|]|] eqn:Hlook; cbn [snd];
    try (split; [intros _; reflexivity|now left]);
    (split; [discriminate|]);
    destruct (disk_fault filepath) as [[e|n e]|]; cbn [snd]; eauto.
Qed.

(** The [try] block never raises, answers 200 or 500, and changes the disk
    only through [file.save]. *)
Lemma process_upload_run file filepath (fs : gmap string node) :
  exists resp,
    process_upload fitz_parse get_text disk_fault WEB_AI_INDEX_PATH file filepath fs
    = (Ok resp, snd (file_save disk_fault file filepath fs))
    /\ (status resp = 200%Z \/ status resp = 500%Z).
Proof.
  unfold process_upload, try_except. unfold bind at 1.
  destruct (file_save disk_fault file filepath fs) as [[u|e] s1]; cbn [snd];
    [|unfold ret; eauto].
  unfold bind at 1, fitz_open.
  destruct (s1 !! filepath) as [[content|]|]; try (unfold ret; eauto).
  destruct (fitz_parse content) as [doc|e]; [|unfold ret; eauto].
  unfold bind at 1.
  pose proof (read_pages_state doc "" s1) as Hstate.
  destruct (for_fold _ doc "" s1) as [[full_text|e] s2]; cbn [snd] in Hstate; subst s2;
    [|unfold ret; eauto].
  destruct (truthy WEB_AI_INDEX_PATH); unfold ret; eauto.
Qed.

(** The [finally] block never raises; it deletes a regular file at the
    path, unless [os.remove] fails, and does nothing else. *)
Lemma cleanup_run filepath (fs : gmap string node) :
  cleanup remove_fault filepath fs
  = (Ok tt, match fs !! filepath with
            | Some (File _) =>
                match remove_fault filepath with
                | Some _ => fs
                | None => delete filepath fs
                end
            | _ => fs
            end).
Proof.
  unfold cleanup, bind, path_exists.
  destruct (fs !! filepath) as [[content|]|] eqn:Hlook.
  - rewrite bool_decide_eq_true_2 by eauto.
    unfold try_except_class, os_remove. rewrite Hlook.
    now destruct (remove_fault filepath).
  - rewrite bool_decide_eq_true_2 by eauto.
    unfold try_except_class, os_remove. now rewrite Hlook.
  - rewrite bool_decide_eq_false_2 by (intros [x Hx]; discriminate Hx). reflexivity.
Qed.

(** The handler on an upload whose name ends in [.pdf]. *)
Lemma upload_pdf_run req file (fs : gmap string node) :
  assoc_get "file" (files req) = Some file ->
  endswith (lower (filename file)) ".pdf" = true ->
  let filepath := path_join UPLOAD_FOLDER (filename file) in
  let s1 := snd (file_save disk_fault file filepath fs) in
  exists resp,
    upload_and_index_pdf fitz_parse get_text disk_fault remove_fault WEB_AI_INDEX_PATH req fs
    = (Ok resp, match s1 !! filepath with
                | Some (File _) =>
                    match remove_fault filepath with
                    | Some _ => s1
                    | None => delete filepath s1
                    end
                | _ => s1
                end)
    /\ fst (process_upload fitz_parse get_text disk_fault WEB_AI_INDEX_PATH file filepath fs)
       = Ok resp
    /\ (status resp = 200%Z \/ status resp = 500%Z).
Proof.
  intros Hfile Hpdf filepath s1. unfold upload_and_index_pdf. rewrite Hfile.
  destruct (String.eqb_spec (filename file) "") as [Hempty|Hname].
  { rewrite Hempty in Hpdf. discriminate Hpdf. }
  rewrite Hpdf. cbn [negb andb]. fold filepath.
  destruct (process_upload_run file filepath fs) as (resp & Hrun & Hstatus).
  exists resp. split; [|split; [now rewrite Hrun|exact Hstatus]].
  unfold try_finally. rewrite Hrun. fold s1. now rewrite cleanup_run.
Qed.

(** C10, as amended.  A request without a file part, with an empty file
    name or with a name that does not end in [.pdf] (in any case of the
    letters) is answered with status 400 and leaves the disk as it was.
    For a name that ends in [.pdf] the handler answers 200 or 500, the
    answer of the processing alone, and on every exit it tries to remove
    what is at the path it saved to.  When [os.remove] does not fail, no
    file is left there, whether the processing succeeded or raised; when
    it fails with [OSError], the disk is as the save left it, so a saved
    upload stays.  Every other path is untouched. *)
Theorem upload_and_index_pdf_spec (req : request) (fs : gmap string node) :
  let out := upload_and_index_pdf fitz_parse get_text disk_fault remove_fault
               WEB_AI_INDEX_PATH req fs in
  (assoc_get "file" (files req) = None ->
   out = (Ok (error_response "No file part in the request" 400), fs))
  /\ (forall file,
        assoc_get "file" (files req) = Some file ->
        filename file = "" ->
        out = (Ok (error_response "No selected file" 400), fs))
  /\ (forall file,
        assoc_get "file" (files req) = Some file ->
        filename file <> "" ->
        endswith (lower (filename file)) ".pdf" = false ->
        out = (Ok (error_response "Invalid file type. Only PDF files are allowed." 400), fs))
  /\ (forall file,
        assoc_get "file" (files req) = Some file ->
        endswith (lower (filename file)) ".pdf" = true ->
        let filepath := path_join UPLOAD_FOLDER (filename file) in
        (exists resp,
           fst out = Ok resp
           /\ fst (process_upload fitz_parse get_text disk_fault WEB_AI_INDEX_PATH
                     file filepath fs) = Ok resp
           /\ (status resp = 200%Z \/ status resp = 500%Z))
        /\ (remove_fault filepath = None ->
            (forall content, snd out !! filepath <> Some (File content))
            /\ (fs !! filepath <> Some Dir -> snd out = delete filepath fs))
        /\ (forall msg,
              remove_fault filepath = Some msg ->
              snd out = snd (file_save disk_fault file filepath fs)
              /\ (fs !! filepath <> Some Dir -> disk_fault filepath = None ->
                  snd out = <[filepath := File (stream file)]> fs))
        /\ (forall p, p <> filepath -> snd out !! p = fs !! p)).
Proof.
  intros out. split; [|split; [|split]].
  - intros Hfile. subst out. unfold upload_and_index_pdf. now rewrite Hfile.
  - intros file Hfile Hempty. subst out. unfold upload_and_index_pdf.
    rewrite Hfile, Hempty. reflexivity.
  - intros file Hfile Hname Hext. subst out. unfold upload_and_index_pdf. rewrite Hfile.
    destruct (String.eqb_spec (filename file) "") as [Hempty|_]; [contradiction|].
    rewrite Hext. reflexivity.
  - intros file Hfile Hpdf filepath.
    destruct (upload_pdf_run req file fs Hfile Hpdf) as (resp & Hrun & Hanswer & Hstatus).
    fold filepath in Hrun, Hanswer. subst out. rewrite Hrun. cbn [fst snd].
    assert (Hsave : fs !! filepath <> Some Dir -> disk_fault filepath = None ->
                    snd (file_save disk_fault file filepath fs)
                    = <[filepath := File (stream file)]> fs).
    { intros Hnodir Hfault. unfold file_save. rewrite Hfault.
      destruct (fs !! filepath) as [[c|]|]; try reflexivity. now contradiction Hnodir. }
    destruct (file_save_state file filepath fs) as [Hdir Hsaved].
    set (s1 := snd (file_save disk_fault file filepath fs)) in *.
    split; [eauto|].
    destruct Hsaved as [Hs1|[content Hs1]]; rewrite Hs1.
    + destruct (fs !! filepath) as [[c|]|] eqn:Hlook.
      * destruct (remove_fault filepath) as [msg|] eqn:Hremove.
        -- split; [discriminate|]. split; [|reflexivity].
           intros msg' _. split; [reflexivity|]. intros Hnodir Hfault.
           transitivity s1; [now symmetry|now apply Hsave].
        -- split; [intros _; split;
                    [intros content; rewrite lookup_delete_eq; discriminate|reflexivity]|].
           split; [discriminate|]. intros p Hp. now rewrite lookup_delete_ne.
      * split; [intros _; split;
                 [intros content; rewrite Hlook; discriminate|intros H; now contradiction H]|].
        split; [|reflexivity]. intros msg _. split; [reflexivity|].
        intros H. now contradiction H.
      * split; [intros _; split;
                 [intros content; rewrite Hlook; discriminate|
                  intros _; symmetry; now apply delete_id]|].
        split; [|reflexivity]. intros msg _. split; [reflexivity|].
        intros Hnodir Hfault. transitivity s1; [now symmetry|now apply Hsave].
    + rewrite lookup_insert_eq.
      destruct (remove_fault filepath) as [msg|] eqn:Hremove.
      * split; [discriminate|]. split.
        -- intros msg' _. split; [reflexivity|]. intros Hnodir Hfault.
           transitivity s1; [now symmetry|now apply Hsave].
        -- intros p Hp. now rewrite lookup_insert_ne.
      * split; [intros _; split;
                 [intros c; rewrite lookup_delete_eq; discriminate|
                  intros _; apply delete_insert_eq]|].
        split; [discriminate|].
        intros p Hp. now rewrite lookup_delete_ne, lookup_insert_ne.
Qed.

End WithServices.

(** Uploads against the toy PyMuPDF: a request without a file, a text
    file, and three PDFs (one good, one broken, one cut short by a full
    disk) on a disk whose files can be removed, none of which is left
    behind; and a good PDF in a folder whose files cannot be removed,
    which stays. *)
Lemma upload_and_index_pdf_spec_witness :
  upload_and_index_pdf toy_parse toy_get_text no_fault removable (Some "/index")
    {| files := [] |} ∅
    = (Ok (error_response "No file part in the request" 400), ∅)
  /\ upload_and_index_pdf toy_parse toy_get_text no_fault removable (Some "/index")
       (upload_of "" "") ∅
     = (Ok (error_response "No selected file" 400), ∅)
  /\ upload_and_index_pdf toy_parse toy_get_text no_fault removable (Some "/index")
       (upload_of "notes.txt" "hello") ∅
     = (Ok (error_response "Invalid file type. Only PDF files are allowed." 400), ∅)
  /\ snd (upload_and_index_pdf toy_parse toy_get_text no_fault removable (Some "/index")
            (upload_of "Report.PDF" "%PDF-1.4 incident") ∅)
     = delete "/tmp/pdf_uploads/Report.PDF" ∅
  /\ snd (upload_and_index_pdf toy_parse toy_get_text no_fault removable (Some "/index")
            (upload_of "broken.pdf" "not a pdf") ∅)
     = delete "/tmp/pdf_uploads/broken.pdf" ∅
  /\ snd (upload_and_index_pdf toy_parse toy_get_text disk_full removable (Some "/index")
            (upload_of "big.pdf" "%PDF-1.4 a very long report") ∅)
     = delete "/tmp/pdf_uploads/big.pdf" ∅
  /\ snd (upload_and_index_pdf toy_parse toy_get_text no_fault remove_denied (Some "/index")
            (upload_of "Report.PDF" "%PDF-1.4 incident") ∅)
     = <["/tmp/pdf_uploads/Report.PDF" := File "%PDF-1.4 incident"]> ∅.
Proof.
  split; [|split; [|split; [|split; [|split; [|split]]]]].
  - apply (upload_and_index_pdf_spec toy_parse toy_get_text no_fault removable (Some "/index")
             {| files := [] |} ∅).
    reflexivity.
  - apply (upload_and_index_pdf_spec toy_parse toy_get_text no_fault removable (Some "/index")
             (upload_of "" "") ∅) with (file := {| filename := ""; stream := "" |});
      reflexivity.
  - apply (upload_and_index_pdf_spec toy_parse toy_get_text no_fault removable (Some "/index")
             (upload_of "notes.txt" "hello") ∅)
      with (file := {| filename := "notes.txt"; stream := "hello" |});
      [reflexivity|discriminate|reflexivity].
  - destruct (upload_and_index_pdf_spec toy_parse toy_get_text no_fault removable
                (Some "/index") (upload_of "Report.PDF" "%PDF-1.4 incident") ∅)
      as (_ & _ & _ & H).
    destruct (H {| filename := "Report.PDF"; stream := "%PDF-1.4 incident" |}
                eq_refl eq_refl) as (_ & Hgone & _).
    apply (Hgone eq_refl). rewrite lookup_empty. discriminate.
  - destruct (upload_and_index_pdf_spec toy_parse toy_get_text no_fault removable
                (Some "/index") (upload_of "broken.pdf" "not a pdf") ∅)
      as (_ & _ & _ & H).
    destruct (H {| filename := "broken.pdf"; stream := "not a pdf" |}
                eq_refl eq_refl) as (_ & Hgone & _).
    apply (Hgone eq_refl). rewrite lookup_empty. discriminate.
  - destruct (upload_and_index_pdf_spec toy_parse toy_get_text disk_full removable
                (Some "/index") (upload_of "big.pdf" "%PDF-1.4 a very long report") ∅)
      as (_ & _ & _ & H).
    destruct (H {| filename := "big.pdf"; stream := "%PDF-1.4 a very long report" |}
                eq_refl eq_refl) as (_ & Hgone & _).
    apply (Hgone eq_refl). rewrite lookup_empty. discriminate.
  - destruct (upload_and_index_pdf_spec toy_parse toy_get_text no_fault remove_denied
                (Some "/index") (upload_of "Report.PDF" "%PDF-1.4 incident") ∅)
      as (_ & _ & _ & H).
    destruct (H {| filename := "Report.PDF"; stream := "%PDF-1.4 incident" |}
                eq_refl eq_refl) as (_ & _ & Hleft & _).
    destruct (Hleft "[Errno 13] Permission denied: '/tmp/pdf_uploads/Report.PDF'" eq_refl)
      as (_ & Hstays).
    apply Hstays; [rewrite lookup_empty; discriminate|reflexivity].
Defined.

(** C10 as the claim words it fails where files cannot be removed: the
    upload is processed and answered with 200, [os.remove] raises, the
    handler prints the error and returns, and the saved file is still at
    its path. *)
Lemma upload_and_index_pdf_file_left_counterexample :
  let out := upload_and_index_pdf toy_parse toy_get_text no_fault remove_denied
               (Some "/index") (upload_of "Report.PDF" "%PDF-1.4 incident") ∅ in
  fst out = Ok (message_response
                  "PDF processed and text extracted. WebAI index update attempted." 200)
  /\ ~ (forall content, snd out !! "/tmp/pdf_uploads/Report.PDF" <> Some (File content)).
Proof.
  split; [vm_compute; reflexivity|].
  intros Hgone. apply (Hgone "%PDF-1.4 incident").
  assert (Hrun :
    snd (upload_and_index_pdf toy_parse toy_get_text no_fault remove_denied
           (Some "/index") (upload_of "Report.PDF" "%PDF-1.4 incident") ∅)
    = <["/tmp/pdf_uploads/Report.PDF" := File "%PDF-1.4 incident"]> ∅).
  { unfold upload_and_index_pdf, upload_of. cbn [files assoc_get String.eqb Ascii.eqb].
    reflexivity. }
  rewrite Hrun. apply lookup_insert_eq.
Qed.

(** The answers to the three PDF uploads of the witness, and to a good
    upload on a server without an index path. *)
Example upload_and_index_pdf_answers :
  fst (upload_and_index_pdf toy_parse toy_get_text no_fault removable (Some "/index")
         (upload_of "Report.PDF" "%PDF-1.4 incident") ∅)
    = Ok (message_response
            "PDF processed and text extracted. WebAI index update attempted." 200)
  /\ fst (upload_and_index_pdf toy_parse toy_get_text no_fault removable (Some "/index")
            (upload_of "broken.pdf" "not a pdf") ∅)
     = Ok (error_response "Error processing PDF: cannot open broken document" 500)
  /\ fst (upload_and_index_pdf toy_parse toy_get_text disk_full removable (Some "/index")
            (upload_of "big.pdf" "%PDF-1.4 a very long report") ∅)
     = Ok (error_response "Error processing PDF: No space left on device" 500)
  /\ fst (upload_and_index_pdf toy_parse toy_get_text no_fault removable None
            (upload_of "Report.PDF" "%PDF-1.4 incident") ∅)
     = Ok (error_response "WebAI index path not configured on the server." 500).
Proof. vm_compute. repeat split. Qed.

End PdfProcessorSpec.


(** ** llm_handler.py, further properties *)

Module LLMHandlerMore.
Import Py Process LLMHandler LLMHandlerNotions LLMHandlerMoreNotions.
Import PyFacts TenacityFacts LLMHandlerFacts.

Section WithServices.
Variable svc : services.

Lemma __init___anthropic provider_arg model_name w :
  eq_nocase provider_arg "anthropic" ->
  __init__ svc provider_arg model_name w = _init_anthropic "anthropic" model_name w.
Proof.
  unfold eq_nocase. change (lower "anthropic") with "anthropic". intros H.
  unfold __init__. rewrite try_except_reraise, H. reflexivity.
Qed.

Lemma __init___openai provider_arg model_name w :
  eq_nocase provider_arg "openai" ->
  __init__ svc provider_arg model_name w = _init_openai svc "openai" model_name w.
Proof.
  unfold eq_nocase. change (lower "openai") with "openai". intros H.
  unfold __init__. rewrite try_except_reraise, H. reflexivity.
Qed.

Lemma __init___ollama provider_arg model_name w :
  eq_nocase provider_arg "ollama" ->
  __init__ svc provider_arg model_name w = _init_ollama svc "ollama" model_name w.
Proof.
  unfold eq_nocase. change (lower "ollama") with "ollama". intros H.
  unfold __init__. rewrite try_except_reraise, H. reflexivity.
Qed.

(** X1.  An Anthropic handler is constructed without contacting any
    service.  With a non-empty [ANTHROPIC_API_KEY] the constructor succeeds
    for every model name, listed in [SUPPORTED_MODELS] or not; a non-empty
    [model_name] is the model, otherwise [ANTHROPIC_MODEL] when set, otherwise
    the default.  Without the key it raises [ValueError]. *)
Theorem __init___anthropic_offline provider_arg model_name w :
  eq_nocase provider_arg "anthropic" ->
  snd (__init__ svc provider_arg model_name w) = w
  /\ (forall k,
        environ w !! "ANTHROPIC_API_KEY" = Some k -> k <> "" ->
        exists h,
          fst (__init__ svc provider_arg model_name w) = Ok h
          /\ provider h = "anthropic"
          /\ api_key h = Some k
          /\ client h = Some (Anthropic k)
          /\ (forall m, model_name = Some m -> m <> "" -> model h = m)
          /\ (model_name = None \/ model_name = Some "" ->
              model h = default "claude-3-opus-20240229" (environ w !! "ANTHROPIC_MODEL")))
  /\ (environ w !! "ANTHROPIC_API_KEY" = None \/ environ w !! "ANTHROPIC_API_KEY" = Some "" ->
      fst (__init__ svc provider_arg model_name w)
      = Raise (ValueError "ANTHROPIC_API_KEY environment variable is not set")).
Proof.
  intros Hp. rewrite (__init___anthropic _ _ _ Hp).
  unfold _init_anthropic, bind, getenv, getenv_default, raise, ret.
  split; [|split].
  - destruct (environ w !! "ANTHROPIC_API_KEY") as [k|]; cbn [truthy negb]; [|reflexivity].
    now destruct (String.eqb k "").
  - intros k -> Hk. cbn [truthy]. apply String.eqb_neq in Hk. rewrite Hk. cbn [negb].
    eexists. split; [reflexivity|]. cbn [provider api_key client model].
    change (default "" (Some k)) with k. repeat split.
    + intros m -> Hm. cbn [or_default]. apply String.eqb_neq in Hm. now rewrite Hm.
    + intros [->| ->]; reflexivity.
  - intros [->| ->]; reflexivity.
Qed.

(** X2.  An OpenAI handler is constructed only after one [models.list()]
    call succeeded.  Without a non-empty [OPENAI_API_KEY] the constructor
    raises [ValueError] before contacting anything; when [models.list()]
    raises, the constructor raises [ConnectionError] whose message ends
    with the text of that exception. *)
Theorem __init___openai_connection provider_arg model_name w :
  eq_nocase provider_arg "openai" ->
  (environ w !! "OPENAI_API_KEY" = None \/ environ w !! "OPENAI_API_KEY" = Some "" ->
   __init__ svc provider_arg model_name w
   = (Raise (ValueError "OPENAI_API_KEY environment variable is not set"), w))
  /\ (forall k,
        environ w !! "OPENAI_API_KEY" = Some k -> k <> "" ->
        snd (__init__ svc provider_arg model_name w) = after (OpenAIModelsList k) w
        /\ (forall e,
              openai_models_list svc (clock w) k = Raise e ->
              fst (__init__ svc provider_arg model_name w)
              = Raise (ConnectionError ("Failed to connect to OpenAI API: " +:+ exn_str e)))
        /\ (openai_models_list svc (clock w) k = Ok tt ->
            exists h,
              fst (__init__ svc provider_arg model_name w) = Ok h
              /\ provider h = "openai" /\ client h = Some (OpenAI k))).
Proof.
  intros Hp. rewrite (__init___openai _ _ _ Hp).
  unfold _init_openai, bind, getenv, getenv_default, try_except, call, raise, ret, after.
  split.
  - intros [->| ->]; reflexivity.
  - intros k -> Hk. cbn [truthy]. apply String.eqb_neq in Hk. rewrite Hk. cbn [negb].
    change (default "" (Some k)) with k.
    destruct (openai_models_list svc (clock w) k) as [[]|e]; cbv beta iota.
    + split; [reflexivity|]. split; [discriminate|]. intros _. eexists. now split.
    + split; [reflexivity|]. split; [|discriminate]. now intros e' [= <-].
Qed.

(** Whatever the tag request brings, [_init_ollama] makes that one request
    and raises nothing but [ConnectionError]. *)
Lemma split_head_no_sep sep s : contains_char sep (split_head sep s) = false.
Proof.
  induction s as [|c s IH]; [reflexivity|]. cbn [split_head].
  destruct (Ascii.eqb c sep) eqn:Hc; [reflexivity|]. cbn [contains_char]. now rewrite Hc.
Qed.

(** The loop over the tag list leaves the world alone, and every name it
    collects is free of [":"]. *)
Lemma tag_names_fold entries :
  forall acc (s : World),
    exists r,
      for_fold (fun acc entry => bind (tag_name entry) (fun n => ret (acc ++ [n]))) entries acc s
      = (r, s)
      /\ forall l, r = Ok l ->
                   exists names,
                     l = acc ++ names
                     /\ Forall (fun n => contains_char ":" n = false) names.
Proof.
  induction entries as [|entry entries IH]; intros acc s.
  - eexists. split; [reflexivity|]. intros l [= <-]. exists []. now rewrite app_nil_r.
  - cbn [for_fold]. unfold bind at 1. unfold bind at 1, tag_name.
    destruct entry as [| | | | | |fs];
      try (eexists; split; [reflexivity|discriminate]).
    destruct (assoc_get "name" fs) as [[| | | |n| |]|];
      try (eexists; split; [reflexivity|discriminate]).
    unfold ret at 1.
    destruct (IH (acc ++ [split_head ":" n]) s) as (r & Hr & Hnames).
    exists r. split; [exact Hr|]. intros l Hl.
    destruct (Hnames l Hl) as (names & -> & Hall).
    exists (split_head ":" n :: names). split; [now rewrite <- app_assoc|].
    constructor; [apply split_head_no_sep|assumption].
Qed.

Lemma available_models_outcome response (s : World) :
  exists r,
    available_models response s = (r, s)
    /\ forall l, r = Ok l -> Forall (fun n => contains_char ":" n = false) l.
Proof.
  unfold available_models. unfold bind at 1, response_json.
  destruct (json_body response) as [j|]; [|eexists; split; [reflexivity|discriminate]].
  unfold ret at 1.
  destruct j as [| | | | | |fields]; try (eexists; split; [reflexivity|discriminate]).
  destruct (default (JArr []) (assoc_get "models" fields)) as [| | | | |entries|];
    try (eexists; split; [reflexivity|discriminate]).
  destruct (tag_names_fold entries [] s) as (r & Hr & Hnames).
  exists r. split; [exact Hr|]. intros l Hl.
  destruct (Hnames l Hl) as (names & -> & Hall). exact Hall.
Qed.

(** The goal left by a branch that ended in [ConnectionError]. *)
Local Ltac raised_connection_error :=
  eexists; split; [reflexivity | intros ? [= <-]; eauto].

(** Whatever the tag request brings, [_init_ollama] makes that one request
    and raises nothing but [ConnectionError]. *)
Lemma _init_ollama_outcome p model_name w :
  exists r,
    _init_ollama svc p model_name w = (r, after (HttpGet OLLAMA_TAGS_URL) w)
    /\ forall e, r = Raise e -> exists msg, e = ConnectionError msg.
Proof.
  unfold _init_ollama. unfold bind at 1, getenv_default.
  unfold bind at 1, try_except.
  set (m := or_default model_name (default "llama3.1" (environ w !! "OLLAMA_MODEL"))).
  unfold bind at 1, call. fold (after (HttpGet OLLAMA_TAGS_URL) w).
  destruct (requests_get svc (clock w) OLLAMA_TAGS_URL) as [response|e0];
    [|raised_connection_error].
  destruct (negb (status_code response =? 200)%Z); [raised_connection_error|].
  unfold bind at 1.
  destruct (available_models_outcome response (after (HttpGet OLLAMA_TAGS_URL) w))
    as (r & -> & _).
  destruct r as [available|e1]; [|raised_connection_error].
  destruct (negb (existsb (String.eqb m) available)); unfold raise, ret;
    [raised_connection_error|].
  eexists. split; [reflexivity|discriminate].
Qed.

(** X3.  Constructing a handler for the local model server makes exactly
    one request, the GET of the tag list, and the only exception it can
    raise is [ConnectionError]: a missing model, reported inside as
    [ValueError], reaches the caller as [ConnectionError] too. *)
Theorem __init___ollama_only_connection_error provider_arg model_name w :
  eq_nocase provider_arg "ollama" ->
  snd (__init__ svc provider_arg model_name w) = after (HttpGet OLLAMA_TAGS_URL) w
  /\ forall e, fst (__init__ svc provider_arg model_name w) = Raise e ->
               exists msg, e = ConnectionError msg.
Proof.
  intros Hp. rewrite (__init___ollama _ _ _ Hp).
  destruct (_init_ollama_outcome "ollama" model_name w) as (r & -> & Honly).
  split; [reflexivity|exact Honly].
Qed.

End WithServices.

Lemma __init___anthropic_offline_witness :
  snd (__init__ down_services "Anthropic" (Some "my-own-model") anthropic_world)
    = anthropic_world
  /\ exists h,
       fst (__init__ down_services "Anthropic" (Some "my-own-model") anthropic_world) = Ok h
       /\ model h = "my-own-model".
Proof.
  destruct (__init___anthropic_offline down_services "Anthropic" (Some "my-own-model")
              anthropic_world eq_refl) as (Hworld & Hok & _).
  split; [exact Hworld|].
  destruct (Hok "sk-ant-test" eq_refl ltac:(discriminate)) as (h & Hh & _ & _ & _ & Hm & _).
  exists h. split; [exact Hh|]. apply Hm; [reflexivity|discriminate].
Defined.

Lemma __init___openai_connection_witness :
  __init__ local_services "openai" None empty_world
    = (Raise (ValueError "OPENAI_API_KEY environment variable is not set"), empty_world)
  /\ fst (__init__ local_services "OPENAI" None openai_world)
     = Raise (ConnectionError "Failed to connect to OpenAI API: 401 Unauthorized").
Proof.
  split.
  - destruct (__init___openai_connection local_services "openai" None empty_world eq_refl)
      as (H & _).
    apply H. left. reflexivity.
  - destruct (__init___openai_connection local_services "OPENAI" None openai_world eq_refl)
      as (_ & H).
    destruct (H "sk-test" eq_refl ltac:(discriminate)) as (_ & Hfail & _).
    apply (Hfail (Exception "401 Unauthorized")). reflexivity.
Defined.

Lemma __init___ollama_only_connection_error_witness :
  snd (__init__ local_services "Ollama" (Some "mistral") empty_world)
    = after (HttpGet OLLAMA_TAGS_URL) empty_world
  /\ exists msg,
       fst (__init__ local_services "Ollama" (Some "mistral") empty_world)
       = Raise (ConnectionError msg).
Proof.
  destruct (__init___ollama_only_connection_error local_services "Ollama" (Some "mistral")
              empty_world eq_refl) as (Hworld & Honly).
  split; [exact Hworld|].
  destruct (Honly (ConnectionError
                     ("Failed to connect to Ollama service: Model mistral not available in Ollama. Available models: ['llama3.1', 'deepseek-r1']")))
    as (msg & Hmsg).
  - vm_compute. reflexivity.
  - eexists. vm_compute. reflexivity.
Defined.

End LLMHandlerMore.

Module LLMHandlerMore2.
Import Py Process LLMHandler LLMHandlerNotions LLMHandlerMoreNotions.
Import PyFacts TenacityFacts LLMHandlerFacts LLMHandlerMore.

Section WithServices.
Variable svc : services.

(** The model of a handler that [_init_ollama] returned was found in the
    tag list, whose names carry no [":"]. *)
Lemma _init_ollama_ok_model p model_name w h w' :
  _init_ollama svc p model_name w = (Ok h, w') ->
  model h = or_default model_name (default "llama3.1" (environ w !! "OLLAMA_MODEL"))
  /\ contains_char ":" (model h) = false.
Proof.
  unfold _init_ollama. unfold bind at 1, getenv_default.
  unfold bind at 1, try_except.
  set (m := or_default model_name (default "llama3.1" (environ w !! "OLLAMA_MODEL"))).
  unfold bind at 1, call. fold (after (HttpGet OLLAMA_TAGS_URL) w).
  destruct (requests_get svc (clock w) OLLAMA_TAGS_URL) as [response|e0]; [|discriminate].
  destruct (negb (status_code response =? 200)%Z); [discriminate|].
  unfold bind at 1.
  destruct (available_models_outcome response (after (HttpGet OLLAMA_TAGS_URL) w))
    as (r & -> & Hnames).
  destruct r as [available|e1]; [|discriminate].
  destruct (existsb (String.eqb m) available) eqn:Hfound; cbn [negb]; [|discriminate].
  unfold ret. intros [= <- <-]. cbn [model]. split; [reflexivity|].
  apply existsb_exists in Hfound as (n & Hin & Heq). apply String.eqb_eq in Heq. subst n.
  specialize (Hnames available eq_refl). rewrite Forall_forall in Hnames.
  apply Hnames. now apply list_elem_of_In.
Qed.

(** X4.  A model name that carries a tag, such as [llama3.1:latest], never
    matches the local server's models, whose names are compared without
    their tags: the constructor raises [ConnectionError] whatever the
    server answers. *)
Theorem __init___ollama_tagged_model_rejected provider_arg m w :
  eq_nocase provider_arg "ollama" ->
  contains_char ":" m = true ->
  exists msg, fst (__init__ svc provider_arg (Some m) w) = Raise (ConnectionError msg).
Proof.
  intros Hp Hcolon. rewrite (__init___ollama _ _ _ _ Hp).
  destruct (_init_ollama svc "ollama" (Some m) w) as [[h|e] w'] eqn:Hrun.
  - apply _init_ollama_ok_model in Hrun as [Hmodel Hfree].
    assert (Hm : m <> "") by (intros ->; discriminate Hcolon).
    rewrite Hmodel in Hfree. cbn [or_default] in Hfree.
    apply String.eqb_neq in Hm. rewrite Hm in Hfree. congruence.
  - destruct (_init_ollama_outcome svc "ollama" (Some m) w) as (r & Hr & Honly).
    rewrite Hrun in Hr. injection Hr as <- _.
    destruct (Honly e eq_refl) as [msg ->]. eauto.
Qed.

(** The names of a well-formed tag list. *)
Lemma tag_names_ok entries names :
  Forall2 (fun entry n => exists fs, entry = JObj fs /\ assoc_get "name" fs = Some (JStr n))
          entries names ->
  forall acc (s : World),
    for_fold (fun acc entry => bind (tag_name entry) (fun n => ret (acc ++ [n]))) entries acc s
    = (Ok (acc ++ map (split_head ":") names), s).
Proof.
  induction 1 as [|entry n entries names (fs & -> & Hname) _ IH]; intros acc s.
  - cbn. now rewrite app_nil_r.
  - cbn [for_fold]. unfold bind at 1. unfold bind at 1, tag_name at 1. rewrite Hname.
    change (for_fold (fun acc0 entry => bind (tag_name entry) (fun n0 => ret (acc0 ++ [n0])))
                     entries (acc ++ [split_head ":" n]) s
            = (Ok (acc ++ map (split_head ":") (n :: names)), s)).
    rewrite IH. cbn [map]. now rewrite <- app_assoc.
Qed.

(** X5.  When the local server answers the tag request with status 200
    and a list of named models, and the chosen model equals the part
    before [":"] of one of the names, the constructor returns a handler
    for that model, with no client and no API key. *)
Theorem __init___ollama_model_found
    provider_arg model_name w response fields entries names :
  eq_nocase provider_arg "ollama" ->
  requests_get svc (clock w) OLLAMA_TAGS_URL = Ok response ->
  status_code response = 200%Z ->
  json_body response = Some (JObj fields) ->
  assoc_get "models" fields = Some (JArr entries) ->
  Forall2 (fun entry n => exists fs, entry = JObj fs /\ assoc_get "name" fs = Some (JStr n))
          entries names ->
  let m := or_default model_name (default "llama3.1" (environ w !! "OLLAMA_MODEL")) in
  (exists n, n ∈ names /\ split_head ":" n = m) ->
  fst (__init__ svc provider_arg model_name w)
  = Ok {| provider := "ollama"; api_key := None; client := None; model := m |}.
Proof.
  intros Hp Hget Hstatus Hbody Hmodels Hentries m (n & Hin & Hn).
  rewrite (__init___ollama _ _ _ _ Hp).
  unfold _init_ollama. unfold bind at 1, getenv_default.
  unfold bind at 1, try_except. fold m.
  unfold bind at 1, call. rewrite Hget, Hstatus. cbn [Z.eqb Pos.eqb negb].
  unfold bind at 1, available_models. unfold bind at 1, response_json.
  rewrite Hbody. unfold ret at 1. rewrite Hmodels. cbn [default from_option id].
  rewrite (tag_names_ok entries names Hentries). cbn [app].
  assert (Hfound : existsb (String.eqb m) (map (split_head ":") names) = true).
  { apply existsb_exists. exists (split_head ":" n). split.
    - apply in_map. now apply list_elem_of_In.
    - rewrite Hn. apply String.eqb_refl. }
  rewrite Hfound. reflexivity.
Qed.

(** The first document without a ['text'] entry stops the comprehension. *)
Lemma doc_texts_missing before bad rest :
  Forall (fun d : gmap string value => is_Some (d !! "text")) before ->
  bad !! "text" = None ->
  forall (w : World), doc_texts (before ++ bad :: rest) w = (Raise (KeyError "text"), w).
Proof.
  intros Hbefore Hbad w. unfold doc_texts.
  enough (Hloop : forall acc,
            for_fold (fun acc doc => bind (getitem doc "text") (fun v => ret (acc ++ [v])))
                     (before ++ bad :: rest) acc w
            = (Raise (KeyError "text"), w)) by apply Hloop.
  induction Hbefore as [|d before [v Hv] _ IH]; intros acc.
  - cbn [app for_fold]. unfold bind at 1. unfold bind at 1, getitem at 1. now rewrite Hbad.
  - cbn [app for_fold]. unfold bind at 1. unfold bind at 1, getitem at 1. rewrite Hv.
    apply (IH (acc ++ [v])).
Qed.

(** X6.  When a context document has no ['text'] entry, no backend is
    contacted: every attempt fails while the prompt is built, and after
    two pauses of four seconds the caller gets [RetryError] around
    [KeyError('text')]. *)
Theorem generate_response_missing_text h query before bad rest max_tokens w :
  Forall (fun d : gmap string value => is_Some (d !! "text")) before ->
  bad !! "text" = None ->
  generate_response svc h query (before ++ bad :: rest) max_tokens w
  = (Raise (RetryError (KeyError "text")),
     {| environ := environ w; clock := clock w; trace := trace w ++ [Sleep 4; Sleep 4] |}).
Proof.
  intros Hbefore Hbad.
  assert (Hbody : forall w', generate_response_body svc h query (before ++ bad :: rest)
                               max_tokens w' = (Raise (KeyError "text"), w')).
  { intros w'. unfold generate_response_body. rewrite try_except_reraise.
    unfold bind at 1. now rewrite (doc_texts_missing before bad rest Hbefore Hbad). }
  unfold generate_response. rewrite retry_3_unrolled, !wait_exponential_1_4_10, !Hbody.
  unfold sleep. cbn [environ clock trace]. now rewrite <- app_assoc.
Qed.

Lemma generate_response_body_ollama_run h query docs max_tokens w :
  provider h = "ollama" -> Forall has_text docs ->
  generate_response_body svc h query docs max_tokens w
  = _generate_ollama svc h (build_prompt (join nl (map text_of docs)) query) max_tokens w.
Proof.
  intros Hp Hdocs. unfold generate_response_body. rewrite try_except_reraise.
  rewrite (bind_ok _ _ w _ w (doc_texts_ok docs w Hdocs)).
  rewrite <- (map_map text_of VStr docs).
  rewrite (bind_ok _ _ w _ w (str_join_ok nl (map text_of docs) w)).
  rewrite Hp. reflexivity.
Qed.

(** X7.  One attempt against the local model server.  A transport error
    is raised as it is; a status other than 200 raises [Exception] with
    the text of the reply; a 200 reply that is not JSON raises the decoding
    error; a 200 reply whose object has no ['response'] entry yields the
    empty string, and one that has a string there yields that string. *)
Theorem generate_response_body_ollama h query docs max_tokens w :
  provider h = "ollama" -> Forall has_text docs ->
  let prompt := build_prompt (join nl (map text_of docs)) query in
  let request := ollama_body h prompt max_tokens in
  let out := generate_response_body svc h query docs max_tokens w in
  (forall e, requests_post svc (clock w) OLLAMA_GENERATE_URL request = Raise e ->
             fst out = Raise e)
  /\ (forall r, requests_post svc (clock w) OLLAMA_GENERATE_URL request = Ok r ->
                status_code r <> 200%Z ->
                fst out = Raise (Exception ("Ollama API error: " +:+ text r)))
  /\ (forall r, requests_post svc (clock w) OLLAMA_GENERATE_URL request = Ok r ->
                status_code r = 200%Z -> json_body r = None ->
                fst out = Raise JSONDecodeError)
  /\ (forall r fields,
        requests_post svc (clock w) OLLAMA_GENERATE_URL request = Ok r ->
        status_code r = 200%Z -> json_body r = Some (JObj fields) ->
        (assoc_get "response" fields = None -> fst out = Ok (VStr ""))
        /\ (forall s, assoc_get "response" fields = Some (JStr s) -> fst out = Ok (VStr s))).
Proof.
  intros Hp Hdocs prompt request out. subst out.
  rewrite (generate_response_body_ollama_run h query docs max_tokens w Hp Hdocs).
  fold prompt. unfold _generate_ollama. fold request.
  unfold bind, call, response_json, raise, ret.
  destruct (requests_post svc (clock w) OLLAMA_GENERATE_URL request) as [r|e].
  - split; [discriminate|]. split; [|split].
    + intros r' [= <-] Hstatus. apply Z.eqb_neq in Hstatus. now rewrite Hstatus.
    + intros r' [= <-] Hstatus Hbody. rewrite Hstatus, Hbody. reflexivity.
    + intros r' fields [= <-] Hstatus Hbody. rewrite Hstatus, Hbody. cbn [Z.eqb Pos.eqb fst].
      split; [intros ->; reflexivity|intros s ->; reflexivity].
  - split; [now intros e' [= <-]|]. split; [|split]; discriminate.
Qed.

(** X8.  [is_configured] never raises.  For an OpenAI handler it makes
    one [models.list()] call and answers [True] exactly when that call
    succeeds; for the local model server it answers [True] exactly when the
    tag request comes back with status 200. *)
Theorem is_configured_never_raises h w :
  (exists b w', is_configured svc h w = (Ok b, w'))
  /\ (forall k,
        provider h = "openai" -> client h = Some (OpenAI k) ->
        snd (is_configured svc h w) = after (OpenAIModelsList k) w
        /\ (fst (is_configured svc h w) = Ok true
            <-> openai_models_list svc (clock w) k = Ok tt))
  /\ (provider h = "ollama" ->
      (fst (is_configured svc h w) = Ok true
       <-> exists r, requests_get svc (clock w) OLLAMA_TAGS_URL = Ok r
                     /\ status_code r = 200%Z)).
Proof.
  split; [|split].
  - unfold is_configured, try_except.
    match goal with |- context [match ?m w with _ => _ end] => destruct (m w) as [[b|e] w'] end;
      unfold ret; eauto.
  - intros k Hp Hc. unfold is_configured, try_except. rewrite Hp, Hc.
    change (String.eqb "openai" "openai") with true. cbv iota.
    unfold bind, call, ret, after.
    destruct (openai_models_list svc (clock w) k) as [[]|e]; cbn [fst snd].
    + split; [reflexivity|]. split; reflexivity.
    + split; [reflexivity|]. split; discriminate.
  - intros Hp. unfold is_configured, try_except. rewrite Hp.
    change (String.eqb "ollama" "openai") with false.
    change (String.eqb "ollama" "anthropic") with false.
    change (String.eqb "ollama" "ollama") with true. cbv iota.
    unfold bind, call, ret.
    destruct (requests_get svc (clock w) OLLAMA_TAGS_URL) as [r|e]; cbn [fst].
    + split.
      * intros [= H]. exists r. split; [reflexivity|]. now apply Z.eqb_eq.
      * intros (r' & [= <-] & H). apply Z.eqb_eq in H. now rewrite H.
    + split; [discriminate|]. intros (r' & H & _). discriminate H.
Qed.

(** X9.  An Anthropic handler that the constructor returned always counts
    as configured: [is_configured] answers [True] without contacting any
    service, so the key is never verified. *)
Theorem is_configured_anthropic_unchecked provider_arg model_name w0 h w1 w :
  eq_nocase provider_arg "anthropic" ->
  __init__ svc provider_arg model_name w0 = (Ok h, w1) ->
  is_configured svc h w = (Ok true, w).
Proof.
  intros Hp Hinit. rewrite (__init___anthropic _ _ _ _ Hp) in Hinit.
  revert Hinit. unfold _init_anthropic, bind, getenv, getenv_default, raise, ret.
  destruct (environ w0 !! "ANTHROPIC_API_KEY") as [k|]; cbn [truthy negb]; [|discriminate].
  destruct (String.eqb k "") eqn:Hk; cbn [negb]; [discriminate|].
  intros [= <- _]. unfold is_configured, try_except. cbn [provider api_key].
  change (String.eqb "anthropic" "openai") with false.
  change (String.eqb "anthropic" "anthropic") with true. cbv iota.
  change (default "" (Some k)) with k. unfold ret. cbn [truthy]. now rewrite Hk.
Qed.

End WithServices.

Lemma __init___ollama_tagged_model_rejected_witness :
  exists msg,
    fst (__init__ local_services "ollama" (Some "llama3.1:latest") empty_world)
    = Raise (ConnectionError msg).
Proof.
  apply (__init___ollama_tagged_model_rejected local_services "ollama" "llama3.1:latest"
           empty_world); reflexivity.
Defined.

Lemma __init___ollama_model_found_witness :
  fst (__init__ local_services "ollama" None empty_world) = Ok ollama_handler.
Proof.
  apply (__init___ollama_model_found local_services "ollama" None empty_world
           {| status_code := 200; json_body := Some local_tags; text := "{...}" |}
           [("models", JArr [ JObj [("name", JStr "llama3.1:latest")];
                              JObj [("name", JStr "deepseek-r1:7b")] ])]
           [ JObj [("name", JStr "llama3.1:latest")]; JObj [("name", JStr "deepseek-r1:7b")] ]
           ["llama3.1:latest"; "deepseek-r1:7b"]).
  - reflexivity.
  - reflexivity.
  - reflexivity.
  - reflexivity.
  - reflexivity.
  - repeat constructor; eexists; split; reflexivity.
  - exists "llama3.1:latest". split; [constructor|reflexivity].
Defined.

Lemma generate_response_missing_text_witness :
  generate_response down_services openai_handler "What happened?"
    ([ {[ "text" := VStr "Crash on I-35" ]} ] ++ {[ "id" := VStr "doc_1" ]} :: []) 500
    openai_world
  = (Raise (RetryError (KeyError "text")),
     {| environ := environ openai_world; clock := 0; trace := [] ++ [Sleep 4; Sleep 4] |}).
Proof.
  apply (generate_response_missing_text down_services openai_handler "What happened?"
           [ {[ "text" := VStr "Crash on I-35" ]} ] {[ "id" := VStr "doc_1" ]} [] 500
           openai_world).
  - repeat constructor. exists (VStr "Crash on I-35"). apply lookup_singleton_eq.
  - apply lookup_singleton_ne. discriminate.
Defined.

Lemma generate_response_body_ollama_witness :
  fst (generate_response_body local_services ollama_handler "What happened?" sample_docs 500
         empty_world)
    = Raise (Exception "Ollama API error: model runner crashed")
  /\ fst (generate_response_body silent_services ollama_handler "What happened?" sample_docs
            500 empty_world)
     = Ok (VStr "").
Proof.
  assert (Hdocs : Forall has_text sample_docs)
    by (repeat constructor; eexists; apply lookup_singleton_eq).
  split.
  - destruct (generate_response_body_ollama local_services ollama_handler "What happened?"
                sample_docs 500 empty_world eq_refl Hdocs) as (_ & H & _).
    apply (H {| status_code := 500; json_body := None; text := "model runner crashed" |}).
    + reflexivity.
    + discriminate.
  - destruct (generate_response_body_ollama silent_services ollama_handler "What happened?"
                sample_docs 500 empty_world eq_refl Hdocs) as (_ & _ & _ & H).
    destruct (H {| status_code := 200; json_body := Some (JObj [("done", JBool true)]);
                   text := "{...}" |} [("done", JBool true)] eq_refl eq_refl eq_refl)
      as (Hnone & _).
    apply Hnone. reflexivity.
Defined.

Lemma is_configured_never_raises_witness :
  fst (is_configured local_services openai_handler openai_world) = Ok false
  /\ fst (is_configured local_services ollama_handler empty_world) = Ok true.
Proof.
  split.
  - destruct (is_configured_never_raises local_services openai_handler openai_world)
      as ((b & w' & Hrun) & Hopenai & _).
    destruct (Hopenai "sk-test" eq_refl eq_refl) as (_ & Hiff).
    rewrite Hrun in *. cbn [fst] in *. destruct b; [|reflexivity].
    destruct Hiff as [Hcontra _]. discriminate (Hcontra eq_refl).
  - destruct (is_configured_never_raises local_services ollama_handler empty_world)
      as (_ & _ & Hollama).
    apply (Hollama eq_refl).
    exists {| status_code := 200; json_body := Some local_tags; text := "{...}" |}.
    split; reflexivity.
Defined.

Lemma is_configured_anthropic_unchecked_witness :
  is_configured down_services anthropic_handler empty_world = (Ok true, empty_world).
Proof.
  apply (is_configured_anthropic_unchecked down_services "anthropic" None anthropic_world
           anthropic_handler anthropic_world empty_world); reflexivity.
Defined.

End LLMHandlerMore2.


(** ** rag_inference.py, further properties *)

Module RAGInferenceMore.
Import Py Process RAGInference RAGInferenceNotions RAGInferenceMoreNotions.
Import PyFacts RAGInferenceFacts RAGInferenceSpec.

Section WithServices.
Context {store embedding : Type}.
Variable encode : string -> result embedding.
Variable encode_batch : list string -> result (list embedding).
Variable collection_query : store -> list embedding -> Z -> result query_result.
Variable collection_add :
  store -> list string -> list embedding -> list string -> result store.
Variable chromadb_client : result unit.
Variable get_or_create_collection : store -> string -> string -> result store.
Variable sentence_transformer : string -> result unit.
Variable svc : services.

Local Abbreviation State := (@RAGInference.State store embedding).

(** Indexing is the only thing that can fail in one turn of the formatting
    loop, and the turn leaves the state alone. *)
Lemma format_result_outcome results i (s : State) :
  exists r, format_result results i s = (r, s) /\ forall e, r = Raise e -> e = IndexError.
Proof.
  unfold format_result, bind, index, raise, ret.
  destruct (r_documents results !! 0%nat) as [docs0|];
    [|eexists; split; [reflexivity|now intros e [= <-]]].
  destruct (docs0 !! i) as [t|]; [|eexists; split; [reflexivity|now intros e [= <-]]].
  destruct (r_distances results !! 0%nat) as [dists0|];
    [|eexists; split; [reflexivity|now intros e [= <-]]].
  destruct (dists0 !! i) as [d|]; [|eexists; split; [reflexivity|now intros e [= <-]]].
  destruct (r_ids results !! 0%nat) as [ids0|];
    [|eexists; split; [reflexivity|now intros e [= <-]]].
  destruct (ids0 !! i) as [id|]; [|eexists; split; [reflexivity|now intros e [= <-]]].
  eexists. split; [reflexivity|discriminate].
Qed.

Lemma format_fold_outcome results xs :
  forall acc (s : State),
    exists r,
      for_fold (fun acc i => bind (format_result results i) (fun r => ret (acc ++ [r]))) xs acc s
      = (r, s)
      /\ (forall e, r = Raise e -> e = IndexError)
      /\ (forall l, r = Ok l ->
                    forall i, i ∈ xs -> exists rec, format_result results i s = (Ok rec, s)).
Proof.
  induction xs as [|x xs IH]; intros acc s.
  - eexists. split; [reflexivity|]. split; [discriminate|].
    intros l _ i Hi. now apply elem_of_nil in Hi.
  - cbn [for_fold]. unfold bind at 1. unfold bind at 1.
    destruct (format_result_outcome results x s) as (rx & Hx & Hex). rewrite Hx.
    destruct rx as [rec|e].
    + unfold ret at 1. destruct (IH (acc ++ [rec]) s) as (r & Hr & He & Hok).
      exists r. split; [exact Hr|]. split; [exact He|].
      intros l Hl i Hi. apply elem_of_cons in Hi as [->|Hi]; [eauto|]. now apply (Hok l).
    + exists (Raise e). split; [reflexivity|]. split; [|discriminate].
      intros e' [= <-]. now apply Hex.
Qed.

Lemma format_results_outcome results (s : State) :
  exists r,
    format_results results s = (r, s)
    /\ (forall e, r = Raise e -> e = IndexError)
    /\ (forall l, r = Ok l ->
                  exists docs0,
                    r_documents results !! 0%nat = Some docs0
                    /\ forall i, (i < length docs0)%nat ->
                                 exists rec, format_result results i s = (Ok rec, s)).
Proof.
  unfold format_results. unfold bind at 1, index at 1.
  destruct (r_documents results !! 0%nat) as [docs0|] eqn:Hdocs.
  - unfold ret at 1.
    destruct (format_fold_outcome results (seq 0 (length docs0)) [] s) as (r & Hr & He & Hok).
    exists r. split; [exact Hr|]. split; [exact He|].
    intros l Hl. exists docs0. split; [reflexivity|].
    intros i Hi. apply (Hok l Hl). apply list_elem_of_In, in_seq. lia.
  - exists (Raise IndexError). split; [reflexivity|]. split; [now intros e [= <-]|discriminate].
Qed.

(** Where a call of [query] leaves the state. *)
Lemma query_state self query_text top_k (s : State) :
  (forall e, encode query_text = Raise e ->
             query encode collection_query svc self query_text top_k s = (Raise e, s))
  /\ (forall emb, encode query_text = Ok emb ->
                  exists w', snd (query encode collection_query svc self query_text top_k s)
                             = with_world w' (queried emb top_k s)).
Proof.
  split.
  - intros e He. unfold query. rewrite try_except_reraise.
    unfold bind at 1, lift_result. now rewrite He.
  - intros emb Hemb. unfold query. rewrite try_except_reraise.
    unfold bind at 1, lift_result. rewrite Hemb.
    unfold bind at 1, do_collection_query. fold (queried emb top_k s).
    set (s1 := queried emb top_k s).
    destruct (collection_query (collection s) [emb] top_k) as [results|e];
      [|exists (world s); reflexivity].
    unfold bind at 1.
    destruct (format_results_outcome results s1) as (r & -> & _).
    destruct r as [docs|e]; [|exists (world s); reflexivity].
    unfold bind at 1.
    destruct (llm_handler self) as [h|]; [|exists (world s); reflexivity].
    unfold bind at 1, in_world at 1, zoom at 1. change (world s1) with (world s).
    destruct (LLMHandler.is_configured svc h (world s)) as [[[|]|e] w1];
      [|exists w1; reflexivity|exists w1; reflexivity].
    fold (with_world w1 s1). unfold try_except, in_world, zoom, ret.
    change (world (with_world w1 s1)) with w1.
    destruct (LLMHandler.generate_response svc h query_text docs LLMHandler.DEFAULT_MAX_TOKENS w1)
      as [[v|e] w2]; exists w2; reflexivity.
Qed.

(** X10.  [query] never changes what the collection holds, whatever the
    encoder, the collection and the LLM do; when the query text could be
    encoded it makes exactly one call on the collection, the query for
    [top_k] results, and otherwise none. *)
Theorem query_leaves_collection self query_text top_k (s : State) :
  let out := query encode collection_query svc self query_text top_k s in
  collection (snd out) = collection s
  /\ (forall emb, encode query_text = Ok emb ->
                  collection_calls (snd out)
                  = collection_calls s ++ [CollectionQuery [emb] top_k])
  /\ (forall e, encode query_text = Raise e -> collection_calls (snd out) = collection_calls s).
Proof.
  intros out. subst out.
  destruct (query_state self query_text top_k s) as [Hfail Hok].
  destruct (encode query_text) as [emb|e] eqn:Henc.
  - destruct (Hok emb eq_refl) as [w' ->].
    split; [reflexivity|]. split; [|discriminate]. now intros emb' [= <-].
  - rewrite (Hfail e eq_refl). split; [reflexivity|]. split; [discriminate|reflexivity].
Qed.

(** X11.  A failure of the encoder or of the collection query is raised to
    the caller as it is, and the LLM is not contacted: the world is as it
    was. *)
Theorem query_retrieval_failure self query_text top_k (s : State) :
  (forall e, encode query_text = Raise e ->
             query encode collection_query svc self query_text top_k s = (Raise e, s))
  /\ (forall emb e,
        encode query_text = Ok emb ->
        collection_query (collection s) [emb] top_k = Raise e ->
        fst (query encode collection_query svc self query_text top_k s) = Raise e
        /\ world (snd (query encode collection_query svc self query_text top_k s)) = world s).
Proof.
  split; [apply query_state|].
  intros emb e Henc Hquery.
  assert (Hrun : query encode collection_query svc self query_text top_k s
                 = (Raise e, queried emb top_k s)).
  { unfold query. rewrite try_except_reraise.
    unfold bind at 1, lift_result. rewrite Henc.
    unfold bind at 1, do_collection_query. now rewrite Hquery. }
  rewrite Hrun. now split.
Qed.

(** X12.  When the collection answers with fewer distances (or fewer ids)
    than documents, [query] raises [IndexError] while it formats the
    results, before the LLM is contacted. *)
Theorem query_misaligned_answer
    self query_text top_k (s : State) emb results docs0 dists0 ids0 :
  encode query_text = Ok emb ->
  collection_query (collection s) [emb] top_k = Ok results ->
  r_documents results !! 0%nat = Some docs0 ->
  r_distances results !! 0%nat = Some dists0 ->
  r_ids results !! 0%nat = Some ids0 ->
  (length dists0 < length docs0)%nat \/ (length ids0 < length docs0)%nat ->
  query encode collection_query svc self query_text top_k s
  = (Raise IndexError, queried emb top_k s).
Proof.
  intros Henc Hquery Hdocs Hdists Hids Hshort.
  unfold query. rewrite try_except_reraise.
  unfold bind at 1, lift_result. rewrite Henc.
  unfold bind at 1, do_collection_query. rewrite Hquery. fold (queried emb top_k s).
  unfold bind at 1.
  destruct (format_results_outcome results (queried emb top_k s)) as (r & -> & He & Hok).
  destruct r as [l|e]; [exfalso|now rewrite (He e eq_refl)].
  destruct (Hok l eq_refl) as (docs0' & Hdocs' & Hall).
  rewrite Hdocs in Hdocs'. injection Hdocs' as <-.
  assert (Hrow : forall i, (i < length docs0)%nat ->
                           (i < length dists0)%nat /\ (i < length ids0)%nat).
  { intros i Hi. destruct (Hall i Hi) as [rec Hrec]. revert Hrec.
    unfold format_result, bind, index, raise, ret. rewrite Hdocs, Hdists, Hids.
    destruct (docs0 !! i); [|discriminate].
    destruct (dists0 !! i) eqn:Hd; [|discriminate].
    destruct (ids0 !! i) eqn:Hi'; [|discriminate].
    intros _. split; eapply lookup_lt_Some; eassumption. }
  destruct Hshort as [Hshort|Hshort].
  - destruct (Hrow (length dists0) Hshort). lia.
  - destruct (Hrow (length ids0) Hshort). lia.
Qed.

(** X13.  Without a handler, or with one that reports itself not
    configured, [query] still returns the retrieved documents;
    ['llm_response'] is [None] and no generation request is made. *)
Theorem query_without_llm
    self query_text top_k (s : State) emb results docs0 dists0 ids0 :
  encode query_text = Ok emb ->
  collection_query (collection s) [emb] top_k = Ok results ->
  answer_for_one_query results docs0 dists0 ids0 ->
  (llm_handler self = None ->
   query encode collection_query svc self query_text top_k s
   = (Ok {| documents := formatted docs0 dists0 ids0; llm_response := VNone |},
      queried emb top_k s))
  /\ (forall h w1,
        llm_handler self = Some h ->
        LLMHandler.is_configured svc h (world s) = (Ok false, w1) ->
        query encode collection_query svc self query_text top_k s
        = (Ok {| documents := formatted docs0 dists0 ids0; llm_response := VNone |},
           with_world w1 (queried emb top_k s))).
Proof.
  intros Henc Hquery Hans.
  pose proof (query_after_retrieval encode collection_query svc self query_text top_k s
                emb results docs0 dists0 ids0 Henc Hquery Hans) as Hrun.
  cbv zeta in Hrun. split.
  - intros Hnone. now rewrite Hrun, Hnone.
  - intros h w1 Hsome Hconf. now rewrite Hrun, Hsome, Hconf.
Qed.

(** X14.  [add_documents] never contacts the LLM.  When the encoder
    fails nothing is handed to the collection; otherwise the collection
    gets one [add] with the documents, their embeddings and the ids (the
    given ones as they are, unchecked, or the generated ones).  When that
    [add] raises, the exception reaches the caller and the collection is
    as before. *)
Theorem add_documents_outcome self docs ids (s : State) :
  let out := add_documents encode_batch collection_add self docs ids s in
  let ids' := match ids with Some given => given | None => auto_ids (length docs) end in
  world (snd out) = world s
  /\ (forall e, encode_batch docs = Raise e -> out = (Raise e, s))
  /\ (forall embs,
        encode_batch docs = Ok embs ->
        collection_calls (snd out) = collection_calls s ++ [CollectionAdd docs embs ids']
        /\ (forall c, collection_add (collection s) docs embs ids' = Ok c ->
                      fst out = Ok tt /\ collection (snd out) = c)
        /\ (forall e, collection_add (collection s) docs embs ids' = Raise e ->
                      fst out = Raise e /\ collection (snd out) = collection s)).
Proof.
  intros out ids'. subst out.
  unfold add_documents. rewrite try_except_reraise.
  unfold bind, lift_result, do_collection_add.
  replace (match ids with Some given => given | None => auto_ids (length docs) end)
    with ids' by (subst ids'; now destruct ids).
  destruct (encode_batch docs) as [embs|e].
  - destruct (collection_add (collection s) docs embs ids') as [c|e] eqn:Hadd.
    + split; [reflexivity|]. split; [discriminate|].
      intros embs' [= <-]. rewrite Hadd. split; [reflexivity|].
      split; [intros c' [= <-]; now split|discriminate].
    + split; [reflexivity|]. split; [discriminate|].
      intros embs' [= <-]. rewrite Hadd. split; [reflexivity|].
      split; [discriminate|intros e' [= <-]; now split].
  - split; [reflexivity|]. split; [now intros e' [= <-]|discriminate].
Qed.

Lemma _initialize_pipeline_handler llm_provider model_name (s : State) c :
  chromadb_client = Ok tt ->
  get_or_create_collection (collection s) COLLECTION_NAME COLLECTION_DESCRIPTION = Ok c ->
  sentence_transformer ENCODER_NAME = Ok tt ->
  _initialize_pipeline chromadb_client get_or_create_collection sentence_transformer svc
    llm_provider model_name s
  = match LLMHandler.__init__ svc llm_provider model_name (world s) with
    | (Ok h, w') => (Ok {| llm_handler := Some h |}, with_world w' (with_collection c s))
    | (Raise e, w') => (Raise e, with_world w' (with_collection c s))
    end.
Proof.
  intros Hclient Hcollection Hencoder.
  unfold _initialize_pipeline. rewrite try_except_reraise.
  unfold bind at 1, lift_result at 1. rewrite Hclient.
  unfold bind at 1, do_get_or_create_collection. rewrite Hcollection.
  unfold bind at 1, lift_result at 1. rewrite Hencoder.
  unfold bind, in_world, zoom, ret. cbn [world collection collection_calls].
  now destruct (LLMHandler.__init__ svc llm_provider model_name (world s)) as [[h|e] w'].
Qed.

(** Building the pipeline makes no query and adds nothing. *)
Lemma _initialize_pipeline_calls llm_provider model_name (s : State) :
  collection_calls
    (snd (_initialize_pipeline chromadb_client get_or_create_collection sentence_transformer
            svc llm_provider model_name s))
  = collection_calls s.
Proof.
  unfold _initialize_pipeline. rewrite try_except_reraise.
  unfold bind at 1, lift_result at 1. destruct chromadb_client as [[]|e]; [|reflexivity].
  unfold bind at 1, do_get_or_create_collection.
  destruct (get_or_create_collection (collection s) COLLECTION_NAME COLLECTION_DESCRIPTION)
    as [c|e]; [|reflexivity].
  unfold bind at 1, lift_result at 1.
  destruct (sentence_transformer ENCODER_NAME) as [[]|e]; [|reflexivity].
  unfold bind, in_world, zoom, ret. cbn [world collection collection_calls].
  now destruct (LLMHandler.__init__ svc llm_provider model_name (world s)) as [[h|e] w'].
Qed.

(** X15.  [_initialize_pipeline] takes four steps in order, the client,
    the collection [traffic_incidents], the encoder [all-MiniLM-L6-v2] and
    the LLM handler, and raises the exception of the first step that
    fails, as it is.  The LLM handler is built last: when an earlier step
    fails no LLM service is contacted.  A pipeline that was built has an
    initialised handler and the collection the client handed out. *)
Theorem _initialize_pipeline_outcome llm_provider model_name (s : State) :
  let run := _initialize_pipeline chromadb_client get_or_create_collection
               sentence_transformer svc llm_provider model_name s in
  (forall e, chromadb_client = Raise e -> run = (Raise e, s))
  /\ (chromadb_client = Ok tt ->
      (forall e,
         get_or_create_collection (collection s) "traffic_incidents"
           "Traffic incidents from Austin" = Raise e ->
         run = (Raise e, s))
      /\ (forall c,
            get_or_create_collection (collection s) "traffic_incidents"
              "Traffic incidents from Austin" = Ok c ->
            (forall e, sentence_transformer "all-MiniLM-L6-v2" = Raise e ->
                       run = (Raise e, with_collection c s))
            /\ (sentence_transformer "all-MiniLM-L6-v2" = Ok tt ->
                (forall e w',
                   LLMHandler.__init__ svc llm_provider model_name (world s) = (Raise e, w') ->
                   run = (Raise e, with_world w' (with_collection c s)))
                /\ (forall h w',
                      LLMHandler.__init__ svc llm_provider model_name (world s) = (Ok h, w') ->
                      run = (Ok {| llm_handler := Some h |},
                             with_world w' (with_collection c s))
                      /\ LLMHandlerNotions.initialised h))))
  /\ (forall self s',
        run = (Ok self, s') ->
        (exists h, llm_handler self = Some h /\ LLMHandlerNotions.initialised h)
        /\ get_or_create_collection (collection s) "traffic_incidents"
             "Traffic incidents from Austin" = Ok (collection s')
        /\ collection_calls s' = collection_calls s).
Proof.
  intros run.
  assert (Hearly : forall r s1,
            (lift_result chromadb_client ;;;
             do_get_or_create_collection get_or_create_collection
               COLLECTION_NAME COLLECTION_DESCRIPTION ;;;
             lift_result (sentence_transformer ENCODER_NAME) ;;;
             h <- in_world (LLMHandler.__init__ svc llm_provider model_name) ;;
             ret {| llm_handler := Some h |})%py s = (r, s1) ->
            run = (r, s1)).
  { intros r s1 Hbody. subst run. unfold _initialize_pipeline.
    rewrite try_except_reraise. exact Hbody. }
  split; [|split].
  - intros e Hclient. apply Hearly. unfold bind at 1, lift_result at 1. now rewrite Hclient.
  - intros Hclient. split.
    + intros e Hcollection. apply Hearly.
      unfold bind at 1, lift_result at 1. rewrite Hclient.
      unfold bind at 1, do_get_or_create_collection.
      change COLLECTION_NAME with "traffic_incidents".
      change COLLECTION_DESCRIPTION with "Traffic incidents from Austin".
      now rewrite Hcollection.
    + intros c Hcollection. split.
      * intros e Hencoder. apply Hearly.
        unfold bind at 1, lift_result at 1. rewrite Hclient.
        unfold bind at 1, do_get_or_create_collection.
        change COLLECTION_NAME with "traffic_incidents".
        change COLLECTION_DESCRIPTION with "Traffic incidents from Austin".
        rewrite Hcollection. unfold bind at 1, lift_result at 1.
        change ENCODER_NAME with "all-MiniLM-L6-v2". now rewrite Hencoder.
      * intros Hencoder.
        pose proof (_initialize_pipeline_handler llm_provider model_name s c
                      Hclient Hcollection Hencoder) as Hrun.
        fold run in Hrun. split.
        -- intros e w' Hinit. now rewrite Hrun, Hinit.
        -- intros h w' Hinit. split; [now rewrite Hrun, Hinit|].
           now apply (LLMHandlerFacts.__init___initialised svc llm_provider model_name
                        (world s) h w').
  - intros self s' Hrun.
    pose proof (_initialize_pipeline_calls llm_provider model_name s) as Hcalls.
    fold run in Hcalls. rewrite Hrun in Hcalls. cbn [snd] in Hcalls.
    subst run. revert Hrun. unfold _initialize_pipeline. rewrite try_except_reraise.
    unfold bind at 1, lift_result at 1. destruct chromadb_client as [[]|e]; [|discriminate].
    unfold bind at 1, do_get_or_create_collection.
    change COLLECTION_NAME with "traffic_incidents".
    change COLLECTION_DESCRIPTION with "Traffic incidents from Austin".
    destruct (get_or_create_collection (collection s) "traffic_incidents"
                "Traffic incidents from Austin") as [c|e]; [|discriminate].
    unfold bind at 1, lift_result at 1.
    destruct (sentence_transformer ENCODER_NAME) as [[]|e]; [|discriminate].
    unfold bind, in_world, zoom, ret. cbn [world collection collection_calls].
    destruct (LLMHandler.__init__ svc llm_provider model_name (world s)) as [[h|e] w'] eqn:Hinit;
      [|discriminate].
    intros [= <- <-]. cbn [llm_handler collection].
    split; [|split; [reflexivity|exact Hcalls]].
    exists h. split; [reflexivity|].
    now apply (LLMHandlerFacts.__init___initialised svc llm_provider model_name (world s) h w').
Qed.

End WithServices.

Lemma query_leaves_collection_witness :
  let out := query toy_encode toy_query LLMHandlerNotions.flaky_services toy_pipeline
                   "Any crashes?" 2 toy_state in
  collection (snd out) = collection toy_state
  /\ collection_calls (snd out) = [CollectionQuery [12%nat] 2].
Proof.
  destruct (query_leaves_collection toy_encode toy_query LLMHandlerNotions.flaky_services
              toy_pipeline "Any crashes?" 2 toy_state) as (Hcol & Hcalls & _).
  split; [exact Hcol|]. apply (Hcalls 12%nat). reflexivity.
Defined.

Lemma query_retrieval_failure_witness :
  query encoder_down toy_query LLMHandlerNotions.flaky_services toy_pipeline
        "Any crashes?" 2 toy_state
    = (Raise (Exception "model not loaded"), toy_state)
  /\ fst (query toy_encode collection_down LLMHandlerNotions.flaky_services toy_pipeline
             "Any crashes?" 2 toy_state)
     = Raise (Exception "collection does not exist").
Proof.
  split.
  - apply (query_retrieval_failure encoder_down toy_query LLMHandlerNotions.flaky_services
             toy_pipeline "Any crashes?" 2 toy_state).
    reflexivity.
  - destruct (query_retrieval_failure toy_encode collection_down
                LLMHandlerNotions.flaky_services toy_pipeline "Any crashes?" 2 toy_state)
      as (_ & H).
    apply (H 12%nat (Exception "collection does not exist")); reflexivity.
Defined.

Lemma query_misaligned_answer_witness :
  query toy_encode collection_misaligned LLMHandlerNotions.flaky_services toy_pipeline
        "Any crashes?" 2 toy_state
  = (Raise IndexError, queried 12%nat 2 toy_state).
Proof.
  apply (query_misaligned_answer toy_encode collection_misaligned
           LLMHandlerNotions.flaky_services toy_pipeline "Any crashes?" 2 toy_state 12%nat
           {| r_ids := [[VStr "doc_0"; VStr "doc_1"]];
              r_documents := [[VStr "Crash on I-35"; VStr "Stalled vehicle on Lamar"]];
              r_distances := [[VFloat "0.0"]] |}
           [VStr "Crash on I-35"; VStr "Stalled vehicle on Lamar"]
           [VFloat "0.0"] [VStr "doc_0"; VStr "doc_1"]).
  - reflexivity.
  - reflexivity.
  - reflexivity.
  - reflexivity.
  - reflexivity.
  - left. cbn. lia.
Defined.

Lemma query_without_llm_witness :
  query toy_encode toy_query LLMHandlerMoreNotions.local_services toy_pipeline
        "Any crashes?" 2 toy_state
  = (Ok {| documents :=
             formatted [VStr "Crash on I-35"; VStr "Stalled vehicle on Lamar"]
                       [VFloat "0.0"; VFloat "0.0"] [VStr "doc_0"; VStr "doc_1"];
           llm_response := VNone |},
     with_world {| environ := environ LLMHandlerNotions.openai_world; clock := 1;
                   trace := [OpenAIModelsList "sk-test"] |}
                (queried 12%nat 2 toy_state)).
Proof.
  destruct (query_without_llm toy_encode toy_query LLMHandlerMoreNotions.local_services
              toy_pipeline "Any crashes?" 2 toy_state 12%nat
              {| r_ids := [[VStr "doc_0"; VStr "doc_1"]];
                 r_documents := [[VStr "Crash on I-35"; VStr "Stalled vehicle on Lamar"]];
                 r_distances := [[VFloat "0.0"; VFloat "0.0"]] |}
              [VStr "Crash on I-35"; VStr "Stalled vehicle on Lamar"]
              [VFloat "0.0"; VFloat "0.0"] [VStr "doc_0"; VStr "doc_1"]) as (_ & H).
  - reflexivity.
  - reflexivity.
  - repeat split.
  - apply (H LLMHandlerNotions.openai_handler); reflexivity.
Defined.

Lemma add_documents_outcome_witness :
  add_documents encoder_batch_down toy_add toy_pipeline ["Crash on I-35"] None toy_state
    = (Raise (Exception "model not loaded"), toy_state)
  /\ fst (add_documents toy_encode_batch add_rejected toy_pipeline
            ["Crash on I-35"; "Crash on I-35"] (Some ["a"; "a"]) toy_state)
     = Raise (ValueError "Expected IDs to be unique")
  /\ collection (snd (add_documents toy_encode_batch add_rejected toy_pipeline
                        ["Crash on I-35"; "Crash on I-35"] (Some ["a"; "a"]) toy_state))
     = collection toy_state.
Proof.
  split.
  - pose proof (add_documents_outcome encoder_batch_down toy_add toy_pipeline
                  ["Crash on I-35"] None toy_state) as H.
    cbv zeta in H. destruct H as (_ & H & _). apply H. reflexivity.
  - pose proof (add_documents_outcome toy_encode_batch add_rejected toy_pipeline
                  ["Crash on I-35"; "Crash on I-35"] (Some ["a"; "a"]) toy_state) as H.
    cbv zeta in H. destruct H as (_ & _ & H).
    destruct (H [13%nat; 13%nat] eq_refl) as (_ & _ & Hfail).
    apply (Hfail (ValueError "Expected IDs to be unique")). reflexivity.
Defined.

Lemma _initialize_pipeline_outcome_witness :
  _initialize_pipeline toy_client toy_get_or_create transformer_offline
    LLMHandlerNotions.flaky_services "openai" None toy_state
  = (Raise (Exception "Cannot load model all-MiniLM-L6-v2"), toy_state)
  /\ _initialize_pipeline toy_client toy_get_or_create toy_transformer
       LLMHandlerNotions.flaky_services "mistral" None toy_state
     = (Raise (ValueError
          "Unsupported provider: mistral. Supported providers: ['openai', 'anthropic', 'ollama']"),
        toy_state).
Proof.
  split.
  - destruct (_initialize_pipeline_outcome toy_client toy_get_or_create transformer_offline
                LLMHandlerNotions.flaky_services "openai" None toy_state) as (_ & H & _).
    destruct (H eq_refl) as (_ & Hcollection).
    destruct (Hcollection (collection toy_state) eq_refl) as (Hencoder & _).
    apply (Hencoder (Exception "Cannot load model all-MiniLM-L6-v2")). reflexivity.
  - destruct (_initialize_pipeline_outcome toy_client toy_get_or_create toy_transformer
                LLMHandlerNotions.flaky_services "mistral" None toy_state) as (_ & H & _).
    destruct (H eq_refl) as (_ & Hcollection).
    destruct (Hcollection (collection toy_state) eq_refl) as (_ & Hhandler).
    destruct (Hhandler eq_refl) as (Hfails & _).
    apply (Hfails
             (ValueError
                "Unsupported provider: mistral. Supported providers: ['openai', 'anthropic', 'ollama']")
             (world toy_state)).
    reflexivity.
Defined.

End RAGInferenceMore.


(** ** traffic_api_to_rag.py, further properties *)

Module TrafficApiMore.
Import Py Process TrafficApi TrafficApiNotions TrafficApiMoreNotions.
Import PyFacts TrafficApiSpec.

Lemma str_len_append (a b : string) : str_len (a +:+ b) = (str_len a + str_len b)%nat.
Proof.
  induction a as [|c a IH]; [reflexivity|].
  change (String c a +:+ b) with (String c (a +:+ b)). cbn [str_len].
  destruct (is_continuation c); rewrite IH; reflexivity.
Qed.

Lemma str_len_prefix n s : str_len (str_prefix n s) = Nat.min n (str_len s).
Proof.
  revert n. induction s as [|c s IH]; intros n; [now destruct n|].
  cbn [str_prefix str_len]. destruct (is_continuation c) eqn:Hc.
  - cbn [str_len]. rewrite Hc. apply IH.
  - destruct n as [|n]; [reflexivity|]. cbn [str_len]. rewrite Hc, IH. reflexivity.
Qed.

(** Cutting again after what was appended gives the same characters,
    when the appended text starts with a character of its own. *)
Lemma str_prefix_append n s t :
  (n <= str_len s)%nat -> str_prefix 0 t = "" ->
  str_prefix n (str_prefix n s +:+ t) = str_prefix n s.
Proof.
  intros Hn Ht. revert n Hn. induction s as [|c s IH]; intros n Hn.
  - cbn in Hn. assert (n = 0%nat) as -> by lia. exact Ht.
  - cbn [str_prefix str_len] in *. destruct (is_continuation c) eqn:Hc.
    + change (String c (str_prefix n s) +:+ t) with (String c (str_prefix n s +:+ t)).
      cbn [str_prefix]. rewrite Hc, IH by exact Hn. reflexivity.
    + destruct n as [|n]; [exact Ht|].
      change (String c (str_prefix n s) +:+ t) with (String c (str_prefix n s +:+ t)).
      cbn [str_prefix]. rewrite Hc, IH by lia. reflexivity.
Qed.

(** X16.  In an incident document the two geometry columns get no line;
    every other column gets one line, [<Title Of Key>: <value>], whose
    value text is never longer than 200 characters: a longer value is cut
    to its first 197 characters followed by three dots. *)
Theorem field_cell_bound `{Unicode} (key : string) (v : value) :
  (key = "shape" \/ key = "location" -> field_cell key v = None)
  /\ (key <> "shape" -> key <> "location" ->
      exists shown,
        field_cell key v
        = Some (left_cell (title (replace_char "_" " " key) +:+ ": " +:+ shown))
        /\ (str_len shown <= 200)%nat
        /\ ((str_len (py_str v) <= 200)%nat -> shown = py_str v)
        /\ ((200 < str_len (py_str v))%nat ->
            shown = str_prefix 197 (py_str v) +:+ "..."
            /\ str_len shown = 200%nat
            /\ str_prefix 197 shown = str_prefix 197 (py_str v))).
Proof.
  split.
  - intros [->| ->]; reflexivity.
  - intros Hshape Hlocation. unfold field_cell.
    apply String.eqb_neq in Hshape, Hlocation. rewrite Hshape, Hlocation. cbn [orb].
    destruct (Nat.ltb_spec 200 (str_len (py_str v))) as [Hlong|Hshort].
    + eexists. split; [reflexivity|].
      assert (Hlen : str_len (str_prefix 197 (py_str v) +:+ "...") = 200%nat).
      { rewrite str_len_append, str_len_prefix.
        change (str_len "...") with 3%nat. lia. }
      split; [lia|]. split; [lia|]. intros _. split; [reflexivity|]. split; [exact Hlen|].
      apply str_prefix_append; [lia|reflexivity].
    + eexists. split; [reflexivity|]. split; [lia|]. split; [reflexivity|]. lia.
Qed.

Lemma write_all_app `{Unicode} timestamp output_dir df1 df2 fs :
  write_all timestamp output_dir (df1 ++ df2) fs
  = write_all timestamp output_dir df2 (write_all timestamp output_dir df1 fs).
Proof. unfold write_all. apply fold_left_app. Qed.

Section Render.
Context `{Unicode}.
Variable io_fault : io_op -> option exn.

(** X17.  A successful [create_incident_pdfs] writes the files it names
    in its result and nothing else: every other path on the disk holds
    what it held before. *)
Theorem create_incident_pdfs_frame timestamp df output_dir fs paths fs' :
  create_incident_pdfs io_fault timestamp df output_dir fs = (Ok paths, fs') ->
  forall p, p ∉ paths -> fs' !! p = fs !! p.
Proof.
  intros Hrun p Hp.
  assert (Hdir : io_fault (Makedirs output_dir) = None).
  { revert Hrun. unfold create_incident_pdfs. unfold bind at 1, makedirs.
    now destruct (io_fault (Makedirs output_dir)). }
  assert (Hloop : forall rows st0 d r d',
            for_fold (incident_step io_fault timestamp output_dir) rows st0 d = (Ok r, d') ->
            forall row, row ∈ rows -> io_fault (Output (path_of output_dir row)) = None).
  { induction rows as [|[idx incident] rows IH]; intros st0 d r d' Hfold row Hrow.
    - now apply elem_of_nil in Hrow.
    - revert Hfold. cbn [for_fold]. unfold bind at 1, incident_step at 1.
      unfold bind at 1, fpdf_output at 1.
      destruct (io_fault (Output (individual_pdf_path output_dir idx incident))) eqn:Hw;
        [discriminate|].
      unfold ret at 1. intros Hfold.
      apply elem_of_cons in Hrow as [->|Hrow]; [exact Hw|]. eapply IH; eassumption. }
  assert (Hrows : forall row, row ∈ df -> io_fault (Output (path_of output_dir row)) = None).
  { revert Hrun. unfold create_incident_pdfs. unfold bind at 1, makedirs. rewrite Hdir.
    unfold bind at 1.
    match goal with |- context [for_fold ?f df ?st0 fs] =>
      destruct (for_fold f df st0 fs) as [[st|e] d] eqn:Hfold end; [|discriminate].
    intros _. eapply Hloop; eassumption. }
  assert (Hsummary : io_fault (Output (summary_pdf_path output_dir)) = None).
  { revert Hrun. unfold create_incident_pdfs. unfold bind at 1, makedirs. rewrite Hdir.
    unfold bind at 1. rewrite (fold_incident_step io_fault) by assumption.
    unfold bind, fpdf_output. cbn [summary_pdf].
    now destruct (io_fault (Output (summary_pdf_path output_dir))). }
  rewrite (create_incident_pdfs_run io_fault timestamp df output_dir fs Hdir Hrows Hsummary)
    in Hrun.
  injection Hrun as <- <-.
  rewrite lookup_insert_ne by (intros <-; apply Hp, elem_of_app; right; constructor).
  apply write_all_lookup_notin. intros row Hrow <-.
  apply Hp, elem_of_app. left. now apply list_elem_of_fmap_2.
Qed.

(** X18.  Nothing catches a failed write.  When the directory cannot be
    made the call raises with the disk untouched; when the document of an
    incident cannot be written the call raises that error at once, with
    the documents of the earlier incidents written and neither a later
    document nor the summary. *)
Theorem create_incident_pdfs_aborts timestamp output_dir fs :
  (forall df e,
     io_fault (Makedirs output_dir) = Some e ->
     create_incident_pdfs io_fault timestamp df output_dir fs = (Raise e, fs))
  /\ (forall before row after e,
        io_fault (Makedirs output_dir) = None ->
        (forall r, r ∈ before -> io_fault (Output (path_of output_dir r)) = None) ->
        io_fault (Output (path_of output_dir row)) = Some e ->
        create_incident_pdfs io_fault timestamp (before ++ row :: after) output_dir fs
        = (Raise e, write_all timestamp output_dir before fs)
        /\ write_all timestamp output_dir before fs !! summary_pdf_path output_dir
           = fs !! summary_pdf_path output_dir).
Proof.
  split.
  - intros df e Hdir. unfold create_incident_pdfs. unfold bind at 1, makedirs.
    now rewrite Hdir.
  - intros before row after e Hdir Hok Hbad. split.
    + unfold create_incident_pdfs. unfold bind at 1, makedirs. rewrite Hdir.
      unfold bind at 1. now rewrite (fold_incident_step_fails io_fault) with (e := e).
    + apply write_all_lookup_notin. intros r _. apply path_of_not_summary.
Qed.

(** X19.  The files are named after the report ids alone, so of several
    incidents with one id only the last one keeps its document: after a
    successful call the path of an incident holds the document of that
    incident when no later incident has the same path. *)
Theorem create_incident_pdfs_last_wins timestamp before row after output_dir fs paths fs' :
  create_incident_pdfs io_fault timestamp (before ++ row :: after) output_dir fs
  = (Ok paths, fs') ->
  (forall r, r ∈ after -> path_of output_dir r <> path_of output_dir row) ->
  fs' !! path_of output_dir row = Some (pdf_of timestamp row).
Proof.
  intros Hrun Hlater.
  assert (Hdir : io_fault (Makedirs output_dir) = None).
  { revert Hrun. unfold create_incident_pdfs. unfold bind at 1, makedirs.
    now destruct (io_fault (Makedirs output_dir)). }
  revert Hrun. unfold create_incident_pdfs. unfold bind at 1, makedirs. rewrite Hdir.
  unfold bind at 1.
  match goal with |- context [for_fold ?f ?rows ?st0 fs] =>
    destruct (for_fold f rows st0 fs) as [[st|e] d] eqn:Hfold end; [|discriminate].
  unfold bind, fpdf_output.
  destruct (io_fault (Output (summary_pdf_path output_dir))); [discriminate|].
  unfold ret. intros [= <- <-].
  rewrite lookup_insert_ne by (intros Heq; symmetry in Heq; now apply path_of_not_summary in Heq).
  assert (Hd : d = write_all timestamp output_dir (before ++ row :: after) fs).
  { clear Hlater. revert Hfold. generalize (before ++ row :: after) as rows.
    intros rows. match goal with |- for_fold _ rows ?st0 fs = _ -> _ => generalize st0 end.
    revert fs st d. induction rows as [|[idx incident] rows IH]; intros fs0 st d st0.
    - cbn. now intros [= _ <-].
    - cbn [for_fold]. unfold bind at 1, incident_step at 1. unfold bind at 1, fpdf_output at 1.
      destruct (io_fault (Output (individual_pdf_path output_dir idx incident))); [discriminate|].
      unfold ret at 1. intros Hfold. apply IH in Hfold. exact Hfold. }
  rewrite Hd. change (before ++ row :: after) with (before ++ [row] ++ after).
  rewrite app_assoc, write_all_app.
  rewrite write_all_lookup_notin by assumption.
  rewrite write_all_snoc. apply lookup_insert_eq.
Qed.
End Render.

Section Fetch.
Variable requests_get : nat -> string -> result http_response.

(** X20.  A reply with a good status is only returned when it decodes to
    something that has a length.  A body that is not JSON raises the
    decoding error, and a JSON number, boolean or null raises [TypeError],
    which the [except] clause of the function does not cover; a JSON
    object is returned although it is not a list. *)
Theorem fetch_traffic_data_body limit w r :
  requests_get (clock w) (fetch_url limit) = Ok r ->
  ~ (400 <= status_code r < 600)%Z ->
  (json_body r = None -> fst (fetch_traffic_data requests_get limit w) = Raise JSONDecodeError)
  /\ (forall data e,
        json_body r = Some data -> json_len data = Raise e ->
        fst (fetch_traffic_data requests_get limit w) = Raise e
        /\ is_RequestException e = false)
  /\ (forall fields,
        json_body r = Some (JObj fields) ->
        fst (fetch_traffic_data requests_get limit w) = Ok (JObj fields)).
Proof.
  intros Hget Hgood. rewrite fetch_traffic_data_unfold, Hget. cbn [fst].
  replace ((400 <=? status_code r) && (status_code r <? 600))%Z with false.
  2:{ symmetry. apply andb_false_iff.
      destruct (Z.leb_spec 400 (status_code r)); [right; apply Z.ltb_ge; lia|now left]. }
  split; [|split].
  - intros ->. reflexivity.
  - intros data e -> Hlen. rewrite Hlen. split; [reflexivity|].
    destruct data; cbn in Hlen; try discriminate; now injection Hlen as <-.
  - intros fields ->. reflexivity.
Qed.
End Fetch.

#[local] Existing Instance ascii_examples.

Lemma field_cell_bound_witness :
  field_cell "location" (VStr "POINT (-97.7 30.2)") = None
  /\ field_cell "traffic_report_id" (VStr "A1")
     = Some (left_cell "Traffic Report Id: A1")
  /\ field_cell "incident_age_hours" (VFloat "2.5")
     = Some (left_cell "Incident Age Hours: 2.5").
Proof.
  destruct (field_cell_bound "location" (VStr "POINT (-97.7 30.2)")) as (Hskip & _).
  destruct (field_cell_bound "traffic_report_id" (VStr "A1")) as (_ & Hline).
  destruct (field_cell_bound "incident_age_hours" (VFloat "2.5")) as (_ & Hfloat).
  split; [apply Hskip; now right|]. split.
  - destruct (Hline ltac:(discriminate) ltac:(discriminate))
      as (shown & Hcell & _ & Hshort & _).
    rewrite Hcell. rewrite Hshort by (vm_compute; lia). reflexivity.
  - destruct (Hfloat ltac:(discriminate) ltac:(discriminate))
      as (shown & Hcell & _ & Hshort & _).
    rewrite Hcell. rewrite Hshort by (vm_compute; lia). reflexivity.
Defined.

(** A value of 101 two-byte characters is not cut: its length is 101. *)
Example str_len_counts_characters :
  str_len (String.concat "" (replicate 101 "é")) = 101%nat
  /\ String.length (String.concat "" (replicate 101 "é")) = 202%nat
  /\ str_prefix 2 "été 2024" = "ét".
Proof. vm_compute. repeat split. Qed.

Lemma create_incident_pdfs_frame_witness :
  exists paths fs',
    create_incident_pdfs no_io_fault "2025-01-01 00:00:00" sample_frame "traffic_pdfs"
      {[ "notes.txt" := [left_cell "keep"] ]} = (Ok paths, fs')
    /\ fs' !! "notes.txt" = Some [left_cell "keep"].
Proof.
  pose proof (create_incident_pdfs_run no_io_fault "2025-01-01 00:00:00" sample_frame
                "traffic_pdfs" {[ "notes.txt" := [left_cell "keep"] ]}
                eq_refl (fun _ _ => eq_refl) eq_refl) as Hrun.
  eexists _, _. split; [exact Hrun|].
  transitivity (({[ "notes.txt" := [left_cell "keep"] ]} : gmap string pdf) !! "notes.txt").
  - apply (create_incident_pdfs_frame no_io_fault "2025-01-01 00:00:00" sample_frame
             "traffic_pdfs" {[ "notes.txt" := [left_cell "keep"] ]} _ _ Hrun "notes.txt").
    intros Hin. apply list_elem_of_In in Hin.
    destruct Hin as [H|[H|[H|[]]]]; discriminate H.
  - apply lookup_singleton_eq.
Defined.

Lemma create_incident_pdfs_aborts_witness :
  create_incident_pdfs full_after_first "2025-01-01 00:00:00"
    ([ (VInt 0, [("traffic_report_id", VStr "A1")]) ]
     ++ (VInt 1, [("traffic_report_id", VStr "B2")]) :: []) "traffic_pdfs" ∅
  = (Raise (Exception "No space left on device"),
     write_all "2025-01-01 00:00:00" "traffic_pdfs"
       [ (VInt 0, [("traffic_report_id", VStr "A1")]) ] ∅).
Proof.
  destruct (create_incident_pdfs_aborts full_after_first "2025-01-01 00:00:00" "traffic_pdfs" ∅)
    as (_ & H).
  apply (H [ (VInt 0, [("traffic_report_id", VStr "A1")]) ]
           (VInt 1, [("traffic_report_id", VStr "B2")]) []
           (Exception "No space left on device")).
  - reflexivity.
  - intros r Hr. apply list_elem_of_singleton in Hr. subst r. reflexivity.
  - reflexivity.
Defined.

Lemma create_incident_pdfs_last_wins_witness :
  exists paths fs',
    create_incident_pdfs no_io_fault "2025-01-01 00:00:00" frame_with_duplicate
      "traffic_pdfs" ∅ = (Ok paths, fs')
    /\ fs' !! "traffic_pdfs/incident_A1.pdf"
       = Some (incident_pdf "2025-01-01 00:00:00" (VInt 1)
                 [("traffic_report_id", VStr "A1"); ("issue_reported", VStr "Traffic Hazard")]).
Proof.
  pose proof (create_incident_pdfs_run no_io_fault "2025-01-01 00:00:00" frame_with_duplicate
                "traffic_pdfs" ∅ eq_refl (fun _ _ => eq_refl) eq_refl) as Hrun.
  eexists _, _. split; [exact Hrun|].
  apply (create_incident_pdfs_last_wins no_io_fault "2025-01-01 00:00:00"
           [ (VInt 0, [("traffic_report_id", VStr "A1");
                       ("issue_reported", VStr "Crash Urgent")]) ]
           (VInt 1, [("traffic_report_id", VStr "A1");
                     ("issue_reported", VStr "Traffic Hazard")])
           [] "traffic_pdfs" ∅ _ _ Hrun).
  intros r Hr. now apply elem_of_nil in Hr.
Defined.

Lemma fetch_traffic_data_body_witness :
  fst (fetch_traffic_data serving_html 50 fresh_world) = Raise JSONDecodeError
  /\ fst (fetch_traffic_data serving_number 50 fresh_world)
     = Raise (TypeError "object has no len()").
Proof.
  split.
  - destruct (fetch_traffic_data_body serving_html 50 fresh_world
                {| status_code := 200; json_body := None;
                   text := "<html>maintenance</html>" |} eq_refl) as (H & _).
    + cbn. lia.
    + apply H. reflexivity.
  - destruct (fetch_traffic_data_body serving_number 50 fresh_world
                {| status_code := 200; json_body := Some (JNum 7); text := "7" |} eq_refl)
      as (_ & H & _).
    + cbn. lia.
    + apply (H (JNum 7) (TypeError "object has no len()")); reflexivity.
Defined.

End TrafficApiMore.


(** ** pdf_processor.py, further properties *)

Module PdfProcessorMore.
Import Py PdfProcessor IngestPdfsNotions PdfProcessorNotions PyFacts.
Import IngestPdfsSpec PdfProcessorSpec.

Section WithServices.
Context {page : Type}.
Variable fitz_parse : string -> result (list page).
Variable get_text : page -> result string.
Variable disk_fault : string -> option save_fault.
Variable remove_fault : string -> option string.
Variable WEB_AI_INDEX_PATH : option string.

(** The page loop succeeds exactly when every page yields its text. *)
Lemma read_pages_outcome {St} (doc : list page) :
  forall acc (s : St),
    (Forall (fun p => exists t, get_text p = Ok t) doc
     /\ exists text, read_pages get_text doc acc s = (Ok text, s))
    \/ (~ Forall (fun p => exists t, get_text p = Ok t) doc
        /\ exists e, read_pages get_text doc acc s = (Raise e, s)).
Proof.
  induction doc as [|p doc IH]; intros acc s.
  - left. split; [constructor|]. now exists acc.
  - unfold read_pages. cbn [for_fold]. unfold bind at 1. unfold bind at 1, lift_result at 1.
    destruct (get_text p) as [t|e] eqn:Hp.
    + unfold ret at 1. fold (@read_pages page St get_text doc (acc +:+ t)).
      destruct (IH (acc +:+ t) s) as [[Hall Hrun]|[Hnot Hrun]].
      * left. split; [constructor; eauto|exact Hrun].
      * right. split; [|exact Hrun]. intros Hall. apply Hnot.
        now apply Forall_cons in Hall as [_ Hall].
    + right. split; [|eauto]. intros Hall. apply Forall_cons in Hall as [[t Ht] _].
      congruence.
Qed.

(** What the [try] block answers. *)
Lemma process_upload_outcome file filepath (fs : gmap string node) :
  let good :=
    fs !! filepath <> Some Dir
    /\ disk_fault filepath = None
    /\ exists doc,
         fitz_parse (stream file) = Ok doc
         /\ Forall (fun p => exists t, get_text p = Ok t) doc in
  exists resp,
    fst (process_upload fitz_parse get_text disk_fault WEB_AI_INDEX_PATH file filepath fs)
    = Ok resp
    /\ ((good
         /\ resp
            = if truthy WEB_AI_INDEX_PATH
              then message_response
                     "PDF processed and text extracted. WebAI index update attempted." 200
              else error_response "WebAI index path not configured on the server." 500)
        \/ (~ good
            /\ exists e, resp = error_response ("Error processing PDF: " +:+ exn_str e) 500)).
Proof.
  intros good. subst good.
  unfold process_upload, try_except. unfold bind at 1, file_save.
  destruct (fs !! filepath) as [[c|]|] eqn:Hlook.
  2:{ cbv beta iota. unfold ret. cbn [fst]. eexists. split; [reflexivity|].
      right. split; [intros (H & _); now contradiction H|eauto]. }
  all: destruct (disk_fault filepath) as [[e|n e]|] eqn:Hfault;
    try (cbv beta iota; unfold ret; cbn [fst]; eexists; split; [reflexivity|];
         right; split; [intros (_ & H & _); discriminate H|eauto]).
  all: unfold bind at 1, fitz_open; rewrite lookup_insert_eq;
    (destruct (fitz_parse (stream file)) as [doc|e] eqn:Hparse;
     [|cbv beta iota; unfold ret; cbn [fst]; eexists; split; [reflexivity|];
       right; split; [intros (_ & _ & doc & H & _); discriminate H|eauto]]).
  all: unfold bind at 1; fold (@read_pages page (gmap string node) get_text doc "");
    destruct (read_pages_outcome doc "" (<[filepath := File (stream file)]> fs))
      as [[Hall [text ->]]|[Hnot [e ->]]];
    cbv beta iota; unfold ret; cbn [fst].
  all: try (eexists; split; [reflexivity|];
            right; split; [|eauto];
            intros (_ & _ & doc' & Hdoc' & Hall); apply Hnot; congruence).
  all: destruct (truthy WEB_AI_INDEX_PATH); eexists; (split; [reflexivity|]);
    left; (split; [|reflexivity]); (split; [discriminate|]); eauto.
Qed.

(** X21.  For an upload whose name ends in [.pdf] the handler answers 200
    exactly when the save path is not a directory, the upload is written
    in full, PyMuPDF opens the uploaded bytes, every page yields its text
    and [WEB_AI_INDEX_PATH] is set to a non-empty string.  Every other
    answer is a 500 with an error message; in particular without an index
    path no upload is ever answered 200. *)
Theorem upload_and_index_pdf_ok_iff (req : request) (file : file_storage)
    (fs : gmap string node) :
  assoc_get "file" (files req) = Some file ->
  endswith (lower (filename file)) ".pdf" = true ->
  let filepath := path_join UPLOAD_FOLDER (filename file) in
  exists resp,
    fst (upload_and_index_pdf fitz_parse get_text disk_fault remove_fault WEB_AI_INDEX_PATH req fs)
    = Ok resp
    /\ (status resp = 200%Z <->
        fs !! filepath <> Some Dir
        /\ disk_fault filepath = None
        /\ (exists doc,
              fitz_parse (stream file) = Ok doc
              /\ Forall (fun p => exists t, get_text p = Ok t) doc)
        /\ truthy WEB_AI_INDEX_PATH = true)
    /\ (status resp = 200%Z ->
        resp = message_response
                 "PDF processed and text extracted. WebAI index update attempted." 200)
    /\ (status resp <> 200%Z ->
        status resp = 500%Z /\ exists msg, body resp = JObj [("error", JStr msg)]).
Proof.
  intros Hfile Hpdf filepath.
  assert (Hfst :
    fst (upload_and_index_pdf fitz_parse get_text disk_fault remove_fault WEB_AI_INDEX_PATH req fs)
    = fst (process_upload fitz_parse get_text disk_fault WEB_AI_INDEX_PATH file filepath fs)).
  { unfold upload_and_index_pdf. rewrite Hfile.
    destruct (String.eqb_spec (filename file) "") as [Hempty|Hname].
    { rewrite Hempty in Hpdf. discriminate Hpdf. }
    rewrite Hpdf. cbn [negb andb]. fold filepath. unfold try_finally.
    destruct (process_upload fitz_parse get_text disk_fault WEB_AI_INDEX_PATH
                file filepath fs) as [r s1].
    now rewrite cleanup_run. }
  rewrite Hfst.
  destruct (process_upload_outcome file filepath fs)
    as (resp & -> & [[(Hnodir & Hfault & Hdoc) ->]|[Hbad [e ->]]]).
  - destruct (truthy WEB_AI_INDEX_PATH) eqn:Hpath.
    + eexists. split; [reflexivity|]. cbn [status message_response].
      split; [split; [intros _; auto|reflexivity]|].
      split; [reflexivity|]. intros H. now contradiction H.
    + eexists. split; [reflexivity|]. cbn [status error_response body].
      split; [split; [discriminate|intros (_ & _ & _ & H); discriminate H]|].
      split; [discriminate|]. intros _. split; [reflexivity|eauto].
  - eexists. split; [reflexivity|]. cbn [status error_response body].
    split; [split; [discriminate|]|].
    + intros (Hnodir & Hfault & Hdoc & _). exfalso. apply Hbad. auto.
    + split; [discriminate|]. intros _. split; [reflexivity|eauto].
Qed.

(** X22.  The client's file name is joined to the upload folder as it
    comes.  A name that starts with a slash replaces the folder, so the
    handler saves to that absolute path and then removes it.  Whatever
    regular file the server had there is lost, whether the upload was a
    readable PDF or not: it is gone when [os.remove] succeeds, and when
    [os.remove] fails after a complete save it holds the uploaded bytes
    instead. *)
Theorem upload_and_index_pdf_absolute_name (req : request) (file : file_storage)
    (fs : gmap string node) :
  assoc_get "file" (files req) = Some file ->
  endswith (lower (filename file)) ".pdf" = true ->
  startswith (filename file) "/" = true ->
  let out := upload_and_index_pdf fitz_parse get_text disk_fault remove_fault
               WEB_AI_INDEX_PATH req fs in
  path_join UPLOAD_FOLDER (filename file) = filename file
  /\ (fs !! filename file <> Some Dir ->
      (remove_fault (filename file) = None -> snd out = delete (filename file) fs)
      /\ (forall msg,
            remove_fault (filename file) = Some msg -> disk_fault (filename file) = None ->
            snd out = <[filename file := File (stream file)]> fs)).
Proof.
  intros Hfile Hpdf Habs out.
  assert (Hpath : path_join UPLOAD_FOLDER (filename file) = filename file).
  { unfold path_join. now rewrite Habs. }
  split; [exact Hpath|]. intros Hnodir.
  destruct (upload_pdf_run fitz_parse get_text disk_fault remove_fault WEB_AI_INDEX_PATH
              req file fs Hfile Hpdf) as (resp & Hrun & _).
  subst out. rewrite Hrun. cbn [snd]. rewrite Hpath. split.
  - intros Hremove. rewrite Hremove.
    destruct (file_save_state disk_fault file (filename file) fs)
      as [_ [Hs1|[content Hs1]]]; rewrite Hs1.
    + destruct (fs !! filename file) as [[c|]|] eqn:Hlook.
      * reflexivity.
      * now contradiction Hnodir.
      * symmetry. now apply delete_id.
    + rewrite lookup_insert_eq. apply delete_insert_eq.
  - intros msg Hremove Hfault. rewrite Hremove.
    assert (Hsave : snd (file_save disk_fault file (filename file) fs)
                    = <[filename file := File (stream file)]> fs).
    { unfold file_save. rewrite Hfault.
      destruct (fs !! filename file) as [[c|]|]; try reflexivity. now contradiction Hnodir. }
    rewrite Hsave, lookup_insert_eq. reflexivity.
Qed.

End WithServices.

Lemma upload_and_index_pdf_ok_iff_witness :
  (exists resp,
     fst (upload_and_index_pdf toy_parse toy_get_text no_fault removable None
            (upload_of "report.pdf" "%PDF-1.4 incident") ∅) = Ok resp
     /\ status resp = 500%Z)
  /\ (exists resp,
        fst (upload_and_index_pdf toy_parse toy_get_text no_fault removable (Some "/index")
               (upload_of "report.pdf" "%PDF-1.4 incident") ∅) = Ok resp
        /\ status resp = 200%Z).
Proof.
  split.
  - destruct (upload_and_index_pdf_ok_iff toy_parse toy_get_text no_fault removable None
                (upload_of "report.pdf" "%PDF-1.4 incident")
                {| filename := "report.pdf"; stream := "%PDF-1.4 incident" |} ∅
                eq_refl eq_refl) as (resp & Hrun & Hiff & _ & Hother).
    exists resp. split; [exact Hrun|]. apply Hother.
    intros H200. apply Hiff in H200 as (_ & _ & _ & Hpath). discriminate Hpath.
  - destruct (upload_and_index_pdf_ok_iff toy_parse toy_get_text no_fault removable (Some "/index")
                (upload_of "report.pdf" "%PDF-1.4 incident")
                {| filename := "report.pdf"; stream := "%PDF-1.4 incident" |} ∅
                eq_refl eq_refl) as (resp & Hrun & Hiff & _).
    exists resp. split; [exact Hrun|]. apply Hiff.
    split; [rewrite lookup_empty; discriminate|]. split; [reflexivity|].
    split; [|reflexivity].
    exists ["%PDF-1.4 incident"]. split; [reflexivity|].
    constructor; [|constructor]. now exists "%PDF-1.4 incident".
Defined.

Lemma upload_and_index_pdf_absolute_name_witness :
  snd (upload_and_index_pdf toy_parse toy_get_text no_fault removable (Some "/index")
         (upload_of "/srv/app/ledger.pdf" "junk")
         {[ "/srv/app/ledger.pdf" := File "%PDF-1.4 accounts" ]})
  = delete "/srv/app/ledger.pdf" {[ "/srv/app/ledger.pdf" := File "%PDF-1.4 accounts" ]}
  /\ snd (upload_and_index_pdf toy_parse toy_get_text no_fault remove_denied (Some "/index")
            (upload_of "/srv/app/ledger.pdf" "junk")
            {[ "/srv/app/ledger.pdf" := File "%PDF-1.4 accounts" ]})
     = <["/srv/app/ledger.pdf" := File "junk"]>
         {[ "/srv/app/ledger.pdf" := File "%PDF-1.4 accounts" ]}.
Proof.
  split.
  - destruct (upload_and_index_pdf_absolute_name toy_parse toy_get_text no_fault removable
                (Some "/index") (upload_of "/srv/app/ledger.pdf" "junk")
                {| filename := "/srv/app/ledger.pdf"; stream := "junk" |}
                {[ "/srv/app/ledger.pdf" := File "%PDF-1.4 accounts" ]}
                eq_refl eq_refl eq_refl) as (_ & Hlost).
    destruct Hlost as (Hgone & _); [rewrite lookup_singleton_eq; discriminate|].
    apply Hgone. reflexivity.
  - destruct (upload_and_index_pdf_absolute_name toy_parse toy_get_text no_fault remove_denied
                (Some "/index") (upload_of "/srv/app/ledger.pdf" "junk")
                {| filename := "/srv/app/ledger.pdf"; stream := "junk" |}
                {[ "/srv/app/ledger.pdf" := File "%PDF-1.4 accounts" ]}
                eq_refl eq_refl eq_refl) as (_ & Hlost).
    destruct Hlost as (_ & Hreplaced); [rewrite lookup_singleton_eq; discriminate|].
    apply (Hreplaced "[Errno 13] Permission denied: '/srv/app/ledger.pdf'"); reflexivity.
Defined.

End PdfProcessorMore.


(** ** os.path and suffixes *)

Module OsPathFacts.
Import Py OsPath TrafficApiNotions IngestPdfsSpec.

Lemma rev_app_append (a t : string) : String.rev_app a t = String.rev_app a "" +:+ t.
Proof.
  revert t. induction a as [|c a IH]; intros t; [reflexivity|].
  cbn [String.rev_app]. rewrite (IH (String c t)), (IH (String c "")).
  now rewrite append_assoc.
Qed.

Lemma rev_append (a b : string) : String.rev (a +:+ b) = String.rev b +:+ String.rev a.
Proof.
  unfold String.rev. induction a as [|c a IH].
  - change ("" +:+ b) with b. cbn [String.rev_app]. now rewrite append_empty_r.
  - change (String c a +:+ b) with (String c (a +:+ b)). cbn [String.rev_app].
    rewrite (rev_app_append (a +:+ b)), IH, (rev_app_append a (String c "")).
    now rewrite append_assoc.
Qed.

Lemma rev_involutive (s : string) : String.rev (String.rev s) = s.
Proof.
  induction s as [|c s IH]; [reflexivity|].
  change (String c s) with (String c "" +:+ s) at 1.
  rewrite rev_append, rev_append, IH. reflexivity.
Qed.

Lemma startswith_append (p t : string) : startswith (p +:+ t) p = true.
Proof.
  induction p as [|c p IH]; [now destruct t|].
  change (String c p +:+ t) with (String c (p +:+ t)). cbn [startswith].
  now rewrite Ascii.eqb_refl.
Qed.

Lemma startswith_inv (s p : string) : startswith s p = true -> exists t, s = p +:+ t.
Proof.
  revert s. induction p as [|c p IH]; intros s H; [now exists s|].
  destruct s as [|d s]; [discriminate H|]. cbn [startswith] in H.
  destruct (Ascii.eqb_spec c d) as [->|]; [|discriminate H].
  destruct (IH s H) as [t ->]. now exists t.
Qed.

Lemma endswith_append (pre p : string) : endswith (pre +:+ p) p = true.
Proof. unfold endswith. rewrite rev_append. apply startswith_append. Qed.

Lemma endswith_inv (s p : string) : endswith s p = true -> exists pre, s = pre +:+ p.
Proof.
  unfold endswith. intros H. apply startswith_inv in H as [t Ht].
  exists (String.rev t). rewrite <- (rev_involutive s), Ht, rev_append.
  now rewrite rev_involutive.
Qed.

Lemma map_string_append f (a b : string) :
  map_string f (a +:+ b) = map_string f a +:+ map_string f b.
Proof.
  induction a as [|c a IH]; [reflexivity|].
  change (String c a +:+ b) with (String c (a +:+ b)). cbn [map_string].
  rewrite IH. reflexivity.
Qed.

Lemma has_slash_append (a b : string) : has_slash (a +:+ b) = has_slash a || has_slash b.
Proof.
  induction a as [|c a IH]; [reflexivity|].
  change (String c a +:+ b) with (String c (a +:+ b)). cbn [has_slash].
  rewrite IH. now rewrite orb_assoc.
Qed.

Lemma lower_char_slash (c : ascii) : Ascii.eqb (lower_char c) "/" = Ascii.eqb c "/".
Proof. destruct c as [[] [] [] [] [] [] [] []]; reflexivity. Qed.

Lemma basename_from_no_slash (p tail : string) :
  has_slash p = false -> basename_from p tail = tail.
Proof.
  induction p as [|c p IH]; [reflexivity|]. cbn [has_slash basename_from].
  intros H. apply orb_false_iff in H as [-> H]. now apply IH.
Qed.

(** A suffix without a slash stays at the end of the base name. *)
Lemma basename_from_append (a b tail : string) :
  has_slash b = false ->
  basename_from (a +:+ b) (tail +:+ b) = basename_from a tail +:+ b.
Proof.
  intros Hb. revert tail. induction a as [|c a IH]; intros tail.
  - change ("" +:+ b) with b. now apply basename_from_no_slash.
  - change (String c a +:+ b) with (String c (a +:+ b)). cbn [basename_from].
    destruct (Ascii.eqb c "/"); apply IH.
Qed.

Lemma basename_append (a b : string) :
  has_slash b = false -> basename (a +:+ b) = basename a +:+ b.
Proof. intros Hb. unfold basename. now apply basename_from_append. Qed.

Lemma basename_from_lower (p tail : string) :
  basename_from (lower p) (lower tail) = lower (basename_from p tail).
Proof.
  revert tail. induction p as [|c p IH]; intros tail; [reflexivity|].
  unfold lower. cbn [map_string basename_from]. rewrite lower_char_slash.
  destruct (Ascii.eqb c "/"); apply IH.
Qed.

Lemma basename_lower (p : string) : basename (lower p) = lower (basename p).
Proof. apply basename_from_lower. Qed.

(** The base name has no slash. *)
Lemma basename_from_has_slash (p pre : string) :
  has_slash pre = false -> has_slash (basename_from p (pre +:+ p)) = false.
Proof.
  revert pre. induction p as [|c p IH]; intros pre Hpre.
  - cbn [basename_from]. now rewrite append_empty_r.
  - cbn [basename_from]. destruct (Ascii.eqb c "/") eqn:Hc.
    + apply (IH ""). reflexivity.
    + change (String c p) with (String c "" +:+ p). rewrite <- append_assoc.
      apply IH. rewrite has_slash_append, Hpre. cbn [has_slash]. now rewrite Hc.
Qed.

Lemma basename_has_slash (p : string) : has_slash (basename p) = false.
Proof. apply (basename_from_has_slash p ""). reflexivity. Qed.

Lemma startswith_has_slash (s : string) : has_slash s = false -> startswith s "/" = false.
Proof.
  destruct s as [|c s]; [reflexivity|]. cbn [has_slash startswith].
  intros H. apply orb_false_iff in H as [H _].
  rewrite Ascii.eqb_sym. now rewrite H.
Qed.

(** A path whose lower-case form ends in [.pdf] has such a base name. *)
Lemma basename_pdf (p : string) :
  endswith (lower p) ".pdf" = true -> endswith (lower (basename p)) ".pdf" = true.
Proof.
  intros H. apply endswith_inv in H as [pre Hpre].
  rewrite <- basename_lower, Hpre, basename_append by reflexivity.
  apply endswith_append.
Qed.

End OsPathFacts.


(** ** upload_pdfs.py against the handler of pdf_processor.py *)

Module UploadPdfsMore.
Import Py OsPath PdfProcessor UploadPdfs PdfProcessorNotions UploadPdfsNotions TrafficApiNotions.
Import PyFacts PdfProcessorSpec OsPathFacts.

Section WithServices.
Context {page : Type}.
Variable fitz_parse : string -> result (list page).
Variable get_text : page -> result string.
Variable disk_fault : string -> option save_fault.
Variable remove_fault : string -> option string.
Variable WEB_AI_INDEX_PATH : option string.
Variable open_rb : string -> result string.
Variable glob : string -> list string.

(** Where the handler saves an upload of that name. *)
Lemma path_join_upload (name : string) :
  has_slash name = false -> path_join UPLOAD_FOLDER name = "/tmp/pdf_uploads/" +:+ name.
Proof.
  intros H. unfold path_join. now rewrite (startswith_has_slash name H).
Qed.

(** The handler on an upload with a PDF name: it answers, touches no
    other path, and leaves no file at the path it saved to when the file
    there can be removed. *)
Lemma handler_effect req file (fs : gmap string node) :
  assoc_get "file" (files req) = Some file ->
  endswith (lower (filename file)) ".pdf" = true ->
  let filepath := path_join UPLOAD_FOLDER (filename file) in
  exists resp fs',
    upload_and_index_pdf fitz_parse get_text disk_fault remove_fault WEB_AI_INDEX_PATH req fs
    = (Ok resp, fs')
    /\ (status resp = 200%Z \/ status resp = 500%Z)
    /\ (remove_fault filepath = None -> forall content, fs' !! filepath <> Some (File content))
    /\ (forall p, p <> filepath -> fs' !! p = fs !! p).
Proof.
  intros Hfile Hpdf filepath.
  destruct (upload_pdf_run fitz_parse get_text disk_fault remove_fault WEB_AI_INDEX_PATH
              req file fs Hfile Hpdf) as (resp & Hrun & _ & Hstatus).
  fold filepath in Hrun. eexists resp, _. split; [exact Hrun|]. split; [exact Hstatus|].
  destruct (file_save_state disk_fault file filepath fs) as [_ [Hs1|[content Hs1]]];
    rewrite Hs1.
  - destruct (fs !! filepath) as [[c|]|] eqn:Hlook.
    + destruct (remove_fault filepath) as [msg|].
      * split; [discriminate|reflexivity].
      * split; [intros _ content; rewrite lookup_delete_eq; discriminate|].
        intros p Hp. now rewrite lookup_delete_ne.
    + split; [intros _ content; rewrite Hlook; discriminate|reflexivity].
    + split; [intros _ content; rewrite Hlook; discriminate|reflexivity].
  - rewrite lookup_insert_eq. destruct (remove_fault filepath) as [msg|].
    + split; [discriminate|]. intros p Hp. now rewrite lookup_insert_ne.
    + split; [intros _ c; rewrite lookup_delete_eq; discriminate|].
      intros p Hp. now rewrite lookup_delete_ne, lookup_insert_ne.
Qed.

(** One upload against the handler. *)
Lemma upload_pdf_run_served file_path content (fs : gmap string node) :
  open_rb file_path = Ok content ->
  endswith (lower file_path) ".pdf" = true ->
  let handler := upload_and_index_pdf fitz_parse get_text disk_fault remove_fault
                   WEB_AI_INDEX_PATH in
  let saved := "/tmp/pdf_uploads/" +:+ basename file_path in
  exists resp fs',
    handler (upload_of (basename file_path) content) fs = (Ok resp, fs')
    /\ (status resp = 200%Z \/ status resp = 500%Z)
    /\ upload_pdf open_rb (served handler) file_path fs = (Ok tt, fs')
    /\ (remove_fault saved = None -> forall c, fs' !! saved <> Some (File c))
    /\ (forall p, p <> saved -> fs' !! p = fs !! p).
Proof.
  intros Hopen Hpdf handler saved.
  destruct (handler_effect (upload_of (basename file_path) content)
              {| filename := basename file_path; stream := content |} fs
              eq_refl (basename_pdf file_path Hpdf))
    as (resp & fs' & Hrun & Hstatus & Hgone & Hframe).
  cbn [filename] in Hgone, Hframe.
  rewrite (path_join_upload _ (basename_has_slash file_path)) in Hgone, Hframe.
  exists resp, fs'. split; [exact Hrun|]. split; [exact Hstatus|].
  split; [|split; assumption].
  unfold upload_pdf. unfold bind at 1, lift_result. rewrite Hopen.
  unfold bind at 1, served. change (String.eqb URL URL) with true. cbv iota.
  unfold bind at 1. fold (upload_of (basename file_path) content).
  fold handler. unfold handler at 1. rewrite Hrun. unfold ret at 1. cbn [status_code].
  destruct Hstatus as [->| ->]; reflexivity.
Qed.

(** X23.  An upload by this client is never refused by the handler.  The
    client sends the base name of the path, so for a readable file whose
    name ends in [.pdf] (in any case of the letters) the handler answers
    200 or 500 and [upload_pdf] returns; the server saves under
    [/tmp/pdf_uploads/<base name>] and changes no other path, and when
    the file there can be removed none is left afterwards.  A file that
    cannot be read raises before anything is sent. *)
Theorem upload_pdf_accepted file_path (fs : gmap string node) :
  let handler := upload_and_index_pdf fitz_parse get_text disk_fault remove_fault
                   WEB_AI_INDEX_PATH in
  let saved := "/tmp/pdf_uploads/" +:+ basename file_path in
  (forall e, open_rb file_path = Raise e ->
             upload_pdf open_rb (served handler) file_path fs = (Raise e, fs))
  /\ (forall content,
        open_rb file_path = Ok content ->
        endswith (lower file_path) ".pdf" = true ->
        path_join UPLOAD_FOLDER (basename file_path) = saved
        /\ exists resp fs',
             handler (upload_of (basename file_path) content) fs = (Ok resp, fs')
             /\ (status resp = 200%Z \/ status resp = 500%Z)
             /\ upload_pdf open_rb (served handler) file_path fs = (Ok tt, fs')
             /\ (remove_fault saved = None -> forall c, fs' !! saved <> Some (File c))
             /\ (forall p, p <> saved -> fs' !! p = fs !! p)).
Proof.
  intros handler saved. split.
  - intros e Hopen. unfold upload_pdf. unfold bind at 1, lift_result. now rewrite Hopen.
  - intros content Hopen Hpdf.
    split; [apply path_join_upload, basename_has_slash|].
    apply upload_pdf_run_served; assumption.
Qed.

(** X24.  [main] against the handler: when every path of the listing is
    readable and ends in [.pdf], all of them are uploaded and [main]
    returns, and every path of the server that is not an upload path is
    as before.  An upload path whose file can be removed holds no file
    afterwards. *)
Theorem main_uploads_leave_nothing (fs : gmap string node) :
  let handler := upload_and_index_pdf fitz_parse get_text disk_fault remove_fault
                   WEB_AI_INDEX_PATH in
  let pdf_files := glob "traffic_pdfs/*.pdf" in
  let saved f := "/tmp/pdf_uploads/" +:+ basename f in
  Forall (fun f => (exists content, open_rb f = Ok content)
                   /\ endswith (lower f) ".pdf" = true) pdf_files ->
  exists fs',
    main open_rb (served handler) glob fs = (Ok tt, fs')
    /\ (forall f c, f ∈ pdf_files -> remove_fault (saved f) = None ->
                    fs' !! saved f <> Some (File c))
    /\ (forall p, (forall f, f ∈ pdf_files -> p <> saved f) -> fs' !! p = fs !! p).
Proof.
  intros handler pdf_files saved Hall. unfold main.
  change (path_join PDF_DIR "*.pdf") with "traffic_pdfs/*.pdf". fold pdf_files.
  cbv zeta. revert fs. induction Hall as [|f rest [[content Hopen] Hpdf] _ IH]; intros fs.
  - exists fs. split; [reflexivity|]. split; [|reflexivity].
    intros f c Hin. now apply elem_of_nil in Hin.
  - cbn [for_fold]. unfold bind at 1.
    destruct (upload_pdf_run_served f content fs Hopen Hpdf)
      as (resp & fs1 & _ & _ & Hrun & Hgone & Hframe).
    fold handler in Hrun. rewrite Hrun.
    destruct (IH fs1) as (fs' & Hrest & Hgone' & Hframe').
    exists fs'. split; [exact Hrest|]. split.
    + intros g c Hin Hremove. apply elem_of_cons in Hin as [->|Hin]; [|now apply Hgone'].
      destruct (decide (Exists (fun h => saved h = saved f) rest)) as [Hagain|Hfresh].
      * apply Exists_exists in Hagain as (h & Hh & Heq). rewrite <- Heq.
        apply Hgone'; [exact Hh|]. now rewrite Heq.
      * rewrite Hframe'; [now apply Hgone|].
        intros h Hh Heq. apply Hfresh, Exists_exists. exists h.
        split; [exact Hh|now symmetry].
    + intros p Hp. rewrite Hframe'.
      * apply Hframe, Hp. now left.
      * intros h Hh. apply Hp. now right.
Qed.

End WithServices.

Lemma upload_pdf_accepted_witness :
  upload_pdf toy_files
    (served (upload_and_index_pdf toy_parse toy_get_text no_fault removable (Some "/index")))
    "traffic_pdfs/missing.pdf" ∅
  = (Raise (FileNotFoundError "traffic_pdfs/missing.pdf"), ∅)
  /\ path_join UPLOAD_FOLDER (basename "traffic_pdfs/notes.PDF") = "/tmp/pdf_uploads/notes.PDF".
Proof.
  destruct (upload_pdf_accepted toy_parse toy_get_text no_fault removable (Some "/index")
              toy_files "traffic_pdfs/missing.pdf" ∅) as (Hmissing & _).
  destruct (upload_pdf_accepted toy_parse toy_get_text no_fault removable (Some "/index")
              toy_files "traffic_pdfs/notes.PDF" ∅) as (_ & Hsent).
  split.
  - apply (Hmissing (FileNotFoundError "traffic_pdfs/missing.pdf")). reflexivity.
  - destruct (Hsent "plain notes" eq_refl eq_refl) as (Hpath & _). exact Hpath.
Defined.

Lemma main_uploads_leave_nothing_witness :
  exists fs',
    main toy_files
      (served (upload_and_index_pdf toy_parse toy_get_text no_fault removable (Some "/index")))
      two_uploads {[ "/tmp/pdf_uploads/notes.PDF" := File "left by an earlier run" ]}
    = (Ok tt, fs')
    /\ fs' !! "/tmp/pdf_uploads/notes.PDF" <> Some (File "left by an earlier run").
Proof.
  destruct (main_uploads_leave_nothing toy_parse toy_get_text no_fault removable
              (Some "/index") toy_files two_uploads
              {[ "/tmp/pdf_uploads/notes.PDF" := File "left by an earlier run" ]})
    as (fs' & Hrun & Hgone & _).
  - repeat constructor; try reflexivity; eexists; reflexivity.
  - exists fs'. split; [exact Hrun|].
    apply (Hgone "traffic_pdfs/notes.PDF" "left by an earlier run").
    + apply list_elem_of_In. right. now left.
    + reflexivity.
Defined.

End UploadPdfsMore.


(** ** ingest_pdfs.py, [main] *)

Module IngestPdfsMainMore.
Import Py Process OsPath IngestPdfs RAGInference IngestPdfsMain.
Import IngestPdfsNotions RAGInferenceNotions RAGInferenceMoreNotions IngestPdfsMainNotions.
Import PyFacts IngestPdfsSpec RAGInferenceMore.

Section WithServices.
Context {page store embedding : Type}.
Variable fitz_open : string -> result (list page).
Variable get_text : page -> result string.
Variable glob : string -> list string.
Variable encode : string -> result embedding.
Variable encode_batch : list string -> result (list embedding).
Variable collection_query : store -> list embedding -> Z -> result query_result.
Variable collection_add :
  store -> list string -> list embedding -> list string -> result store.
Variable chromadb_client : result unit.
Variable get_or_create_collection : store -> string -> string -> result store.
Variable sentence_transformer : string -> result unit.
Variable svc : services.

Lemma pages_cases (pages : list page) :
  (exists texts, Forall2 (fun p t => get_text p = Ok t) pages texts)
  \/ Exists (fun p => exists e, get_text p = Raise e) pages.
Proof.
  induction pages as [|p pages [[texts IH]|IH]].
  - left. exists []. constructor.
  - destruct (get_text p) as [t|e] eqn:Hp.
    + left. exists (t :: texts). now constructor.
    + right. apply Exists_cons_hd. eauto.
  - right. now apply Exists_cons_tl.
Qed.

(** What the function returns does not depend on the state it runs in. *)
Lemma extract_uniform (pdf_file : string) :
  exists r, forall St (s : St),
    extract_text_from_pdf fitz_open get_text pdf_file s = (Ok r, s).
Proof.
  destruct (fitz_open pdf_file) as [pages|e] eqn:Hopen.
  - destruct (pages_cases pages) as [[texts Hall]|Hex].
    + exists (Some (concat_texts texts)). intros St s.
      unfold extract_text_from_pdf, try_except. unfold bind at 1, lift_result at 1.
      rewrite Hopen. unfold bind at 1. fold (@read_pages page St get_text pages "").
      rewrite (read_pages_ok get_text pages texts Hall "" s). reflexivity.
    + exists None. intros St s.
      unfold extract_text_from_pdf, try_except. unfold bind at 1, lift_result at 1.
      rewrite Hopen. unfold bind at 1. fold (@read_pages page St get_text pages "").
      destruct (read_pages_raise get_text pages Hex "" s) as [e ->]. reflexivity.
  - exists None. intros St s.
    unfold extract_text_from_pdf, try_except, bind, lift_result. now rewrite Hopen.
Qed.

Lemma extract_state {St} (pdf_file : string) (s : St) :
  extract_text_from_pdf fitz_open get_text pdf_file s
  = (Ok (extracted fitz_open get_text pdf_file), s).
Proof.
  destruct (extract_uniform pdf_file) as [r Hr].
  unfold extracted. now rewrite (Hr unit tt), (Hr St s).
Qed.

Lemma gather_run {St} (pdf_files : list string) :
  forall (acc : list string * list string) (s : St),
    for_fold
      (fun (acc : list string * list string) pdf_file =>
         bind (extract_text_from_pdf fitz_open get_text pdf_file)
           (fun text =>
              match text with
              | Some t =>
                  if String.eqb t "" then ret acc
                  else ret (acc.1 ++ [t], acc.2 ++ [basename pdf_file])
              | None => ret acc
              end))
      pdf_files acc s
    = (Ok (acc.1 ++ map (text_of fitz_open get_text)
                      (List.filter (has_text fitz_open get_text) pdf_files),
           acc.2 ++ map basename (List.filter (has_text fitz_open get_text) pdf_files)),
       s).
Proof.
  induction pdf_files as [|f rest IH]; intros [docs ids] s.
  - cbn. now rewrite !app_nil_r.
  - cbn [for_fold]. unfold bind at 1. unfold bind at 1. rewrite extract_state.
    cbn [List.filter].
    assert (Hkeep : has_text fitz_open get_text f
                    = match extracted fitz_open get_text f with
                      | Some t => negb (String.eqb t "")
                      | None => false
                      end) by reflexivity.
    assert (Htext : text_of fitz_open get_text f
                    = match extracted fitz_open get_text f with
                      | Some t => t
                      | None => ""
                      end) by reflexivity.
    destruct (extracted fitz_open get_text f) as [t|].
    + destruct (String.eqb t ""); cbn [negb] in Hkeep; rewrite Hkeep;
        unfold ret at 1; rewrite IH; cbn [fst snd map].
      * reflexivity.
      * rewrite Htext. now rewrite <- !app_assoc.
    + rewrite Hkeep. unfold ret at 1. apply IH.
Qed.

(** X25.  The loop of [main] keeps the files whose extraction gave a
    non-empty text, in the order of the listing: the documents are the
    texts of these files and the ids their base names, position by
    position.  A file that cannot be read, or has no text, is left out
    without an error. *)
Theorem gather_aligned {St} (pdf_files : list string) (s : St) :
  let kept := List.filter (has_text fitz_open get_text) pdf_files in
  gather fitz_open get_text pdf_files s
  = (Ok (map (text_of fitz_open get_text) kept, map basename kept), s)
  /\ Forall (fun f => text_of fitz_open get_text f <> ""
                     /\ extract_text_from_pdf fitz_open get_text f s
                        = (Ok (Some (text_of fitz_open get_text f)), s)) kept
  /\ Forall (fun f => In f kept
                     \/ extract_text_from_pdf fitz_open get_text f s = (Ok None, s)
                     \/ extract_text_from_pdf fitz_open get_text f s = (Ok (Some ""), s))
            pdf_files.
Proof.
  intros kept. split; [|split].
  - unfold gather. now rewrite gather_run.
  - apply List.Forall_forall. intros f Hf. apply List.filter_In in Hf as [_ Hf].
    rewrite extract_state. unfold has_text in Hf. unfold text_of.
    destruct (extracted fitz_open get_text f) as [t|]; [|discriminate Hf].
    split; [|reflexivity]. intros ->. discriminate Hf.
  - apply List.Forall_forall. intros f Hf. rewrite extract_state.
    destruct (has_text fitz_open get_text f) eqn:Hkeep.
    + left. apply List.filter_In. now split.
    + right. unfold has_text in Hkeep.
      destruct (extracted fitz_open get_text f) as [t|]; [|now left].
      right. apply negb_false_iff, String.eqb_eq in Hkeep. now subst t.
Qed.

(** X26.  [main] builds the pipeline first: when that fails, at the
    client, the collection, the encoder or the LLM handler, [main] ends
    with that exception and nothing is added or asked.  With a pipeline,
    when no file yields a text nothing is added and nothing is asked.
    Otherwise the texts are added under the base names of their files, in
    one call; when that call raises, the error leaves [main] and the test
    query is not made; when it succeeds, the collection is the one the
    call produced. *)
Theorem main_outcome (s : @State store embedding) :
  let kept := List.filter (has_text fitz_open get_text) (glob "traffic_pdfs/*.pdf") in
  let docs := map (text_of fitz_open get_text) kept in
  let ids := map basename kept in
  let built := _initialize_pipeline chromadb_client get_or_create_collection
                 sentence_transformer svc "openai" None s in
  let run := main fitz_open get_text glob encode encode_batch collection_query
                  collection_add chromadb_client get_or_create_collection
                  sentence_transformer svc s in
  (forall e s1,
     built = (Raise e, s1) ->
     run = (Raise e, s1) /\ collection_calls s1 = collection_calls s)
  /\ (forall self s1,
        built = (Ok self, s1) ->
        kept = [] ->
        run = (Ok tt, s1) /\ collection_calls s1 = collection_calls s)
  /\ (forall self s1 embs e,
        built = (Ok self, s1) ->
        kept <> [] ->
        encode_batch docs = Ok embs ->
        collection_add (collection s1) docs embs ids = Raise e ->
        run = (Raise e,
               {| world := world s1; collection := collection s1;
                  collection_calls := collection_calls s ++ [CollectionAdd docs embs ids] |}))
  /\ (forall self s1 embs c,
        built = (Ok self, s1) ->
        kept <> [] ->
        encode_batch docs = Ok embs ->
        collection_add (collection s1) docs embs ids = Ok c ->
        collection (snd run) = c
        /\ exists rest,
             collection_calls (snd run)
             = collection_calls s ++ CollectionAdd docs embs ids :: rest).
Proof.
  intros kept docs ids built run.
  assert (Hcalls : collection_calls (snd built) = collection_calls s)
    by apply _initialize_pipeline_calls.
  assert (Hraise : forall e s1, built = (Raise e, s1) -> run = (Raise e, s1)).
  { intros e s1 Hbuilt. subst run. unfold main. unfold bind at 1.
    fold built. now rewrite Hbuilt. }
  assert (Hbuilt : forall self s1,
            built = (Ok self, s1) ->
            run
            = match docs with
              | [] => (Ok tt, s1)
              | _ :: _ =>
                  bind (add_documents encode_batch collection_add self docs (Some ids))
                    (fun _ =>
                       bind (query encode collection_query svc self TEST_QUERY DEFAULT_TOP_K)
                         (fun _ => ret tt))
                    s1
              end).
  { intros self s1 Hok. subst run. unfold main. unfold bind at 1.
    fold built. rewrite Hok.
    change (PdfProcessor.path_join PDF_DIR "*.pdf") with "traffic_pdfs/*.pdf".
    cbv zeta. unfold bind at 1, gather. rewrite gather_run. cbn [fst snd app].
    fold kept. fold docs. fold ids. now destruct docs. }
  split; [|split; [|split]].
  - intros e s1 Hfail. split; [now apply Hraise|]. now rewrite Hfail in Hcalls.
  - intros self s1 Hok Hkept. rewrite Hok in Hcalls. split; [|exact Hcalls].
    rewrite (Hbuilt self s1 Hok). subst docs. now rewrite Hkept.
  - intros self s1 embs e Hok Hkept Henc Hadd. rewrite (Hbuilt self s1 Hok).
    rewrite Hok in Hcalls. cbn [snd] in Hcalls.
    assert (Hdocs : docs <> []).
    { subst docs. intros Hnil. apply map_eq_nil in Hnil. contradiction. }
    destruct docs as [|d docs'] eqn:Hd; [contradiction|]. rewrite <- Hd in *.
    unfold bind at 1, add_documents. rewrite try_except_reraise.
    unfold bind at 1, lift_result. rewrite Henc. unfold do_collection_add.
    rewrite Hadd, Hcalls. reflexivity.
  - intros self s1 embs c Hok Hkept Henc Hadd.
    rewrite Hok in Hcalls. cbn [snd] in Hcalls.
    set (s2 := {| world := world s1; collection := c;
                  collection_calls := collection_calls s ++ [CollectionAdd docs embs ids] |}).
    assert (Hsnd : snd run
                   = snd (query encode collection_query svc self TEST_QUERY DEFAULT_TOP_K s2)).
    { subst s2. rewrite (Hbuilt self s1 Hok).
      assert (Hdocs : docs <> []).
      { subst docs. intros Hnil. apply map_eq_nil in Hnil. contradiction. }
      destruct docs as [|d docs'] eqn:Hd; [contradiction|]. rewrite <- Hd in *.
      unfold bind at 1, add_documents. rewrite try_except_reraise.
      unfold bind at 1, lift_result. rewrite Henc. unfold do_collection_add.
      rewrite Hadd, Hcalls.
      unfold bind.
      match goal with
      | |- context [query ?enc ?cq ?sv ?slf ?q ?k ?st] =>
          destruct (query enc cq sv slf q k st) as [[r|e] s3]
      end; reflexivity. }
    rewrite Hsnd.
    destruct (query_state encode collection_query svc self TEST_QUERY DEFAULT_TOP_K s2)
      as [Hfail Hasked].
    destruct (encode TEST_QUERY) as [emb|e] eqn:Hq.
    + destruct (Hasked emb eq_refl) as [w2 ->].
      subst s2. unfold with_world, queried. cbn [collection collection_calls world].
      split; [reflexivity|]. rewrite <- app_assoc. eauto.
    + rewrite (Hfail e eq_refl). subst s2. cbn [snd collection collection_calls].
      split; [reflexivity|]. eauto.
Qed.

End WithServices.

Lemma gather_aligned_witness :
  gather toy_open toy_get_text
    [ "traffic_pdfs/damaged.pdf"; "traffic_pdfs/incident_A1.pdf"; "traffic_pdfs/missing.pdf" ]
    tt
  = (Ok (["Traffic Incident: A1 Status: ACTIVE"], ["incident_A1.pdf"]), tt).
Proof.
  destruct (gather_aligned toy_open toy_get_text
              [ "traffic_pdfs/damaged.pdf"; "traffic_pdfs/incident_A1.pdf";
                "traffic_pdfs/missing.pdf" ] tt) as (Hrun & _).
  exact Hrun.
Defined.

Lemma main_outcome_witness :
  main toy_open toy_get_text no_pdfs toy_encode toy_encode_batch toy_query toy_add
       toy_client toy_get_or_create transformer_offline
       LLMHandlerNotions.flaky_services toy_state
  = (Raise (Exception "Cannot load model all-MiniLM-L6-v2"), toy_state)
  /\ fst (main toy_open toy_get_text no_pdfs toy_encode toy_encode_batch toy_query toy_add
            toy_client toy_get_or_create toy_transformer
            LLMHandlerNotions.flaky_services toy_state)
     = Ok tt.
Proof.
  split.
  - destruct (main_outcome toy_open toy_get_text no_pdfs toy_encode toy_encode_batch
                toy_query toy_add toy_client toy_get_or_create transformer_offline
                LLMHandlerNotions.flaky_services toy_state) as (Hfails & _).
    apply (Hfails (Exception "Cannot load model all-MiniLM-L6-v2") toy_state).
    reflexivity.
  - destruct (main_outcome toy_open toy_get_text no_pdfs toy_encode toy_encode_batch
                toy_query toy_add toy_client toy_get_or_create toy_transformer
                LLMHandlerNotions.flaky_services toy_state) as (_ & Hnone & _).
    destruct (_initialize_pipeline toy_client toy_get_or_create toy_transformer
                LLMHandlerNotions.flaky_services "openai" None toy_state)
      as [[self|e] s1] eqn:Hbuilt.
    + destruct (Hnone self s1 eq_refl eq_refl) as [-> _]. reflexivity.
    + vm_compute in Hbuilt. discriminate Hbuilt.
Defined.

End IngestPdfsMainMore.
